(** * Be-Saavy notification timing engine: NotificationService and
      SmartNotificationTiming

    A shallow embedding of the two TypeScript classes that decide when a
    recall notification is delivered, and the properties of the timing
    specification stated over it.

    Modelling conventions.
    - A JavaScript number that holds learned or configured data (a response
      rate, a reliability, a score) is an exact rational [Q]; the rounding of
      IEEE doubles is outside the model.  A number produced by converting a
      string is a [jsnum]: a rational, an infinity or NaN.
    - An hour of the day or a weekday index is an integer [Z].
    - A [Date] is its count of milliseconds since the epoch, read in a local
      time zone that coincides with UTC and has no daylight-saving shifts.
    - An object used as a dictionary is a [gmap] over its string keys.
    - A public method runs at one reading [now] of the clock. *)

From Stdlib Require Import ZArith QArith Qminmax Lqa Lia Bool List String Ascii.
From Stdlib Require Import Sorted.
From stdpp Require Import base option gmap strings list sorting pretty.
Import ListNotations.

Local Open Scope Z_scope.

(** ** JavaScript numbers, strings and dates *)

Module JS.

Inductive jsnum : Type :=
| NaN
| NegInf
| Fin (q : Q)
| PosInf.

Definition Qltb (a b : Q) : bool := negb (Qle_bool b a).

(** [a + b] *)
Definition add (a b : jsnum) : jsnum :=
  match a, b with
  | NaN, _ | _, NaN => NaN
  | PosInf, NegInf | NegInf, PosInf => NaN
  | PosInf, _ | _, PosInf => PosInf
  | NegInf, _ | _, NegInf => NegInf
  | Fin x, Fin y => Fin (x + y)
  end.

Definition scaleInf (positive : bool) (q : Q) : jsnum :=
  if Qeq_bool q 0 then NaN
  else if Bool.eqb positive (Qltb 0 q) then PosInf else NegInf.

(** [a * b] *)
Definition mul (a b : jsnum) : jsnum :=
  match a, b with
  | NaN, _ | _, NaN => NaN
  | Fin x, Fin y => Fin (x * y)
  | PosInf, Fin y => scaleInf true y
  | NegInf, Fin y => scaleInf false y
  | Fin x, PosInf => scaleInf true x
  | Fin x, NegInf => scaleInf false x
  | PosInf, PosInf | NegInf, NegInf => PosInf
  | PosInf, NegInf | NegInf, PosInf => NegInf
  end.

(** [a / d] for a non-zero literal divisor [d] (the code divides by 60 only). *)
Definition divLit (a : jsnum) (d : Q) : jsnum :=
  match a with
  | NaN => NaN
  | Fin x => Fin (x / d)
  | PosInf => if Qltb 0 d then PosInf else NegInf
  | NegInf => if Qltb 0 d then NegInf else PosInf
  end.

(** [a <= b]; every comparison with NaN is false. *)
Definition le (a b : jsnum) : bool :=
  match a, b with
  | NaN, _ | _, NaN => false
  | NegInf, _ => true
  | _, PosInf => true
  | Fin x, Fin y => Qle_bool x y
  | Fin _, NegInf => false
  | PosInf, _ => false
  end.

(** [a >= b] *)
Definition ge (a b : jsnum) : bool := le b a.

(** [a > b] *)
Definition gt (a b : jsnum) : bool :=
  match a, b with
  | NaN, _ | _, NaN => false
  | _, _ => negb (le a b)
  end.

Definition ofZ (z : Z) : jsnum := Fin (inject_Z z).


(** [Math.max] and [Math.min] on data numbers. *)
Definition Math_max (a b : Q) : Q := if Qle_bool a b then b else a.
Definition Math_min (a b : Q) : Q := if Qle_bool a b then a else b.

(** [x || d] on a property read that may be [undefined]: the default is
    taken when the property is absent and also when it holds the falsy
    number 0. *)
Definition orDefault (x : option Q) (d : Q) : Q :=
  match x with
  | Some q => if Qeq_bool q 0 then d else q
  | None => d
  end.

(** [n.toString()] of an integer (of fewer than 22 digits, beyond which
    JavaScript switches to exponent notation). *)
Definition toString (n : Z) : string := pretty n.

(** [s.split(sep)] for a one-character separator: the piece before the
    first separator paired with the remaining pieces. *)
Fixpoint splitFrom (sep : ascii) (s : string) : string * list string :=
  match s with
  | EmptyString => (EmptyString, [])
  | String c rest =>
      let '(piece, pieces) := splitFrom sep rest in
      if Ascii.eqb c sep then (EmptyString, piece :: pieces)
      else (String c piece, pieces)
  end.

Definition split (sep : ascii) (s : string) : list string :=
  let '(piece, pieces) := splitFrom sep s in piece :: pieces.

(** Array destructuring [[a, b] = xs] followed by arithmetic: a missing
    element is [undefined], which arithmetic reads as NaN. *)
Definition elemNum (xs : list jsnum) (i : nat) : jsnum := nth i xs NaN.

(** *** Decimal reading of digit strings

    The part of the [Number(string)] conversion that the clock strings of
    the application exercise: the empty string is 0, a string of decimal
    digits is the integer it spells.  Signs, fractions, exponents, radix
    prefixes, blanks and the word Infinity are not interpreted by this
    instance: the functions below are parametric in the conversion, the
    properties assume at most that it reads digit strings this way, and the
    instance serves to evaluate them on the clock strings of concrete
    profiles. *)
Definition digitVal (c : ascii) : option Z :=
  let n := Z.of_nat (nat_of_ascii c) in
  if (48 <=? n) && (n <=? 57) then Some (n - 48) else None.

Fixpoint decimalFrom (acc : Z) (s : string) : option Z :=
  match s with
  | EmptyString => Some acc
  | String c rest =>
      match digitVal c with
      | Some d => decimalFrom (10 * acc + d) rest
      | None => None
      end
  end.

Definition NumberDigits (s : string) : jsnum :=
  match decimalFrom 0 s with
  | Some n => ofZ n
  | None => NaN
  end.

(** *** Dates *)

Definition msPerMinute : Z := 60 * 1000.
Definition msPerHour : Z := 60 * 60 * 1000.
Definition msPerDay : Z := 24 * 60 * 60 * 1000.

(** A [Date] object: a time value, or the Invalid Date. *)
Inductive Date : Type :=
| InvalidDate
| At (ms : Z).

Definition getHours (t : Z) : Z := (t / msPerHour) mod 24.
Definition getMinutes (t : Z) : Z := (t / msPerMinute) mod 60.
(** 1 January 1970 was a Thursday (index 4, Sunday being 0). *)
Definition getDay (t : Z) : Z := (t / msPerDay + 4) mod 7.
Definition startOfDay (t : Z) : Z := (t / msPerDay) * msPerDay.
(** [d.setHours(h, 0, 0, 0)] *)
Definition setHours (t : Z) (h : Z) : Z := startOfDay t + h * msPerHour.
(** [d.setDate(d.getDate() + 1)] *)
Definition nextDay (t : Z) : Z := t + msPerDay.

End JS.

Import JS.

(** ** Shared vocabulary of the two classes *)

Inductive urgency : Type := critical | high | medium.

Inductive contentType : Type := recall | development | general.

Definition urgency_eqb (a b : urgency) : bool :=
  match a, b with
  | critical, critical | high, high | medium, medium => true
  | _, _ => false
  end.

Definition contentType_eqb (a b : contentType) : bool :=
  match a, b with
  | recall, recall | development, development | general, general => true
  | _, _ => false
  end.

(** ** SmartNotificationTiming *)

Module SmartNotificationTiming.

Record QuietPeriod : Type := mkQuiet {
  quietStart : string;
  quietEnd : string
}.

Record NapTime : Type := mkNap {
  napStart : string;
  napEnd : string;
  reliability : Q
}.

Record FussyPeriod : Type := mkFussy {
  fussyStart : string;
  fussyEnd : string;
  intensity : Q
}.

Record ClockHabit : Type := mkHabit {
  time : string;
  consistency : Q
}.

Record UserBehaviorPattern : Type := mkBehavior {
  appUsageHours : list Z;
  responseRates : gmap string Q;
  averageResponseTime : gmap string Q;
  quietPeriods : list QuietPeriod;
  lastActiveTime : Z;
  weeklyPattern : gmap string (list Z)
}.

Record BabyScheduleData : Type := mkSchedule {
  napTimes : list NapTime;
  bedtime : ClockHabit;
  wakeupTime : ClockHabit;
  feedingTimes : list Z;
  fussyPeriods : list FussyPeriod
}.

(** Of the contextual factors only [dayOfWeek] is ever read. *)
Record ContextualFactors : Type := mkContext {
  dayOfWeek : Z;
  isHoliday : bool
}.

(** The private fields of the class. *)
Record T : Type := mkTiming {
  userBehavior : UserBehaviorPattern;
  babySchedule : BabyScheduleData;
  contextualFactors : ContextualFactors
}.

Record OptimalTimingResult : Type := mkResult {
  recommendedTime : Date;
  confidence : Q;
  reasoning : string;
  shouldDelayReason : option string
}.

Record DelayCheck : Type := mkDelay {
  shouldDelay : bool;
  reason : string;
  delayConfidence : Q
}.

Definition days : list string :=
  ["sunday"; "monday"; "tuesday"; "wednesday"; "thursday"; "friday";
   "saturday"]%string.

(** [days[dayIndex]]; an index outside the array reads [undefined], which
    as a property key is the string "undefined". *)
Definition getDayName (dayIndex : Z) : string :=
  if dayIndex <? 0 then "undefined"%string
  else nth (Z.to_nat dayIndex) days "undefined"%string.

(** [includes] on an array of hours. *)
Definition includes (hours : list Z) (hour : Z) : bool :=
  existsb (Z.eqb hour) hours.

(** [responseRates[hour.toString()] || 0.5] *)
Definition responseRateAt (ub : UserBehaviorPattern) (hour : Z) : Q :=
  orDefault (responseRates ub !! toString hour) 0.5.

(** [averageResponseTime[hour.toString()] || 15] *)
Definition avgResponseTimeAt (ub : UserBehaviorPattern) (hour : Z) : Q :=
  orDefault (averageResponseTime ub !! toString hour) 15.

(** [weeklyPattern[dayName] || appUsageHours]: an array, even an empty
    one, is truthy. *)
Definition patternOf (ub : UserBehaviorPattern) (dayIndex : Z) : list Z :=
  default (appUsageHours ub) (weeklyPattern ub !! getDayName dayIndex).

Section Timing.

(** The conversion [Number] applied to the pieces of a clock string. *)
Variable Number : string -> jsnum.

(** [[hours, minutes] = timeStr.split(':').map(Number);
     return hours + minutes / 60] *)
Definition parseTime (timeStr : string) : jsnum :=
  let parts := map Number (split ":" timeStr) in
  add (elemNum parts 0) (divLit (elemNum parts 1) 60).

Definition isHourInRange (hour start end_ : jsnum) : bool :=
  if le start end_ then ge hour start && le hour end_
  else ge hour start || le hour end_.

Definition isTimeInQuietPeriod (t : Z) (quiet : QuietPeriod) : bool :=
  let timeHour := Fin (inject_Z (getHours t) + inject_Z (getMinutes t) / 60) in
  isHourInRange timeHour (parseTime (quietStart quiet))
    (parseTime (quietEnd quiet)).

Definition napStep (hour : Z) (conflict : Q) (nap : NapTime) : Q :=
  if isHourInRange (ofZ hour) (parseTime (napStart nap)) (parseTime (napEnd nap))
  then conflict + reliability nap * 0.8
  else conflict.

Definition fussyStep (hour : Z) (conflict : Q) (fussy : FussyPeriod) : Q :=
  if isHourInRange (ofZ hour) (parseTime (fussyStart fussy))
       (parseTime (fussyEnd fussy))
  then conflict + intensity fussy * 0.6
  else conflict.

Definition getBabyScheduleConflict (bs : BabyScheduleData) (hour : Z) : Q :=
  let conflict := 0%Q in
  let conflict := fold_left (napStep hour) (napTimes bs) conflict in
  let conflict := fold_left (fussyStep hour) (fussyPeriods bs) conflict in
  let conflict :=
    if includes (feedingTimes bs) hour then (conflict + 0.2)%Q else conflict in
  Math_min conflict 1.

(** The score that the loop of [calculateOptimalHour] stores for one
    candidate hour. *)
Definition hourScore (st : T) (u : urgency) (ct : contentType) (hour : Z) : Q :=
  let score := 0%Q in
  let responseRate := responseRateAt (userBehavior st) hour in
  let score := (score + responseRate * 40)%Q in
  let avgResponseTime := avgResponseTimeAt (userBehavior st) hour in
  let score := (score + Math_max 0 (20 - avgResponseTime) * 2)%Q in
  let score :=
    (score - getBabyScheduleConflict (babySchedule st) hour * 20)%Q in
  let score := if urgency_eqb u high then (score * 1.3)%Q else score in
  let score :=
    if contentType_eqb ct development && ((hour <? 8) || (hour >? 20))
    then (score * 0.7)%Q else score in
  let score :=
    if (dayOfWeek (contextualFactors st) =? 0)
       || (dayOfWeek (contextualFactors st) =? 6)
    then (if hour <? 9 then (score * 0.8)%Q else score)
    else score in
  score.

(** *** Enumeration order of [Object.entries(hourScores)]

    Keys that are array indices come first in ascending numeric order, the
    other keys follow in the order of their first assignment. *)
Definition isArrayIndex (h : Z) : bool := (0 <=? h) && (h <? 4294967295).

Fixpoint firstOccurrences (seen : list Z) (hours : list Z) : list Z :=
  match hours with
  | [] => []
  | h :: rest =>
      if includes seen h then firstOccurrences seen rest
      else h :: firstOccurrences (h :: seen) rest
  end.

Fixpoint insertAscending (h : Z) (sorted : list Z) : list Z :=
  match sorted with
  | [] => [h]
  | k :: rest => if h <=? k then h :: k :: rest else k :: insertAscending h rest
  end.

Definition entryKeys (hours : list Z) : list Z :=
  let keys := firstOccurrences [] hours in
  fold_right insertAscending [] (List.filter isArrayIndex keys)
  ++ List.filter (fun h => negb (isArrayIndex h)) keys.

(** [entries.sort(([, a], [, b]) => b - a)]: a stable sort by descending
    score; [x] precedes in the input every element of [sorted]. *)
Fixpoint insertByScore (score : Z -> Q) (x : Z) (sorted : list Z) : list Z :=
  match sorted with
  | [] => [x]
  | y :: rest =>
      if Qle_bool (score y) (score x) then x :: y :: rest
      else y :: insertByScore score x rest
  end.

Definition sortByScore (score : Z -> Q) (keys : list Z) : list Z :=
  fold_right (insertByScore score) [] keys.

(** [sortedHours[0] || currentHour]: the fallback is taken for an empty
    array and also for the falsy hour 0. *)
Definition firstOr (sortedHours : list Z) (currentHour : Z) : Z :=
  match sortedHours with
  | h :: _ => if h =? 0 then currentHour else h
  | [] => currentHour
  end.

Definition calculateOptimalHour (st : T) (now : Z) (u : urgency)
    (ct : contentType) : Z :=
  let currentHour := getHours now in
  let todayPattern := patternOf (userBehavior st) (getDay now) in
  let sortedHours := sortByScore (hourScore st u ct) (entryKeys todayPattern) in
  if urgency_eqb u high && includes todayPattern currentHour then
    let nextFewHours :=
      List.filter (fun h => (currentHour <=? h) && (h <=? currentHour + 3))
        todayPattern in
    match nextFewHours with
    | h :: _ => h
    | [] => firstOr sortedHours currentHour
    end
  else firstOr sortedHours currentHour.

(** [createOptimalTime] at an integral hour. *)
Definition createOptimalTime (now : Z) (hour : Z) : Z :=
  let time := setHours now hour in
  if time <=? now then nextDay time else time.

(** The [for] loop over the quiet periods, which returns from the function
    at the first period that contains the proposed time; [otherwise] is
    what the code after the loop returns. *)
Fixpoint quietLoop (proposedTime : Z) (quiets : list QuietPeriod)
    (otherwise : DelayCheck) : DelayCheck :=
  match quiets with
  | [] => otherwise
  | quiet :: rest =>
      if isTimeInQuietPeriod proposedTime quiet
      then mkDelay true "Proposed time conflicts with quiet hours" 0.9
      else quietLoop proposedTime rest otherwise
  end.

Definition shouldDelayNotification (st : T) (now proposedTime : Z)
    (u : urgency) : DelayCheck :=
  let proposedHour := getHours proposedTime in
  if urgency_eqb u high && (proposedTime - now <? 4 * 60 * 60 * 1000)
  then mkDelay false "" 0.8
  else
    quietLoop proposedTime (quietPeriods (userBehavior st))
      (let sleepConflict :=
         getBabyScheduleConflict (babySchedule st) proposedHour in
       if Qltb 0.7 sleepConflict
       then mkDelay true "Baby is likely sleeping or in a fussy period"
              sleepConflict
       else
         let responseRate := responseRateAt (userBehavior st) proposedHour in
         if Qltb responseRate 0.3 && urgency_eqb u medium
         then mkDelay true "User historically unresponsive at this time"
                (1 - responseRate)
         else mkDelay false "" 0.8).

(** The probing loop of [findNextOptimalTime]: [remaining] iterations are
    left and [i] is the loop counter. *)
Fixpoint probe (st : T) (originalTime : Z) (remaining : nat) (i : Z)
    : option Z :=
  match remaining with
  | O => None
  | S remaining' =>
      let candidate := originalTime + i * 60 * 60 * 1000 in
      let candidateHour := getHours candidate in
      let inQuietPeriod :=
        existsb (isTimeInQuietPeriod candidate)
          (quietPeriods (userBehavior st)) in
      if inQuietPeriod then probe st originalTime remaining' (i + 1)
      else
        let responseRate := responseRateAt (userBehavior st) candidateHour in
        if Qltb 0.5 responseRate then Some candidate
        else probe st originalTime remaining' (i + 1)
  end.

Definition maxDelay (u : urgency) : Z := if urgency_eqb u high then 6 else 24.

(** [todayPattern.find(hour => hour > h0) || todayPattern[0]] *)
Definition nextActiveHour (todayPattern : list Z) (h0 : Z) : option Z :=
  match find (fun hour => hour >? h0) todayPattern with
  | Some h => if h =? 0 then head todayPattern else Some h
  | None => head todayPattern
  end.

Definition fallbackTime (st : T) (now originalTime : Z) : Date :=
  let todayPattern := patternOf (userBehavior st) (getDay originalTime) in
  match nextActiveHour todayPattern (getHours originalTime) with
  | None => InvalidDate
  | Some h =>
      let fallback := setHours originalTime h in
      if fallback <? now + 60 * 60 * 1000 then At (nextDay fallback)
      else At fallback
  end.

Definition findNextOptimalTime (st : T) (now originalTime : Z) (u : urgency)
    : Date :=
  match probe st originalTime (Z.to_nat (maxDelay u)) 1 with
  | Some candidate => At candidate
  | None => fallbackTime st now originalTime
  end.

(** The arithmetic of [calculateConfidence], given what the three reads of
    the profile returned. *)
Definition confidenceFrom (active : bool) (responseRate babyConflict : Q)
    (u : urgency) : Q :=
  let confidence := 0.7%Q in
  let confidence := if active then (confidence + 0.2)%Q else confidence in
  let confidence := (confidence + responseRate * 0.3)%Q in
  let confidence := (confidence + (1 - babyConflict) * 0.2)%Q in
  let confidence :=
    if urgency_eqb u high then (confidence + 0.1)%Q else confidence in
  Math_min confidence 1.

Definition calculateConfidence (st : T) (hour : Z) (u : urgency) : Q :=
  confidenceFrom (includes (appUsageHours (userBehavior st)) hour)
    (responseRateAt (userBehavior st) hour)
    (getBabyScheduleConflict (babySchedule st) hour) u.

(** [calculateConfidence(NaN, u)], the hour of an Invalid Date: no array
    includes it, no range contains it, and its key is "NaN". *)
Definition calculateConfidenceNaN (st : T) (u : urgency) : Q :=
  confidenceFrom false
    (orDefault (responseRates (userBehavior st) !! "NaN"%string) 0.5) 0 u.

Definition generateReasoning (st : T) (hour : Z) (u : urgency) : string :=
  let reasons : list string := [] in
  let reasons :=
    if includes (appUsageHours (userBehavior st)) hour
    then reasons ++ ["user typically active at this time"%string]
    else reasons in
  let reasons :=
    if Qltb 0.7 (responseRateAt (userBehavior st) hour)
    then reasons ++ ["high historical response rate"%string] else reasons in
  let reasons :=
    if Qltb (getBabyScheduleConflict (babySchedule st) hour) 0.3
    then reasons ++ ["low conflict with baby's schedule"%string]
    else reasons in
  let reasons :=
    if Qltb (avgResponseTimeAt (userBehavior st) hour) 10
    then reasons ++ ["user typically responds quickly"%string] else reasons in
  let reasons :=
    if urgency_eqb u high
    then reasons ++ ["prioritized for safety importance"%string]
    else reasons in
  ("Optimal timing based on: " ++ String.concat ", " reasons)%string.

(** [predictOptimalTime]; the list of alternative times, which no caller
    reads, is left out of the result. *)
Definition predictOptimalTime (st : T) (now : Z) (u : urgency)
    (ct : contentType) : OptimalTimingResult :=
  if urgency_eqb u critical then
    mkResult (At now) 1
      "Critical safety alerts are delivered immediately regardless of timing"
      None
  else
    let optimalHour := calculateOptimalHour st now u ct in
    let optimalTime := createOptimalTime now optimalHour in
    let delayCheck := shouldDelayNotification st now optimalTime u in
    if shouldDelay delayCheck then
      let delayedTime := findNextOptimalTime st now optimalTime u in
      mkResult delayedTime (delayConfidence delayCheck) (reason delayCheck)
        (Some (reason delayCheck))
    else
      mkResult (At optimalTime) (calculateConfidence st optimalHour u)
        (generateReasoning st optimalHour u) None.

Definition shouldDeliverNow (st : T) (now : Z) (scheduledTime : Date)
    (u : urgency) : bool :=
  if urgency_eqb u critical then true
  else
    match scheduledTime with
    | At t =>
        let timeDiff := t - now in
        if timeDiff <=? 0 then true
        else if timeDiff <=? 5 * 60 * 1000 then true
        else if urgency_eqb u high then
          let currentScore := calculateConfidence st (getHours now) high in
          let scheduledScore := calculateConfidence st (getHours t) high in
          Qltb (scheduledScore + 0.2) currentScore
        else false
    | InvalidDate =>
        (* the time difference is NaN and both tests on it are false *)
        if urgency_eqb u high then
          let currentScore := calculateConfidence st (getHours now) high in
          let scheduledScore := calculateConfidenceNaN st high in
          Qltb (scheduledScore + 0.2) currentScore
        else false
    end.

End Timing.

(** *** Learning *)

Inductive action : Type := opened | dismissed | acted.

Definition responseValue (a : action) : Q :=
  match a with
  | acted => 1
  | opened => 0.7
  | dismissed => 0.2
  end.

(** [recordNotificationResponse]; [deliveredAt] is the [scheduledFor] date
    of the notification.  For an Invalid Date the hour is NaN, the key is
    "NaN" and the new average response time is NaN: a stored NaN is read
    back by [x || 15] exactly as an absent key is, so it is modelled by the
    removal of the key. *)
Definition recordNotificationResponse (st : T) (deliveredAt : Date)
    (respondedAt : Z) (actionTaken : action) : T :=
  let ub := userBehavior st in
  let key :=
    match deliveredAt with
    | At t => toString (getHours t)
    | InvalidDate => "NaN"%string
    end in
  let currentRate := orDefault (responseRates ub !! key) 0.5 in
  let rates :=
    <[key := (currentRate * 0.8 + responseValue actionTaken * 0.2)%Q]>
      (responseRates ub) in
  let currentAvgTime := orDefault (averageResponseTime ub !! key) 15 in
  let times :=
    match deliveredAt with
    | At t =>
        let responseTime := (inject_Z (respondedAt - t) / inject_Z (1000 * 60))%Q in
        <[key := (currentAvgTime * 0.8 + responseTime * 0.2)%Q]>
          (averageResponseTime ub)
    | InvalidDate => delete key (averageResponseTime ub)
    end in
  mkTiming
    (mkBehavior (appUsageHours ub) rates times (quietPeriods ub)
       (lastActiveTime ub) (weeklyPattern ub))
    (babySchedule st) (contextualFactors st).

(** [hours.sort()] with no comparison function: a stable sort of the
    elements by their string forms, compared by code units. *)
Fixpoint insertByString (x : Z) (sorted : list Z) : list Z :=
  match sorted with
  | [] => [x]
  | y :: rest =>
      if String.leb (toString x) (toString y) then x :: y :: rest
      else y :: insertByString x rest
  end.

Definition defaultSort (hours : list Z) : list Z :=
  fold_right insertByString [] hours.

(** [if (!hours.includes(hour)) { hours.push(hour); hours.sort(); }] *)
Definition addHour (hours : list Z) (hour : Z) : list Z :=
  if includes hours hour then hours else defaultSort (hours ++ [hour]).

Definition recordAppUsage (st : T) (timestamp : Z) : T :=
  let ub := userBehavior st in
  let hour := getHours timestamp in
  let usage := addHour (appUsageHours ub) hour in
  let dayName := getDayName (getDay timestamp) in
  let weekly :=
    match weeklyPattern ub !! dayName with
    | Some _ => weeklyPattern ub
    | None => <[dayName := []]> (weeklyPattern ub)
    end in
  let weekly :=
    <[dayName := addHour (default [] (weekly !! dayName)) hour]> weekly in
  mkTiming
    (mkBehavior usage (responseRates ub) (averageResponseTime ub)
       (quietPeriods ub) timestamp weekly)
    (babySchedule st) (contextualFactors st).

(** *** Configuration updates: [{ ...current, ...partial }] *)

Record PartialBehavior : Type := mkPartialBehavior {
  newAppUsageHours : option (list Z);
  newResponseRates : option (gmap string Q);
  newAverageResponseTime : option (gmap string Q);
  newQuietPeriods : option (list QuietPeriod);
  newLastActiveTime : option Z;
  newWeeklyPattern : option (gmap string (list Z))
}.

Definition updateUserBehavior (st : T) (behaviorData : PartialBehavior) : T :=
  let ub := userBehavior st in
  mkTiming
    (mkBehavior
       (default (appUsageHours ub) (newAppUsageHours behaviorData))
       (default (responseRates ub) (newResponseRates behaviorData))
       (default (averageResponseTime ub) (newAverageResponseTime behaviorData))
       (default (quietPeriods ub) (newQuietPeriods behaviorData))
       (default (lastActiveTime ub) (newLastActiveTime behaviorData))
       (default (weeklyPattern ub) (newWeeklyPattern behaviorData)))
    (babySchedule st) (contextualFactors st).



(** *** The constructor's defaults, for an instance created at [now] with
    nothing saved in local storage. *)
Definition initialBehavior (now : Z) : UserBehaviorPattern :=
  mkBehavior [7; 8; 12; 15; 19; 21]
    (list_to_map
       [("7", 0.85); ("8", 0.90); ("12", 0.75); ("15", 0.80); ("19", 0.85);
        ("21", 0.70)]%string%Q)
    (list_to_map
       [("7", 5); ("8", 3); ("12", 15); ("15", 8); ("19", 5);
        ("21", 20)]%string%Q)
    [mkQuiet "22:00" "07:00"; mkQuiet "13:00" "15:00"]
    now
    (list_to_map
       [("monday", [8; 12; 19]); ("tuesday", [7; 12; 15; 19]);
        ("wednesday", [8; 12; 19; 21]); ("thursday", [7; 12; 15; 19]);
        ("friday", [8; 12; 19; 21]); ("saturday", [9; 14; 20]);
        ("sunday", [10; 15; 19])]%string).

Definition initialSchedule : BabyScheduleData :=
  mkSchedule
    [mkNap "09:30" "11:00" 0.8; mkNap "13:00" "15:00" 0.9;
     mkNap "17:30" "18:00" 0.6]
    (mkHabit "19:30" 0.85) (mkHabit "07:00" 0.75)
    [7; 10; 13; 16; 19; 22]
    [mkFussy "17:00" "19:00" 0.8; mkFussy "05:00" "06:00" 0.6].

Definition initial (now : Z) : T :=
  mkTiming (initialBehavior now) initialSchedule
    (mkContext (getDay now) false).

(** *** Alternative times and batches *)

(** The loop of [generateAlternatives] over the offsets that are left:
    an alternative is kept when its hour is an active hour with a response
    rate, read as [responseRates[hour] || 0.5], above 0.4, and the loop is
    left once three are collected. *)
Fixpoint alternativesLoop (st : T) (baseTime : Z) (offsets : list Z)
    (alternatives : list Z) : list Z :=
  match offsets with
  | [] => alternatives
  | offset :: rest =>
      let altTime := baseTime + offset * 60 * 60 * 1000 in
      let altHour := getHours altTime in
      let alternatives :=
        if includes (appUsageHours (userBehavior st)) altHour
        then
          let responseRate := responseRateAt (userBehavior st) altHour in
          if Qltb 0.4 responseRate then alternatives ++ [altTime]
          else alternatives
        else alternatives in
      if 3 <=? Z.of_nat (length alternatives) then alternatives
      else alternativesLoop st baseTime rest alternatives
  end.

(** [generateAlternatives]; around the Invalid Date every alternative is
    invalid too, its hour is NaN and no array of hours includes it. *)
Definition generateAlternatives (st : T) (primaryTime : Date) : list Z :=
  match primaryTime with
  | At baseTime => alternativesLoop st baseTime [-2; -1; 1; 2] []
  | InvalidDate => []
  end.

Section Batching.

Variable Number : string -> jsnum.

(** [batchNonUrgentNotifications]; the list of notifications passed in is
    not read.  A comparison with the time of the Invalid Date is false. *)
Definition batchNonUrgentNotifications (st : T) (now : Z) : Date :=
  let optimalResult := predictOptimalTime Number st now medium general in
  let lastNotification := lastActiveTime (userBehavior st) in
  let minInterval := 2 * 60 * 60 * 1000 in
  match recommendedTime optimalResult with
  | At t =>
      if t - lastNotification <? minInterval then
        let adjustedTime := lastNotification + minInterval in
        findNextOptimalTime Number st now adjustedTime medium
      else At t
  | InvalidDate => InvalidDate
  end.

End Batching.

End SmartNotificationTiming.

(** ** NotificationService *)

Module NotificationService.

Module SNT := SmartNotificationTiming.

Inductive highSchedule : Type :=
  schedule_immediate | next_optimal | evening_digest.

Inductive mediumFrequency : Type :=
  frequency_immediate | daily_digest | weekly | disabled.

Inductive mediumBatch : Type := development_tips | weekly_summary | standalone.

Record QuietHours : Type := mkQuietHours {
  quietEnabled : bool;
  quietStart : string;
  quietEnd : string
}.

Record CriticalPreferences : Type := mkCritical {
  criticalEnabled : bool;
  criticalDisabled : bool
}.

Record HighPreferences : Type := mkHigh {
  highEnabled : bool;
  schedule : highSchedule;
  quietHours : QuietHours
}.

Record MediumPreferences : Type := mkMedium {
  mediumEnabled : bool;
  frequency : mediumFrequency;
  batchWith : mediumBatch
}.

Record GeneralPreferences : Type := mkGeneral {
  sound : bool;
  vibration : bool;
  showOnLockscreen : bool;
  groupSimilar : bool
}.

Record NotificationPreferences : Type := mkPreferences {
  forCritical : CriticalPreferences;
  forHigh : HighPreferences;
  forMedium : MediumPreferences;
  forGeneral : GeneralPreferences
}.

(** [Partial<NotificationPreferences>] *)
Record PartialPreferences : Type := mkPartialPreferences {
  newCritical : option CriticalPreferences;
  newHigh : option HighPreferences;
  newMedium : option MediumPreferences;
  newGeneral : option GeneralPreferences
}.

(** A scheduled notification.  The title, the personalised message (a
    random pick among three texts) and the action link are display text
    that no decision reads; they are left out of the record. *)
Record ScheduledNotification : Type := mkNotification {
  id : string;
  recallId : string;
  type : urgency;
  body : string;
  scheduledFor : Date;
  priority : Z;
  timingReasoning : option string;
  confidence : option Q
}.

(** A callback registered with [setTimeout]: the instant at which it
    becomes due and the variables its closure captured. *)
Record Timer : Type := mkTimer {
  due : Z;
  held : ScheduledNotification;
  heldTime : Date;
  heldUrgency : urgency
}.

(** The fields of the service, the timers it has registered, and its
    surroundings: whether the browser lets a notification through, and the
    notifications handed to the browser so far. *)
Record T : Type := mkService {
  preferences : NotificationPreferences;
  scheduledNotifications : gmap string ScheduledNotification;
  smartTiming : SNT.T;
  lastAppUsage : Z;
  timers : list Timer;
  permissionGranted : bool;
  delivered : list ScheduledNotification
}.

Record TimingDecision : Type := mkDecision {
  decidedTime : Date;
  decidedReasoning : string;
  decidedConfidence : Q
}.

Definition setPreferences (st : T) (p : NotificationPreferences) : T :=
  mkService p (scheduledNotifications st) (smartTiming st) (lastAppUsage st)
    (timers st) (permissionGranted st) (delivered st).

Definition setScheduled (st : T)
    (pending : gmap string ScheduledNotification) : T :=
  mkService (preferences st) pending (smartTiming st) (lastAppUsage st)
    (timers st) (permissionGranted st) (delivered st).

Definition setSmartTiming (st : T) (timing : SNT.T) : T :=
  mkService (preferences st) (scheduledNotifications st) timing
    (lastAppUsage st) (timers st) (permissionGranted st) (delivered st).

Definition setLastAppUsage (st : T) (t : Z) : T :=
  mkService (preferences st) (scheduledNotifications st) (smartTiming st) t
    (timers st) (permissionGranted st) (delivered st).

Definition setTimers (st : T) (ts : list Timer) : T :=
  mkService (preferences st) (scheduledNotifications st) (smartTiming st)
    (lastAppUsage st) ts (permissionGranted st) (delivered st).

Definition setDelivered (st : T) (ns : list ScheduledNotification) : T :=
  mkService (preferences st) (scheduledNotifications st) (smartTiming st)
    (lastAppUsage st) (timers st) (permissionGranted st) ns.

Definition defaultPreferences : NotificationPreferences :=
  mkPreferences (mkCritical true true)
    (mkHigh true schedule_immediate (mkQuietHours true "22:00" "07:00"))
    (mkMedium true daily_digest development_tips)
    (mkGeneral true true true true).

(** The singleton as its constructor leaves it at [now]. *)
Definition initial (now : Z) (permission : bool) : T :=
  mkService defaultPreferences ∅ (SNT.initial now) now [] permission [].

(** [date <= new Date()]; a comparison with the Invalid Date is false. *)
Definition notAfter (d : Date) (now : Z) : bool :=
  match d with
  | At t => t <=? now
  | InvalidDate => false
  end.

(** [sendNotification]: the browser shows the notification when permission
    is granted and reports failure otherwise. *)
Definition sendNotification (st : T) (n : ScheduledNotification) : T * bool :=
  if permissionGranted st then (setDelivered st (delivered st ++ [n]), true)
  else (st, false).

Definition cancelNotification (st : T) (notificationId : string) : T * bool :=
  (setScheduled st (delete notificationId (scheduledNotifications st)),
   bool_decide (is_Some (scheduledNotifications st !! notificationId))).

Definition recordUserAppUsage (st : T) (now : Z) : T :=
  setSmartTiming (setLastAppUsage st now)
    (SNT.recordAppUsage (smartTiming st) now).

Definition recordNotificationInteraction (st : T) (now : Z)
    (notificationId : string) (a : SNT.action) : T :=
  match scheduledNotifications st !! notificationId with
  | Some notification =>
      setSmartTiming st
        (SNT.recordNotificationResponse (smartTiming st)
           (scheduledFor notification) now a)
  | None => st
  end.

Definition updatePreferences (st : T) (newPreferences : PartialPreferences)
    : T :=
  let merged :=
    mkPreferences
      (default (forCritical (preferences st)) (newCritical newPreferences))
      (default (forHigh (preferences st)) (newHigh newPreferences))
      (default (forMedium (preferences st)) (newMedium newPreferences))
      (default (forGeneral (preferences st)) (newGeneral newPreferences)) in
  let st := setPreferences st merged in
  match newHigh newPreferences with
  | Some _ =>
      setSmartTiming st
        (SNT.updateUserBehavior (smartTiming st)
           (SNT.mkPartialBehavior None None None
              (Some [SNT.mkQuiet (quietStart (quietHours (forHigh merged)))
                       (quietEnd (quietHours (forHigh merged)))])
              None None))
  | None => st
  end.

Definition sendCriticalRecallAlert (st : T) (now : Z)
    (recallId hazardDescription : string) : T * bool :=
  let notification :=
    mkNotification ("critical-" ++ recallId ++ "-" ++ toString now)%string
      recallId critical
      ("Stop using immediately. " ++ hazardDescription)%string
      (At now) 10 None None in
  sendNotification st notification.

Section Service.

Variable Number : string -> jsnum.

(** [[hours, minutes] = timeStr.split(':').map(Number);
     return hours * 60 + minutes] *)
Definition parseTime (timeStr : string) : jsnum :=
  let parts := map Number (split ":" timeStr) in
  add (mul (elemNum parts 0) (ofZ 60)) (elemNum parts 1).

Definition isInQuietHours (st : T) (now : Z) : bool :=
  let quiet := quietHours (forHigh (preferences st)) in
  if negb (quietEnabled quiet) then false
  else
    let currentTime := ofZ (getHours now * 60 + getMinutes now) in
    let start := parseTime (quietStart quiet) in
    let end_ := parseTime (quietEnd quiet) in
    if gt start end_ then ge currentTime start || le currentTime end_
    else ge currentTime start && le currentTime end_.

Definition getEveningDigestTime (now : Z) : Z :=
  let digestTime := setHours now 19 in
  if digestTime <=? now then nextDay digestTime else digestTime.

Definition calculateOptimalDeliveryTime (st : T) (now : Z) (u : urgency)
    : TimingDecision :=
  if urgency_eqb u critical then
    mkDecision (At now) "Critical safety alerts are delivered immediately" 1
  else
    let optimalResult :=
      SNT.predictOptimalTime Number (smartTiming st) now u recall in
    let recommended :=
      mkDecision (SNT.recommendedTime optimalResult)
        (SNT.reasoning optimalResult) (SNT.confidence optimalResult) in
    if urgency_eqb u high then
      match schedule (forHigh (preferences st)) with
      | schedule_immediate =>
          if negb (isInQuietHours st now)
          then mkDecision (At now)
                 "User preference: immediate delivery outside quiet hours" 0.8
          else recommended
      | evening_digest =>
          mkDecision (At (getEveningDigestTime now))
            "User preference: evening digest delivery" 0.9
      | next_optimal => recommended
      end
    else recommended.

Definition priorityOf (u : urgency) : Z :=
  if urgency_eqb u critical then 10 else if urgency_eqb u high then 7 else 4.

(** The callback that [scheduleRecallNotification] hands to [setTimeout],
    run at [now]. *)
Definition timerCallback (st : T) (now : Z) (tm : Timer) : T :=
  let st :=
    if SNT.shouldDeliverNow Number (smartTiming st) now (heldTime tm)
         (heldUrgency tm)
    then fst (sendNotification st (held tm))
    else st in
  setScheduled st (delete (id (held tm)) (scheduledNotifications st)).

(** The instant at which [setTimeout(callback, date - now)] makes the
    callback due; a delay that is NaN counts as 0. *)
Definition dueAt (d : Date) (now : Z) : Z :=
  match d with
  | At t => t
  | InvalidDate => now
  end.

Definition scheduleRecallNotification (st : T) (now : Z) (recallId : string)
    (urgencyLevel : urgency) (hazardDescription : string) : T * bool :=
  if urgency_eqb urgencyLevel high && negb (highEnabled (forHigh (preferences st)))
  then (st, false)
  else if urgency_eqb urgencyLevel medium
          && negb (mediumEnabled (forMedium (preferences st)))
  then (st, false)
  else
    let timingResult := calculateOptimalDeliveryTime st now urgencyLevel in
    let notification :=
      mkNotification ("recall-" ++ recallId ++ "-" ++ toString now)%string
        recallId urgencyLevel hazardDescription (decidedTime timingResult)
        (priorityOf urgencyLevel) (Some (decidedReasoning timingResult))
        (Some (decidedConfidence timingResult)) in
    let st :=
      setScheduled st
        (<[id notification := notification]> (scheduledNotifications st)) in
    if notAfter (decidedTime timingResult) now
    then sendNotification st notification
    else
      (setTimers st
         (timers st
          ++ [mkTimer (dueAt (decidedTime timingResult) now) notification
                (decidedTime timingResult) urgencyLevel]),
       true).

(** *** The service over time

    One step is a public call made at the current clock reading, or the
    run of a timer callback that has become due.  A callback is run once:
    its timer leaves the list when it fires. *)
Inductive event : Type :=
| Schedule (recallId : string) (u : urgency) (hazardDescription : string)
| CriticalAlert (recallId hazardDescription : string)
| Cancel (notificationId : string)
| Interact (notificationId : string) (a : SNT.action)
| AppUsed
| Fire (tm : Timer).

Inductive step (now : Z) : T -> event -> T -> Prop :=
| step_schedule st recallId u hazard :
    step now st (Schedule recallId u hazard)
      (fst (scheduleRecallNotification st now recallId u hazard))
| step_alert st recallId hazard :
    step now st (CriticalAlert recallId hazard)
      (fst (sendCriticalRecallAlert st now recallId hazard))
| step_cancel st notificationId :
    step now st (Cancel notificationId)
      (fst (cancelNotification st notificationId))
| step_interact st notificationId a :
    step now st (Interact notificationId a)
      (recordNotificationInteraction st now notificationId a)
| step_usage st :
    step now st AppUsed (recordUserAppUsage st now)
| step_fire st before tm after :
    timers st = before ++ tm :: after ->
    due tm <= now ->
    step now st (Fire tm)
      (timerCallback (setTimers st (before ++ after)) now tm).

(** [getNextBatchTime] *)
Definition getNextBatchTime (st : T) (now : Z) : Z :=
  let batchTime := now in
  match frequency (forMedium (preferences st)) with
  | frequency_immediate => batchTime
  | daily_digest =>
      let batchTime := setHours batchTime 20 in
      if batchTime <=? now then nextDay batchTime else batchTime
  | weekly =>
      let daysUntilSunday := (7 - getDay batchTime) mod 7 in
      let batchTime :=
        batchTime
        + (if daysUntilSunday =? 0 then 7 else daysUntilSunday) * msPerDay in
      setHours batchTime 18
  | disabled => now + 24 * 60 * 60 * 1000
  end.

End Service.

(** The values of the pending set that are of medium urgency. *)
Definition mediumNotifications (st : T) : list ScheduledNotification :=
  List.filter (fun n => urgency_eqb (type n) medium)
    (map snd (map_to_list (scheduledNotifications st))).

(** [batchMediumPriorityNotifications], for a context whose baby is named
    [babyName]: one summary record replaces the medium records of the
    pending set, each of which is deleted under its own id.  The result is
    the array of send results, empty when nothing was batched. *)
Definition batchMediumPriorityNotifications (st : T) (now : Z)
    (babyName : string) : T * list bool :=
  let mediums := mediumNotifications st in
  if (length mediums =? 0)%nat then (st, [])
  else
    let groupedBody :=
      (toString (Z.of_nat (length mediums)) ++ " recalls to review for "
       ++ babyName ++ "'s safety")%string in
    let batchedNotification :=
      mkNotification ("batch-" ++ toString now)%string "batch" medium
        groupedBody (At now) 4 None None in
    let st :=
      setScheduled st
        (fold_left (fun pending n => delete (id n) pending) mediums
           (scheduledNotifications st)) in
    let '(st, sent) := sendNotification st batchedNotification in
    (st, [sent]).

End NotificationService.

(** ** RecommendationService: the safety score of the daily insights *)

Module RecommendationService.

Inductive priority : Type :=
  priority_critical | priority_high | priority_medium | priority_low.

(** The fields of a recommendation that the safety score and the ranking
    of the insights read. *)
Record SmartRecommendation : Type := mkRecommendation {
  recPriority : priority;
  relevanceScore : Q
}.

Definition isCritical (r : SmartRecommendation) : bool :=
  match recPriority r with priority_critical => true | _ => false end.

Definition isHigh (r : SmartRecommendation) : bool :=
  match recPriority r with priority_high => true | _ => false end.

Definition calculateSafetyScore (safetyRecs : list SmartRecommendation) : Q :=
  let score := 100%Q in
  let criticalIssues := List.filter isCritical safetyRecs in
  let score := (score - inject_Z (Z.of_nat (length criticalIssues)) * 25)%Q in
  let highPriorityIssues := List.filter isHigh safetyRecs in
  let score :=
    (score - inject_Z (Z.of_nat (length highPriorityIssues)) * 10)%Q in
  Math_max 0 (Math_min 100 score).

End RecommendationService.

(** * Specification-level definitions *)

Module Spec.

Module SNT := SmartNotificationTiming.
Module NS := NotificationService.

(** A clock string "HH:MM": two digits, a colon, two digits, with the hour
    at most 23 and the minute at most 59. *)
Definition clockString (s : string) : option (Z * Z) :=
  match s with
  | String a (String b (String c (String d (String e EmptyString)))) =>
      if Ascii.eqb c ":" then
        match digitVal a, digitVal b, digitVal d, digitVal e with
        | Some x, Some y, Some z, Some w =>
            let h := 10 * x + y in
            let m := 10 * z + w in
            if (h <=? 23) && (m <=? 59) then Some (h, m) else None
        | _, _, _, _ => None
        end
      else None
  | _ => None
  end.

(** A conversion that reads a string of decimal digits (the empty string
    included) as the integer it spells, as [Number] does. *)
Definition readsDecimal (Number : string -> jsnum) : Prop :=
  forall s n, decimalFrom 0 s = Some n -> Number s = ofZ n.

(** A service whose quiet hours are enabled from 22:00 to 07:00. *)
Definition nightQuiet (st : NS.T) : Prop :=
  NS.quietHours (NS.forHigh (NS.preferences st))
  = NS.mkQuietHours true "22:00" "07:00".

(** The wall-clock reading of an instant. *)
Definition clockIs (t : Z) (h m : Z) : Prop :=
  getHours t = h /\ getMinutes t = m.

(** A partial update that replaces the high-urgency preferences. *)
Definition highUpdate (h : NS.HighPreferences) : NS.PartialPreferences :=
  NS.mkPartialPreferences None (Some h) None None.


(** *** The baby-schedule conflict, in the words of the specification *)

Fixpoint Qsum (xs : list Q) : Q :=
  match xs with
  | [] => 0
  | x :: rest => x + Qsum rest
  end%Q.

Section Conflict.

Variable Number : string -> jsnum.

Definition napContains (hour : Z) (nap : SNT.NapTime) : bool :=
  SNT.isHourInRange (ofZ hour) (SNT.parseTime Number (SNT.napStart nap))
    (SNT.parseTime Number (SNT.napEnd nap)).

Definition fussyContains (hour : Z) (fussy : SNT.FussyPeriod) : bool :=
  SNT.isHourInRange (ofZ hour) (SNT.parseTime Number (SNT.fussyStart fussy))
    (SNT.parseTime Number (SNT.fussyEnd fussy)).

(** The sum over the naps that contain the hour of reliability * 0.8, plus
    the sum over the fussy periods that contain it of intensity * 0.6, plus
    0.2 for a feeding hour. *)
Definition conflictTotal (bs : SNT.BabyScheduleData) (hour : Z) : Q :=
  (Qsum (map (fun nap => SNT.reliability nap * 0.8)
           (List.filter (napContains hour) (SNT.napTimes bs)))
   + Qsum (map (fun fussy => SNT.intensity fussy * 0.6)
             (List.filter (fussyContains hour) (SNT.fussyPeriods bs)))
   + (if SNT.includes (SNT.feedingTimes bs) hour then 0.2 else 0))%Q.

End Conflict.

(** Reliabilities and intensities of a schedule lie in [0, 1]. *)
Definition weightsInUnit (bs : SNT.BabyScheduleData) : Prop :=
  Forall (fun nap => (0 <= SNT.reliability nap <= 1)%Q) (SNT.napTimes bs)
  /\ Forall (fun fussy => (0 <= SNT.intensity fussy <= 1)%Q)
       (SNT.fussyPeriods bs).

(** *** The delay decision, in the words of the specification

    The ordered rule list: each rule applies only when none of the rules
    above it does. *)
Section DelayRules.

Variable Number : string -> jsnum.
Variables (st : SNT.T) (now proposedTime : Z) (u : urgency).

Definition urgentSoon : Prop :=
  u = high /\ proposedTime - now < 4 * msPerHour.

Definition inSomeQuietPeriod : Prop :=
  Exists (fun quiet => SNT.isTimeInQuietPeriod Number proposedTime quiet = true)
    (SNT.quietPeriods (SNT.userBehavior st)).

Definition conflictAtProposed : Q :=
  SNT.getBabyScheduleConflict Number (SNT.babySchedule st)
    (getHours proposedTime).

(** The response rate at the proposed hour: the rate stored for that
    hour, and 0.5 for an hour that has none. *)
Definition rateAtProposed : Q :=
  default 0.5%Q
    (SNT.responseRates (SNT.userBehavior st)
       !! toString (getHours proposedTime)).

(** The rate at the proposed hour as the code reads it,
    [responseRates[hour] || 0.5]: a stored 0 is read as 0.5 too. *)
Definition rateReadAtProposed : Q :=
  SNT.responseRateAt (SNT.userBehavior st) (getHours proposedTime).

(** The rule list over the response rate [rate] that its fourth rule
    consults. *)
Inductive delayRuleOn (rate : Q) : bool -> Q -> Prop :=
| rule_urgent :
    urgentSoon -> delayRuleOn rate false 0.8
| rule_quiet :
    ~ urgentSoon -> inSomeQuietPeriod -> delayRuleOn rate true 0.9
| rule_conflict :
    ~ urgentSoon -> ~ inSomeQuietPeriod -> (0.7 < conflictAtProposed)%Q ->
    delayRuleOn rate true conflictAtProposed
| rule_unresponsive :
    ~ urgentSoon -> ~ inSomeQuietPeriod -> ~ (0.7 < conflictAtProposed)%Q ->
    u = medium -> (rate < 0.3)%Q ->
    delayRuleOn rate true (1 - rate)
| rule_otherwise :
    ~ urgentSoon -> ~ inSomeQuietPeriod -> ~ (0.7 < conflictAtProposed)%Q ->
    ~ (u = medium /\ (rate < 0.3)%Q) ->
    delayRuleOn rate false 0.8.

(** The rule list of the specification, on the response rate at the
    proposed hour. *)
Definition delayRule : bool -> Q -> Prop := delayRuleOn rateAtProposed.

End DelayRules.

(** No rate is stored as 0 for [hour]. *)
Definition storedRateNonzero (ub : SNT.UserBehaviorPattern) (hour : Z)
    : Prop :=
  forall rate,
    SNT.responseRates ub !! toString hour = Some rate -> ~ (rate == 0)%Q.

(** The nap of the scenario: 13:00 to 15:00 with reliability 0.9. *)
Definition afternoonNap : SNT.NapTime := SNT.mkNap "13:00" "15:00" 0.9.

(** The default profile of an instance created at the epoch, after
    [updateUserBehavior({ responseRates: { '12': 0 } })]. *)
Definition zeroRateAtNoon : SNT.T :=
  SNT.updateUserBehavior (SNT.initial 0)
    (SNT.mkPartialBehavior None (Some {["12"%string := 0%Q]}) None None None
       None).

(** *** The next viable slot

    The loop and the fallback as the code computes them.  The rate of a
    candidate is the rate read by the code; for the test "above 0.5" a
    stored 0 and a missing rate both fail it, as they do when read as
    0.5. *)

Section NextSlot.

Variable Number : string -> jsnum.
Variables (st : SNT.T) (now originalTime : Z) (u : urgency).

(** 6 hours ahead for high urgency, 24 otherwise. *)
Definition cap : Z :=
  match u with
  | high => 6
  | _ => 24
  end.

(** The [i]-th hourly step forward from the original time. *)
Definition hourlyStep (i : Z) : Z := originalTime + i * msPerHour.

(** A candidate is taken when it is outside every quiet period and the
    response rate at its hour is above 0.5. *)
Definition viable (t : Z) : Prop :=
  ~ inSomeQuietPeriod Number st t
  /\ (0.5 < SNT.responseRateAt (SNT.userBehavior st) (getHours t))%Q.

(** The fallback as the code computes it: the first hour, in stored
    order, of the weekday pattern after the hour of the original time, else
    the first hour of the pattern, on the day of the original time; moved
    to the following day when that instant is earlier than one hour from
    now.  An empty pattern gives no date. *)
Definition fallbackSlot : Date :=
  match SNT.patternOf (SNT.userBehavior st) (getDay originalTime) with
  | [] => InvalidDate
  | first :: rest =>
      let h :=
        default first
          (find (fun hour => getHours originalTime <? hour) (first :: rest)) in
      let t := startOfDay originalTime + h * msPerHour in
      if t <? now + msPerHour then At (t + msPerDay) else At t
  end.

(** The hours of the pattern consulted by the fallback are not negative. *)
Definition patternHoursValid : Prop :=
  Forall (fun h => 0 <= h)
    (SNT.patternOf (SNT.userBehavior st) (getDay originalTime)).

End NextSlot.

(** The default profile of an instance created at the epoch, after
    [updateUserBehavior({ weeklyPattern: { thursday: [], friday: [] } })]:
    no active hour is on record for Thursdays and Fridays. *)
Definition emptyWeekdays : SNT.T :=
  SNT.updateUserBehavior (SNT.initial 0)
    (SNT.mkPartialBehavior None None None None None
       (Some (list_to_map [("thursday", []); ("friday", [])]%string))).


(** *** Requests and records of the scenarios *)

(** The record that [scheduleRecallNotification] builds for a critical
    request made at [now]. *)
Definition criticalRecord (now : Z) (recallId hazard : string)
    : NS.ScheduledNotification :=
  NS.mkNotification ("recall-" ++ recallId ++ "-" ++ toString now)%string
    recallId critical hazard (At now) 10
    (Some "Critical safety alerts are delivered immediately"%string)
    (Some 1%Q).

(** The record that [sendCriticalRecallAlert] builds at [now]. *)
Definition alertRecord (now : Z) (recallId hazard : string)
    : NS.ScheduledNotification :=
  NS.mkNotification ("critical-" ++ recallId ++ "-" ++ toString now)%string
    recallId critical ("Stop using immediately. " ++ hazard)%string
    (At now) 10 None None.

(** The request is dropped at the preference gate. *)
Definition droppedByPreference (st : NS.T) (u : urgency) : bool :=
  (urgency_eqb u high && negb (NS.highEnabled (NS.forHigh (NS.preferences st))))
  || (urgency_eqb u medium
      && negb (NS.mediumEnabled (NS.forMedium (NS.preferences st)))).

(** The record that [scheduleRecallNotification] builds for a request that
    passes the gate. *)
Definition requestRecord (Number : string -> jsnum) (st : NS.T) (now : Z)
    (recallId : string) (u : urgency) (hazard : string)
    : NS.ScheduledNotification :=
  let decision := NS.calculateOptimalDeliveryTime Number st now u in
  NS.mkNotification ("recall-" ++ recallId ++ "-" ++ toString now)%string
    recallId u hazard (NS.decidedTime decision) (NS.priorityOf u)
    (Some (NS.decidedReasoning decision))
    (Some (NS.decidedConfidence decision)).

(** Every tier the preferences can switch off is switched off, and quiet
    hours cover the whole day. *)
Definition everythingOff : NS.NotificationPreferences :=
  NS.mkPreferences (NS.mkCritical true true)
    (NS.mkHigh false NS.next_optimal (NS.mkQuietHours true "00:00" "23:59"))
    (NS.mkMedium false NS.disabled NS.standalone)
    (NS.mkGeneral false false false false).

(** A list of hours in ascending numeric order. *)
Definition ascending (hours : list Z) : Prop := StronglySorted Z.le hours.

(** *** The score of a candidate hour, in the words of the specification *)

Definition isWeekend (dayIndex : Z) : bool := (dayIndex =? 0) || (dayIndex =? 6).

Definition scoreFormula (Number : string -> jsnum) (st : SNT.T) (u : urgency)
    (ct : contentType) (hour : Z) : Q :=
  ((SNT.responseRateAt (SNT.userBehavior st) hour * 40
    + Qmax 0 (20 - SNT.avgResponseTimeAt (SNT.userBehavior st) hour) * 2
    - SNT.getBabyScheduleConflict Number (SNT.babySchedule st) hour * 20)
   * (if urgency_eqb u high then 1.3 else 1)
   * (if contentType_eqb ct development && ((hour <? 8) || (20 <? hour))
      then 0.7 else 1)
   * (if isWeekend (SNT.dayOfWeek (SNT.contextualFactors st)) && (hour <? 9)
      then 0.8 else 1))%Q.

(** A profile whose Thursday pattern holds the hour 0 only. *)
Definition midnightOnly : SNT.PartialBehavior :=
  SNT.mkPartialBehavior None None None None None
    (Some {[ "thursday"%string := [0] ]}).

(** *** Conditions on profiles and services used by further properties *)

(** No stored response rate is negative. *)
Definition ratesNonneg (ub : SNT.UserBehaviorPattern) : Prop :=
  forall key rate, SNT.responseRates ub !! key = Some rate -> (0 <= rate)%Q.

(** Every stored response rate lies in [0, 1]. *)
Definition ratesInUnit (ub : SNT.UserBehaviorPattern) : Prop :=
  forall key rate,
    SNT.responseRates ub !! key = Some rate -> (0 <= rate <= 1)%Q.

(** No hour of the active hours or of a weekday pattern is negative. *)
Definition hoursValid (ub : SNT.UserBehaviorPattern) : Prop :=
  Forall (fun h => 0 <= h) (SNT.appUsageHours ub)
  /\ forall dayName hours,
       SNT.weeklyPattern ub !! dayName = Some hours ->
       Forall (fun h => 0 <= h) hours.

(** Every pending record is filed under its own id. *)
Definition keysAreIds (st : NS.T) : Prop :=
  forall key n, NS.scheduledNotifications st !! key = Some n -> NS.id n = key.

(** A string without a colon. *)
Fixpoint noColon (s : string) : bool :=
  match s with
  | EmptyString => true
  | String c rest => negb (Ascii.eqb c ":") && noColon rest
  end.

(** The profile with the stored response rate of [hour] set to [rate]. *)
Definition withRate (st : SNT.T) (hour : Z) (rate : Q) : SNT.T :=
  let ub := SNT.userBehavior st in
  SNT.mkTiming
    (SNT.mkBehavior (SNT.appUsageHours ub)
       (<[toString hour := rate]> (SNT.responseRates ub))
       (SNT.averageResponseTime ub) (SNT.quietPeriods ub)
       (SNT.lastActiveTime ub) (SNT.weeklyPattern ub))
    (SNT.babySchedule st) (SNT.contextualFactors st).

(** The timer that [scheduleRecallNotification] registers for a request
    that is held. *)
Definition requestTimer (Number : string -> jsnum) (st : NS.T) (now : Z)
    (recallId : string) (u : urgency) (hazard : string) : NS.Timer :=
  let n := requestRecord Number st now recallId u hazard in
  NS.mkTimer (NS.dueAt (NS.scheduledFor n) now) n (NS.scheduledFor n) u.

(** [t] is an instant on the hour, at hour [h] of its day. *)
Definition atHour (t h : Z) : Prop := getHours t = h /\ t mod msPerHour = 0.

(** [t] is the first instant after [now] that is on the hour [h]. *)
Definition nextAtHour (now h t : Z) : Prop :=
  now < t /\ atHour t h
  /\ forall t', now < t' -> atHour t' h -> t <= t'.

(** The rate stored for [hour] is above [bound], or it is 0 or missing:
    the two cases that the code reads as 0.5. *)
Definition storedRateAbove (ub : SNT.UserBehaviorPattern) (hour : Z)
    (bound : Q) : Prop :=
  match SNT.responseRates ub !! toString hour with
  | Some rate => (bound < rate)%Q \/ (rate == 0)%Q
  | None => True
  end.

(** An alternative to [baseTime]: a whole number of hours, one or two,
    before or after it, at an active hour whose stored response rate is
    above 0.4, or is 0 or missing. *)
Definition goodAlternative (st : SNT.T) (baseTime : Z) (offsets : list Z)
    (alt : Z) : Prop :=
  (exists offset, In offset offsets /\ alt = baseTime + offset * msPerHour)
  /\ In (getHours alt) (SNT.appUsageHours (SNT.userBehavior st))
  /\ storedRateAbove (SNT.userBehavior st) (getHours alt) 0.4.

(** The summary record that [batchMediumPriorityNotifications] sends for
    [count] batched notifications. *)
Definition batchRecord (now : Z) (babyName : string) (count : nat)
    : NS.ScheduledNotification :=
  NS.mkNotification ("batch-" ++ toString now)%string "batch" medium
    (toString (Z.of_nat count) ++ " recalls to review for " ++ babyName
     ++ "'s safety")%string
    (At now) 4 None None.

(** The hour-and-fraction form in which the timing class reads an
    instant. *)
Definition timeHour (t : Z) : jsnum :=
  Fin (inject_Z (getHours t) + inject_Z (getMinutes t) / 60).

(** The numbers of critical and of high-priority recommendations. *)
Definition criticalCount (recs : list RecommendationService.SmartRecommendation)
    : Z :=
  Z.of_nat (length (List.filter RecommendationService.isCritical recs)).

Definition highCount (recs : list RecommendationService.SmartRecommendation)
    : Z :=
  Z.of_nat (length (List.filter RecommendationService.isHigh recs)).

End Spec.

(** * Properties *)

Module Props.

Module SNT := SmartNotificationTiming.
Module NS := NotificationService.
Import Spec.

(** ** Comparisons *)

Lemma Qle_bool_false (x y : Q) : Qle_bool x y = false <-> (y < x)%Q.
Proof.
  split; intros H.
  - apply Qnot_le_lt. intros Hle. apply Qle_bool_iff in Hle. congruence.
  - destruct (Qle_bool x y) eqn:E; [|reflexivity].
    apply Qle_bool_iff in E. lra.
Qed.

Lemma Qltb_true (x y : Q) : Qltb x y = true <-> (x < y)%Q.
Proof.
  unfold Qltb. rewrite negb_true_iff. apply Qle_bool_false.
Qed.

Lemma Qltb_false (x y : Q) : Qltb x y = false <-> (y <= x)%Q.
Proof.
  unfold Qltb. rewrite negb_false_iff. apply Qle_bool_iff.
Qed.

Lemma Math_min_spec (a b : Q) :
  ((a <= b)%Q /\ Math_min a b = a) \/ ((b < a)%Q /\ Math_min a b = b).
Proof.
  unfold Math_min. destruct (Qle_bool a b) eqn:E.
  - left. split; [now apply Qle_bool_iff|reflexivity].
  - right. split; [now apply Qle_bool_false|reflexivity].
Qed.

Lemma Math_max_spec (a b : Q) :
  ((a <= b)%Q /\ Math_max a b = b) \/ ((b < a)%Q /\ Math_max a b = a).
Proof.
  unfold Math_max. destruct (Qle_bool a b) eqn:E.
  - left. split; [now apply Qle_bool_iff|reflexivity].
  - right. split; [now apply Qle_bool_false|reflexivity].
Qed.

(** ** The in-range test *)

Lemma isHourInRange_daytime (p s e : Q) :
  (s <= e)%Q ->
  SNT.isHourInRange (Fin p) (Fin s) (Fin e) = true <-> (s <= p /\ p <= e)%Q.
Proof.
  intros Hse. unfold SNT.isHourInRange, ge, le.
  apply Qle_bool_iff in Hse. rewrite Hse.
  rewrite andb_true_iff, !Qle_bool_iff. reflexivity.
Qed.

Lemma isHourInRange_overnight (p s e : Q) :
  (e < s)%Q ->
  SNT.isHourInRange (Fin p) (Fin s) (Fin e) = true <-> (s <= p \/ p <= e)%Q.
Proof.
  intros Hse. unfold SNT.isHourInRange, ge, le.
  apply Qle_bool_false in Hse. rewrite Hse.
  rewrite orb_true_iff, !Qle_bool_iff. reflexivity.
Qed.

(** The quiet-hours test of the service applies the same rule to minutes
    of the day. *)
Lemma isInQuietHours_rule (Number : string -> jsnum) (st : NS.T) (now : Z)
    (s e : Q) :
  let quiet := NS.quietHours (NS.forHigh (NS.preferences st)) in
  NS.quietEnabled quiet = true ->
  NS.parseTime Number (NS.quietStart quiet) = Fin s ->
  NS.parseTime Number (NS.quietEnd quiet) = Fin e ->
  NS.isInQuietHours Number st now
  = SNT.isHourInRange (ofZ (getHours now * 60 + getMinutes now)) (Fin s)
      (Fin e).
Proof.
  intros quiet Hen Hs He. unfold NS.isInQuietHours. fold quiet.
  rewrite Hen, Hs, He. cbn [negb].
  unfold SNT.isHourInRange, gt, le. destruct (Qle_bool s e); reflexivity.
Qed.

(** For every number, NaN and the infinities included: the window is an
    ordinary one exactly when the test [start <= end] succeeds. *)
Lemma isHourInRange_branches (p s e : jsnum) :
  (le s e = true -> SNT.isHourInRange p s e = ge p s && le p e)
  /\ (le s e = false -> SNT.isHourInRange p s e = ge p s || le p e).
Proof.
  unfold SNT.isHourInRange. split; intros ->; reflexivity.
Qed.



(** ** Clock strings *)

Lemma digit_not_colon (c : ascii) (v : Z) :
  digitVal c = Some v -> Ascii.eqb c ":" = false.
Proof.
  destruct c as [[] [] [] [] [] [] [] []]; vm_compute; congruence.
Qed.

Lemma digitVal_range (c : ascii) (v : Z) : digitVal c = Some v -> 0 <= v <= 9.
Proof.
  unfold digitVal.
  destruct ((48 <=? Z.of_nat (nat_of_ascii c))
            && (Z.of_nat (nat_of_ascii c) <=? 57)) eqn:E; [|discriminate].
  intros [= <-]. apply andb_true_iff in E. lia.
Qed.

Lemma clockString_inv (s : string) (h m : Z) :
  clockString s = Some (h, m) ->
  exists a b d e x y z w,
    s = String a (String b (String ":" (String d (String e EmptyString))))
    /\ digitVal a = Some x /\ digitVal b = Some y
    /\ digitVal d = Some z /\ digitVal e = Some w
    /\ h = 10 * x + y /\ m = 10 * z + w
    /\ 0 <= h <= 23 /\ 0 <= m <= 59.
Proof.
  unfold clockString.
  destruct s as [|a [|b [|c [|d [|e [|]]]]]]; try discriminate.
  destruct (Ascii.eqb c ":") eqn:Ec; [|discriminate].
  apply Ascii.eqb_eq in Ec. subst c.
  destruct (digitVal a) as [x|] eqn:Ea; [|discriminate].
  destruct (digitVal b) as [y|] eqn:Eb; [|discriminate].
  destruct (digitVal d) as [z|] eqn:Ed; [|discriminate].
  destruct (digitVal e) as [w|] eqn:Ee; [|discriminate].
  cbv zeta.
  destruct ((10 * x + y <=? 23) && (10 * z + w <=? 59)) eqn:Er; [|discriminate].
  intros [= <- <-]. apply andb_true_iff in Er.
  apply digitVal_range in Ea as Ra, Eb as Rb, Ed as Rd, Ee as Re.
  exists a, b, d, e, x, y, z, w. repeat split; try assumption; lia.
Qed.

Lemma NumberDigits_reads : readsDecimal NumberDigits.
Proof.
  intros s n H. unfold NumberDigits. rewrite H. reflexivity.
Qed.

Section ClockProps.

Variable Number : string -> jsnum.
Hypothesis Hreads : readsDecimal Number.

Lemma split_clock (a b d e : ascii) (x y z w : Z) :
  digitVal a = Some x -> digitVal b = Some y ->
  digitVal d = Some z -> digitVal e = Some w ->
  map Number
    (split ":" (String a (String b (String ":" (String d (String e EmptyString))))))
  = [ofZ (10 * (10 * 0 + x) + y); ofZ (10 * (10 * 0 + z) + w)].
Proof.
  intros Ea Eb Ed Ee. unfold split. cbn [splitFrom].
  rewrite (digit_not_colon _ _ Ea), (digit_not_colon _ _ Eb),
    (digit_not_colon _ _ Ed), (digit_not_colon _ _ Ee).
  change (Ascii.eqb ":" ":") with true. cbn [map].
  rewrite (Hreads (String a (String b EmptyString)) (10 * (10 * 0 + x) + y)),
    (Hreads (String d (String e EmptyString)) (10 * (10 * 0 + z) + w)).
  - reflexivity.
  - cbn [decimalFrom]. rewrite Ed, Ee. reflexivity.
  - cbn [decimalFrom]. rewrite Ea, Eb. reflexivity.
Qed.



(** On a clock string every conversion that reads decimals parses what
    the digit reader parses. *)
Lemma parseTime_minutes_agree (s : string) (h m : Z) :
  clockString s = Some (h, m) ->
  NS.parseTime Number s = NS.parseTime NumberDigits s.
Proof.
  intros Hs. apply clockString_inv in Hs.
  destruct Hs as (a & b & d & e & x & y & z & w & -> & Ea & Eb & Ed & Ee & _).
  unfold NS.parseTime. rewrite (split_clock _ _ _ _ _ _ _ _ Ea Eb Ed Ee).
  unfold split. cbn [splitFrom].
  rewrite (digit_not_colon _ _ Ea), (digit_not_colon _ _ Eb),
    (digit_not_colon _ _ Ed), (digit_not_colon _ _ Ee).
  change (Ascii.eqb ":" ":") with true. cbn [map].
  unfold NumberDigits. cbn [decimalFrom]. rewrite Ea, Eb, Ed, Ee. reflexivity.
Qed.

Lemma parseTime_hours_agree (s : string) (h m : Z) :
  clockString s = Some (h, m) ->
  SNT.parseTime Number s = SNT.parseTime NumberDigits s.
Proof.
  intros Hs. apply clockString_inv in Hs.
  destruct Hs as (a & b & d & e & x & y & z & w & -> & Ea & Eb & Ed & Ee & _).
  unfold SNT.parseTime. rewrite (split_clock _ _ _ _ _ _ _ _ Ea Eb Ed Ee).
  unfold split. cbn [splitFrom].
  rewrite (digit_not_colon _ _ Ea), (digit_not_colon _ _ Eb),
    (digit_not_colon _ _ Ed), (digit_not_colon _ _ Ee).
  change (Ascii.eqb ":" ":") with true. cbn [map].
  unfold NumberDigits. cbn [decimalFrom]. rewrite Ea, Eb, Ed, Ee. reflexivity.
Qed.

Lemma nightQuiet_at (st : NS.T) (now h m : Z) :
  nightQuiet st -> clockIs now h m ->
  NS.isInQuietHours Number st now
  = (Qle_bool (inject_Z 1320) (inject_Z (h * 60 + m))
     || Qle_bool (inject_Z (h * 60 + m)) (inject_Z 420)).
Proof.
  intros Hq [Hh Hm]. unfold NS.isInQuietHours. rewrite Hq, Hh, Hm.
  cbn [NS.quietEnabled NS.quietStart NS.quietEnd negb].
  rewrite (parseTime_minutes_agree "22:00" 22 0 eq_refl),
    (parseTime_minutes_agree "07:00" 7 0 eq_refl).
  reflexivity.
Qed.

End ClockProps.

(** C2: the in-range test is [start <= point <= end] for an ordinary
    window and [point >= start or point <= end] for a window that wraps
    midnight; the quiet-hours test of the service follows the same rule, so
    that quiet hours from 22:00 to 07:00 contain 23:30 and 03:00 and do not
    contain 12:00; nap and fussy-period containment go through the same
    test. *)
Theorem C2_wraparound_in_range :
  (forall p s e : jsnum,
     (le s e = true -> SNT.isHourInRange p s e = ge p s && le p e)
     /\ (le s e = false -> SNT.isHourInRange p s e = ge p s || le p e))
  /\ (forall Number st now s e,
        let quiet := NS.quietHours (NS.forHigh (NS.preferences st)) in
        NS.quietEnabled quiet = true ->
        NS.parseTime Number (NS.quietStart quiet) = Fin s ->
        NS.parseTime Number (NS.quietEnd quiet) = Fin e ->
        NS.isInQuietHours Number st now
        = SNT.isHourInRange (ofZ (getHours now * 60 + getMinutes now))
            (Fin s) (Fin e))
  /\ (forall p s e : Q, (s <= e)%Q ->
     SNT.isHourInRange (Fin p) (Fin s) (Fin e) = true
     <-> (s <= p /\ p <= e)%Q)
  /\ (forall p s e : Q, (e < s)%Q ->
     SNT.isHourInRange (Fin p) (Fin s) (Fin e) = true
     <-> (s <= p \/ p <= e)%Q)
  /\ (forall Number st now,
        readsDecimal Number -> nightQuiet st -> clockIs now 23 30 ->
        NS.isInQuietHours Number st now = true)
  /\ (forall Number st now,
        readsDecimal Number -> nightQuiet st -> clockIs now 3 0 ->
        NS.isInQuietHours Number st now = true)
  /\ (forall Number st now,
        readsDecimal Number -> nightQuiet st -> clockIs now 12 0 ->
        NS.isInQuietHours Number st now = false)
  /\ (forall Number hour conflict nap,
        SNT.napStep Number hour conflict nap
        = if SNT.isHourInRange (ofZ hour)
               (SNT.parseTime Number (SNT.napStart nap))
               (SNT.parseTime Number (SNT.napEnd nap))
          then (conflict + SNT.reliability nap * 0.8)%Q else conflict)
  /\ (forall Number hour conflict fussy,
        SNT.fussyStep Number hour conflict fussy
        = if SNT.isHourInRange (ofZ hour)
               (SNT.parseTime Number (SNT.fussyStart fussy))
               (SNT.parseTime Number (SNT.fussyEnd fussy))
          then (conflict + SNT.intensity fussy * 0.6)%Q else conflict)
  /\ (forall Number t quiet,
        SNT.isTimeInQuietPeriod Number t quiet
        = SNT.isHourInRange
            (Fin (inject_Z (getHours t) + inject_Z (getMinutes t) / 60))
            (SNT.parseTime Number (SNT.quietStart quiet))
            (SNT.parseTime Number (SNT.quietEnd quiet))).
Proof.
  split; [exact isHourInRange_branches|].
  split; [exact isInQuietHours_rule|].
  split; [exact isHourInRange_daytime|].
  split; [exact isHourInRange_overnight|].
  split; [|split; [|split]];
    try (intros Number st now Hr Hq Hc;
         rewrite (nightQuiet_at Number Hr st now _ _ Hq Hc); reflexivity).
  repeat split; reflexivity.
Qed.




(** The default service at 23:30 on the day of the epoch. *)
Lemma C2_wraparound_witness :
  NS.isInQuietHours NumberDigits (NS.initial 0 true) 84600000 = true.
Proof.
  apply (proj1 (proj2 (proj2 (proj2 (proj2 C2_wraparound_in_range))))).
  - exact NumberDigits_reads.
  - reflexivity.
  - split; reflexivity.
Defined.

(** ** The baby-schedule conflict *)

Section ConflictProps.

Variable Number : string -> jsnum.

Lemma napLoop_sum (hour : Z) (naps : list SNT.NapTime) (conflict : Q) :
  (fold_left (SNT.napStep Number hour) naps conflict
   == conflict
      + Qsum (map (fun nap => SNT.reliability nap * 0.8)
                (List.filter (napContains Number hour) naps)))%Q.
Proof.
  revert conflict. induction naps as [|nap rest IH]; intros conflict.
  - cbn. ring.
  - cbn [fold_left List.filter]. rewrite IH.
    unfold SNT.napStep, napContains.
    destruct (SNT.isHourInRange _ _ _); cbn [map Qsum]; ring.
Qed.

Lemma fussyLoop_sum (hour : Z) (periods : list SNT.FussyPeriod) (conflict : Q) :
  (fold_left (SNT.fussyStep Number hour) periods conflict
   == conflict
      + Qsum (map (fun fussy => SNT.intensity fussy * 0.6)
                (List.filter (fussyContains Number hour) periods)))%Q.
Proof.
  revert conflict. induction periods as [|fussy rest IH]; intros conflict.
  - cbn. ring.
  - cbn [fold_left List.filter]. rewrite IH.
    unfold SNT.fussyStep, fussyContains.
    destruct (SNT.isHourInRange _ _ _); cbn [map Qsum]; ring.
Qed.

Lemma Qsum_nonneg {A : Type} (w : A -> Q) (xs : list A) :
  Forall (fun x => (0 <= w x)%Q) xs -> (0 <= Qsum (map w xs))%Q.
Proof.
  induction 1 as [|x rest Hx _ IH]; cbn; lra.
Qed.

Lemma Forall_filter_keep {A : Type} (P : A -> Prop) (f : A -> bool)
    (xs : list A) :
  Forall P xs -> Forall P (List.filter f xs).
Proof.
  induction 1 as [|x rest Hx _ IH]; cbn; [constructor|].
  destruct (f x); [constructor|]; assumption.
Qed.


Lemma conflict_before_cap (bs : SNT.BabyScheduleData) (hour : Z) :
  exists raw : Q,
    SNT.getBabyScheduleConflict Number bs hour = Math_min raw 1
    /\ (raw == conflictTotal Number bs hour)%Q.
Proof.
  unfold SNT.getBabyScheduleConflict. cbv zeta.
  eexists. split; [reflexivity|].
  unfold conflictTotal.
  destruct (SNT.includes (SNT.feedingTimes bs) hour);
    rewrite fussyLoop_sum, napLoop_sum; ring.
Qed.

Lemma getBabyScheduleConflict_total (bs : SNT.BabyScheduleData) (hour : Z) :
  (SNT.getBabyScheduleConflict Number bs hour
   == Qmin 1 (conflictTotal Number bs hour))%Q.
Proof.
  destruct (conflict_before_cap bs hour) as (raw & -> & Hraw).
  destruct (Math_min_spec raw 1) as [[? ->]|[? ->]];
    destruct (Q.min_spec 1 (conflictTotal Number bs hour)) as [[? ->]|[? ->]];
    lra.
Qed.

End ConflictProps.


Lemma initialSchedule_weights : weightsInUnit SNT.initialSchedule.
Proof.
  split; repeat constructor; cbn; lra.
Defined.


(** ** The delay decision *)

Lemma urgency_eqb_eq (a b : urgency) : urgency_eqb a b = true <-> a = b.
Proof.
  destruct a, b; cbn; split; intros H; try reflexivity; discriminate.
Qed.

Section DelayProps.

Variable Number : string -> jsnum.

Lemma quietLoop_hit (t : Z) (quiets : list SNT.QuietPeriod)
    (otherwise : SNT.DelayCheck) :
  Exists (fun quiet => SNT.isTimeInQuietPeriod Number t quiet = true) quiets ->
  SNT.quietLoop Number t quiets otherwise
  = SNT.mkDelay true "Proposed time conflicts with quiet hours" 0.9.
Proof.
  induction quiets as [|quiet rest IH]; intros H.
  - inversion H.
  - cbn [SNT.quietLoop].
    destruct (SNT.isTimeInQuietPeriod Number t quiet) eqn:E; [reflexivity|].
    apply IH. inversion H as [? ? Hq|? ? Hr]; subst; [congruence|exact Hr].
Qed.

Lemma quietLoop_miss (t : Z) (quiets : list SNT.QuietPeriod)
    (otherwise : SNT.DelayCheck) :
  ~ Exists (fun quiet => SNT.isTimeInQuietPeriod Number t quiet = true) quiets ->
  SNT.quietLoop Number t quiets otherwise = otherwise.
Proof.
  induction quiets as [|quiet rest IH]; intros H; [reflexivity|].
  cbn [SNT.quietLoop].
  destruct (SNT.isTimeInQuietPeriod Number t quiet) eqn:E.
  - exfalso. apply H. now left.
  - apply IH. intros Hr. apply H. now right.
Qed.

Lemma quietLoop_delays (t : Z) (quiets : list SNT.QuietPeriod)
    (otherwise : SNT.DelayCheck) :
  SNT.shouldDelay otherwise = true ->
  SNT.shouldDelay (SNT.quietLoop Number t quiets otherwise) = true.
Proof.
  intros H. induction quiets as [|quiet rest IH]; [exact H|].
  cbn [SNT.quietLoop]. destruct (SNT.isTimeInQuietPeriod Number t quiet);
    [reflexivity|exact IH].
Qed.

Lemma Exists_quiet_dec (t : Z) (quiets : list SNT.QuietPeriod) :
  Exists (fun quiet => SNT.isTimeInQuietPeriod Number t quiet = true) quiets
  \/ ~ Exists (fun quiet => SNT.isTimeInQuietPeriod Number t quiet = true)
         quiets.
Proof.
  induction quiets as [|quiet rest [IH|IH]].
  - right. intros H. inversion H.
  - left. now right.
  - destruct (SNT.isTimeInQuietPeriod Number t quiet) eqn:E.
    + left. now left.
    + right. intros H. inversion H; subst; [congruence|contradiction].
Qed.

(** The code follows the rule list over the rate as it reads it. *)
Lemma shouldDelayNotification_rules (st : SNT.T) (now t : Z) (u : urgency) :
  let check := SNT.shouldDelayNotification Number st now t u in
  delayRuleOn Number st now t u (rateReadAtProposed st t)
    (SNT.shouldDelay check) (SNT.delayConfidence check).
Proof.
  cbv zeta. unfold SNT.shouldDelayNotification.
  destruct (urgency_eqb u high && (t - now <? 4 * 60 * 60 * 1000)) eqn:Eu.
  - apply rule_urgent. apply andb_true_iff in Eu as [Hu Ht].
    split; [now apply urgency_eqb_eq|]. unfold msPerHour. lia.
  - assert (~ urgentSoon now t u) as Hnu.
    { intros [Hu Ht]. apply andb_false_iff in Eu as [Eu|Eu].
      - apply urgency_eqb_eq in Hu. congruence.
      - unfold msPerHour in Ht. lia. }
    destruct (Exists_quiet_dec t (SNT.quietPeriods (SNT.userBehavior st)))
      as [Hq|Hq].
    + rewrite quietLoop_hit by exact Hq. now apply rule_quiet.
    + rewrite quietLoop_miss by exact Hq.
      fold (conflictAtProposed Number st t). fold (rateReadAtProposed st t).
      destruct (Qltb 0.7 (conflictAtProposed Number st t)) eqn:Ec.
      * apply Qltb_true in Ec. now apply rule_conflict.
      * apply Qltb_false in Ec.
        assert (~ (0.7 < conflictAtProposed Number st t)%Q) as Hnc by lra.
        destruct (Qltb (rateReadAtProposed st t) 0.3 && urgency_eqb u medium)
          eqn:Er.
        -- apply andb_true_iff in Er as [Hr Hm].
           apply Qltb_true in Hr. apply urgency_eqb_eq in Hm.
           now apply rule_unresponsive.
        -- apply rule_otherwise; try assumption.
           intros [Hm Hr]. apply andb_false_iff in Er as [Er|Er].
           ++ apply Qltb_false in Er. lra.
           ++ apply urgency_eqb_eq in Hm. congruence.
Qed.

(** A rate that is not stored as 0 is read as it is stored. *)
Lemma rateRead_stored (st : SNT.T) (t : Z) :
  storedRateNonzero (SNT.userBehavior st) (getHours t) ->
  rateReadAtProposed st t = rateAtProposed st t.
Proof.
  unfold storedRateNonzero, rateReadAtProposed, rateAtProposed,
    SNT.responseRateAt, orDefault.
  intros Hnz.
  destruct (SNT.responseRates (SNT.userBehavior st) !! toString (getHours t))
    as [rate|]; [|reflexivity].
  cbn [default]. destruct (Qeq_bool rate 0) eqn:E; [|reflexivity].
  apply Qeq_bool_iff in E. destruct (Hnz rate eq_refl E).
Qed.

(** Where no rate is stored as 0 for the proposed hour, the code decides by
    the rule list of the specification. *)
Lemma shouldDelayNotification_claimed_rules (st : SNT.T) (now t : Z)
    (u : urgency) :
  storedRateNonzero (SNT.userBehavior st) (getHours t) ->
  let check := SNT.shouldDelayNotification Number st now t u in
  delayRule Number st now t u (SNT.shouldDelay check)
    (SNT.delayConfidence check).
Proof.
  intros Hnz. cbv zeta. unfold delayRule.
  rewrite <- (rateRead_stored st t Hnz).
  apply shouldDelayNotification_rules.
Qed.

End DelayProps.

(** The rules exclude one another: the outcome of the list is unique. *)
Lemma delayRule_functional (Number : string -> jsnum) (st : SNT.T)
    (now t : Z) (u : urgency) (rate : Q) (d d' : bool) (c c' : Q) :
  delayRuleOn Number st now t u rate d c ->
  delayRuleOn Number st now t u rate d' c' ->
  d = d' /\ c = c'.
Proof.
  intros H H'. inversion H; inversion H'; subst; try tauto; try lra.
Qed.

Lemma Qsum_member_le {A : Type} (w : A -> Q) (xs : list A) (x : A) :
  Forall (fun y => (0 <= w y)%Q) xs -> In x xs -> (w x <= Qsum (map w xs))%Q.
Proof.
  induction 1 as [|y rest Hy Hrest IH]; intros Hin; [inversion Hin|].
  pose proof (Qsum_nonneg w rest Hrest). cbn.
  destruct Hin as [->|Hin]; [lra|]. specialize (IH Hin). lra.
Qed.

Lemma afternoonNap_conflict (Number : string -> jsnum)
    (bs : SNT.BabyScheduleData) :
  readsDecimal Number ->
  weightsInUnit bs -> In afternoonNap (SNT.napTimes bs) ->
  (0.72 <= SNT.getBabyScheduleConflict Number bs 14)%Q.
Proof.
  intros Hr Hw Hin. rewrite getBabyScheduleConflict_total.
  assert (0.72 <= conflictTotal Number bs 14)%Q as Ht.
  { destruct Hw as [Hn Hf]. unfold conflictTotal.
    assert (0 <= Qsum (map (fun fussy => SNT.intensity fussy * 0.6)
                    (List.filter (fussyContains Number 14)
                       (SNT.fussyPeriods bs))))%Q as H2.
    { apply Qsum_nonneg, Forall_filter_keep.
      eapply Forall_impl; [exact Hf|]. cbn. intros fussy ?. lra. }
    assert (SNT.reliability afternoonNap * 0.8
            <= Qsum (map (fun nap => SNT.reliability nap * 0.8)
                       (List.filter (napContains Number 14)
                          (SNT.napTimes bs))))%Q as H1.
    { apply (Qsum_member_le (fun nap => SNT.reliability nap * 0.8)%Q).
      - apply Forall_filter_keep.
        eapply Forall_impl; [exact Hn|]. cbn. intros nap ?. lra.
      - apply filter_In. split; [exact Hin|].
        unfold napContains, afternoonNap. cbn [SNT.napStart SNT.napEnd].
        rewrite (parseTime_hours_agree Number Hr "13:00" 13 0 eq_refl),
          (parseTime_hours_agree Number Hr "15:00" 15 0 eq_refl).
        reflexivity. }
    cbn [afternoonNap SNT.reliability] in H1.
    destruct (SNT.includes (SNT.feedingTimes bs) 14); lra. }
  destruct (Q.min_spec 1 (conflictTotal Number bs 14)) as [[? ->]|[? ->]];
    lra.
Qed.

(** The scenario of the afternoon nap: with a nap from 13:00 to 15:00 of
    reliability 0.9 the conflict at hour 14 is at least 0.72 and a
    medium-urgency request for that hour is delayed. *)
Lemma afternoonNap_delays (Number : string -> jsnum) (st : SNT.T)
    (now t : Z) :
  readsDecimal Number ->
  weightsInUnit (SNT.babySchedule st) ->
  In afternoonNap (SNT.napTimes (SNT.babySchedule st)) ->
  getHours t = 14 ->
  (0.72 <= SNT.getBabyScheduleConflict Number (SNT.babySchedule st) 14)%Q
  /\ SNT.shouldDelay (SNT.shouldDelayNotification Number st now t medium)
     = true.
Proof.
  intros Hr Hw Hin Hh.
  pose proof (afternoonNap_conflict Number _ Hr Hw Hin) as Hc.
  split; [exact Hc|].
  unfold SNT.shouldDelayNotification. cbn [urgency_eqb andb].
  apply quietLoop_delays. rewrite Hh.
  assert (Qltb 0.7 (SNT.getBabyScheduleConflict Number
                      (SNT.babySchedule st) 14) = true) as ->
    by (apply Qltb_true; lra).
  reflexivity.
Qed.

(** The default schedule, whose second nap is the one of the scenario,
    asked at 14:00 on the day of the epoch. *)
Lemma afternoonNap_delays_default :
  (0.72 <= SNT.getBabyScheduleConflict NumberDigits
             (SNT.babySchedule (SNT.initial 0)) 14)%Q
  /\ SNT.shouldDelay
       (SNT.shouldDelayNotification NumberDigits (SNT.initial 0) 0 50400000
          medium) = true.
Proof.
  apply (afternoonNap_delays NumberDigits (SNT.initial 0) 0 50400000).
  - exact NumberDigits_reads.
  - exact initialSchedule_weights.
  - right. left. reflexivity.
  - reflexivity.
Defined.

(** ** The next viable slot *)

Section NextSlotProps.

Variable Number : string -> jsnum.
Variable st : SNT.T.

Lemma inQuiet_existsb (t : Z) :
  existsb (SNT.isTimeInQuietPeriod Number t)
    (SNT.quietPeriods (SNT.userBehavior st)) = true
  <-> inSomeQuietPeriod Number st t.
Proof.
  unfold inSomeQuietPeriod. rewrite existsb_exists, Exists_exists.
  split; intros (q & Hq & Ht); exists q; split; try assumption;
    now apply list_elem_of_In.
Qed.

(** One iteration of the loop skips exactly the candidates that are not
    viable. *)
Lemma probe_step (t0 : Z) (n : nat) (i : Z) :
  (viable Number st (hourlyStep t0 i)
   /\ SNT.probe Number st t0 (S n) i = Some (hourlyStep t0 i))
  \/ (~ viable Number st (hourlyStep t0 i)
      /\ SNT.probe Number st t0 (S n) i = SNT.probe Number st t0 n (i + 1)).
Proof.
  cbn [SNT.probe]. cbv zeta.
  replace (t0 + i * 60 * 60 * 1000) with (hourlyStep t0 i)
    by (unfold hourlyStep, msPerHour; lia).
  destruct (existsb _ _) eqn:Eq.
  - right. split; [|reflexivity]. intros [Hq _]. apply Hq.
    now apply inQuiet_existsb.
  - destruct (Qltb 0.5 _) eqn:Er.
    + left. split; [|reflexivity]. split.
      * intros Hq. apply inQuiet_existsb in Hq. congruence.
      * now apply Qltb_true.
    + right. split; [|reflexivity]. intros [_ Hr].
      apply Qltb_false in Er. lra.
Qed.

Lemma probe_found (t0 : Z) (n : nat) (i : Z) (c : Z) :
  SNT.probe Number st t0 n i = Some c ->
  exists k, i <= k < i + Z.of_nat n /\ c = hourlyStep t0 k
            /\ viable Number st (hourlyStep t0 k)
            /\ forall j, i <= j < k -> ~ viable Number st (hourlyStep t0 j).
Proof.
  revert i. induction n as [|n IH]; intros i H; [discriminate|].
  destruct (probe_step t0 n i) as [[Hv Hp]|[Hv Hp]]; rewrite Hp in H.
  - injection H as <-. exists i.
    split; [lia|]. split; [reflexivity|]. split; [exact Hv|].
    intros j Hj. lia.
  - destruct (IH _ H) as (k & Hk & -> & Hvk & Hfirst).
    exists k. split; [lia|]. split; [reflexivity|]. split; [exact Hvk|].
    intros j Hj. destruct (Z.eq_dec j i) as [->|Hne]; [exact Hv|].
    apply Hfirst. lia.
Qed.

Lemma probe_exhausted (t0 : Z) (n : nat) (i : Z) :
  SNT.probe Number st t0 n i = None ->
  forall j, i <= j < i + Z.of_nat n -> ~ viable Number st (hourlyStep t0 j).
Proof.
  revert i. induction n as [|n IH]; intros i H j Hj; [lia|].
  destruct (probe_step t0 n i) as [[Hv Hp]|[Hv Hp]]; rewrite Hp in H;
    [discriminate|].
  destruct (Z.eq_dec j i) as [->|Hne]; [exact Hv|].
  apply (IH _ H). lia.
Qed.

Lemma maxDelay_cap (u : urgency) : SNT.maxDelay u = cap u.
Proof. destruct u; reflexivity. Qed.

Lemma cap_pos (u : urgency) : 0 < cap u.
Proof. destruct u; cbn; lia. Qed.

Lemma getHours_range (t : Z) : 0 <= getHours t < 24.
Proof. unfold getHours. apply Z.mod_pos_bound. lia. Qed.

Lemma find_After (h0 : Z) (hours : list Z) (h : Z) :
  find (fun hour => hour >? h0) hours = Some h -> h0 < h.
Proof.
  induction hours as [|x rest IH]; cbn; [discriminate|].
  destruct (x >? h0) eqn:E; [|exact IH]. intros [= <-]. lia.
Qed.

Lemma find_gt_lt (h0 : Z) (hours : list Z) :
  find (fun hour => hour >? h0) hours = find (fun hour => h0 <? hour) hours.
Proof.
  induction hours as [|x rest IH]; cbn; [reflexivity|].
  rewrite IH. replace (x >? h0) with (h0 <? x) by lia. reflexivity.
Qed.

(** The fallback of the code is [fallbackSlot]: the
    test of the found hour against the falsy 0 never fires, since that hour
    is greater than an hour of the day. *)
Lemma fallbackTime_slot (now t0 : Z) :
  SNT.fallbackTime st now t0 = fallbackSlot st now t0.
Proof.
  unfold SNT.fallbackTime, fallbackSlot, SNT.nextActiveHour. cbv zeta.
  destruct (SNT.patternOf (SNT.userBehavior st) (getDay t0))
    as [|first rest] eqn:Ep.
  - reflexivity.
  - rewrite <- find_gt_lt.
    destruct (find _ (first :: rest)) as [h|] eqn:Ef.
    + apply find_After in Ef as Hh. pose proof (getHours_range t0).
      replace (h =? 0) with false by lia. cbn [default].
      unfold setHours, nextDay, msPerHour. reflexivity.
    + cbn [head default]. unfold setHours, nextDay, msPerHour. reflexivity.
Qed.

Lemma findNextOptimalTime_cases (now t0 : Z) (u : urgency) :
  let r := SNT.findNextOptimalTime Number st now t0 u in
  (exists i, 1 <= i <= cap u /\ r = At (hourlyStep t0 i)
             /\ viable Number st (hourlyStep t0 i)
             /\ forall j, 1 <= j < i -> ~ viable Number st (hourlyStep t0 j))
  \/ ((forall j, 1 <= j <= cap u -> ~ viable Number st (hourlyStep t0 j))
      /\ r = fallbackSlot st now t0).
Proof.
  cbv zeta. unfold SNT.findNextOptimalTime. rewrite maxDelay_cap.
  pose proof (cap_pos u) as Hcap.
  destruct (SNT.probe Number st t0 (Z.to_nat (cap u)) 1) as [c|] eqn:Ep.
  - left. apply probe_found in Ep as (k & Hk & -> & Hv & Hfirst).
    exists k. split; [lia|]. split; [reflexivity|].
    split; [exact Hv|exact Hfirst].
  - right. split; [|apply fallbackTime_slot].
    intros j Hj. apply (probe_exhausted _ _ _ Ep). lia.
Qed.

Lemma startOfDay_bounds (t : Z) : startOfDay t <= t < startOfDay t + msPerDay.
Proof.
  unfold startOfDay.
  pose proof (Z.div_mod t msPerDay ltac:(unfold msPerDay; lia)) as Hd.
  pose proof (Z.mod_pos_bound t msPerDay ltac:(unfold msPerDay; lia)) as Hm.
  lia.
Qed.

Lemma fallbackSlot_not_before (now t0 t : Z) :
  now <= t0 -> patternHoursValid st t0 ->
  fallbackSlot st now t0 = At t -> now <= t.
Proof.
  unfold fallbackSlot, patternHoursValid. intros Hnow Hvalid.
  destruct (SNT.patternOf (SNT.userBehavior st) (getDay t0))
    as [|first rest]; [discriminate|].
  cbv zeta. set (h := default first _).
  assert (0 <= h) as Hh.
  { subst h. destruct (find _ (first :: rest)) as [x|] eqn:Ef; cbn [default].
    - apply find_some in Ef as [Hin _].
      rewrite Forall_forall in Hvalid. apply Hvalid.
      now apply list_elem_of_In.
    - now inversion Hvalid. }
  pose proof (startOfDay_bounds t0) as Hday.
  destruct (_ <? _) eqn:E; intros [= <-]; unfold msPerHour, msPerDay in *; lia.
Qed.

End NextSlotProps.

(** [findNextOptimalTime] is a total function whose loop runs at most
    [cap] times (6 for high urgency, 24 for medium).  It returns the first
    hourly step forward, within the cap, that lies outside every quiet
    period and has a response rate above 0.5; when there is none it returns
    the fallback.  The result is a date whenever the pattern consulted by
    the fallback is not empty, and for an original time not before now and
    pattern hours that are not negative it is never before now. *)
Lemma findNextOptimalTime_bounded :
  forall Number st now t0 u,
    let r := SNT.findNextOptimalTime Number st now t0 u in
    ((exists i, 1 <= i <= cap u /\ r = At (hourlyStep t0 i)
                /\ t0 < hourlyStep t0 i <= t0 + cap u * msPerHour
                /\ viable Number st (hourlyStep t0 i)
                /\ forall j, 1 <= j < i -> ~ viable Number st (hourlyStep t0 j))
     \/ ((forall j, 1 <= j <= cap u -> ~ viable Number st (hourlyStep t0 j))
         /\ r = fallbackSlot st now t0))
    /\ (SNT.patternOf (SNT.userBehavior st) (getDay t0) <> [] ->
        exists t, r = At t)
    /\ (now <= t0 -> patternHoursValid st t0 ->
        forall t, r = At t -> now <= t).
Proof.
  intros Number st now t0 u r.
  pose proof (findNextOptimalTime_cases Number st now t0 u) as H.
  fold r in H. split; [|split].
  - destruct H as [(i & Hi & Hr & Hv & Hfirst)|[Hnone Hr]]; [left|right].
    + exists i. split; [exact Hi|]. split; [exact Hr|].
      split; [unfold hourlyStep, msPerHour; lia|].
      split; [exact Hv|exact Hfirst].
    + split; assumption.
  - intros Hne.
    destruct H as [(i & _ & Hr & _)|[_ Hr]]; [eexists; exact Hr|].
    rewrite Hr. unfold fallbackSlot.
    destruct (SNT.patternOf (SNT.userBehavior st) (getDay t0));
      [congruence|].
    cbv zeta. destruct (_ <? _); eexists; reflexivity.
  - intros Hnow Hvalid t Ht.
    destruct H as [(i & Hi & Hr & _)|[_ Hr]].
    + rewrite Hr in Ht. injection Ht as <-.
      unfold hourlyStep, msPerHour. lia.
    + rewrite Hr in Ht. exact (fallbackSlot_not_before st now t0 t Hnow Hvalid Ht).
Qed.

(** The default profile, asked at 22:30 on the day of the epoch to move a
    medium-urgency notice proposed for 23:00. *)
Lemma findNextOptimalTime_bounded_default :
  SNT.findNextOptimalTime NumberDigits (SNT.initial 81000000) 81000000
    82800000 medium = At 115200000
  /\ 81000000 <= 115200000.
Proof.
  assert (SNT.findNextOptimalTime NumberDigits (SNT.initial 81000000) 81000000
            82800000 medium = At 115200000) as Hr by (vm_compute; reflexivity).
  split; [exact Hr|].
  apply (proj2 (proj2 (findNextOptimalTime_bounded NumberDigits
                         (SNT.initial 81000000) 81000000 82800000 medium))).
  - lia.
  - unfold patternHoursValid. vm_compute. repeat constructor; discriminate.
  - exact Hr.
Defined.

(** C5: the failing input of the rule list.  In the default profile with
    the response rate of hour 12 stored as 0, a medium-urgency request
    proposed for noon, asked at midnight, is outside every quiet period and
    meets no conflict; its response rate 0 is below 0.3, so the rule list
    of the specification delays it with confidence 1 - 0, and allows no
    other outcome.  The code reads the stored 0 as 0.5 and answers: no
    delay, confidence 0.8. *)
Theorem C5_stored_zero_rate_not_delayed :
  let check :=
    SNT.shouldDelayNotification NumberDigits zeroRateAtNoon 0 43200000 medium in
  SNT.responseRates (SNT.userBehavior zeroRateAtNoon) !! "12"%string
  = Some 0%Q
  /\ getHours 43200000 = 12
  /\ check = SNT.mkDelay false "" 0.8
  /\ delayRule NumberDigits zeroRateAtNoon 0 43200000 medium true (1 - 0)
  /\ ~ delayRule NumberDigits zeroRateAtNoon 0 43200000 medium
         (SNT.shouldDelay check) (SNT.delayConfidence check).
Proof.
  cbv zeta.
  assert (rateAtProposed zeroRateAtNoon 43200000 = 0%Q) as Hrate
    by (vm_compute; reflexivity).
  assert (SNT.shouldDelayNotification NumberDigits zeroRateAtNoon 0 43200000
            medium = SNT.mkDelay false "" 0.8) as Hcheck
    by (vm_compute; reflexivity).
  assert (delayRule NumberDigits zeroRateAtNoon 0 43200000 medium true (1 - 0))
    as Hrule.
  { unfold delayRule. rewrite Hrate. apply rule_unresponsive.
    - intros [Hu _]. discriminate.
    - intros H. apply inQuiet_existsb in H. vm_compute in H. discriminate.
    - unfold conflictAtProposed.
      replace (SNT.getBabyScheduleConflict NumberDigits
                 (SNT.babySchedule zeroRateAtNoon) (getHours 43200000))
        with 0%Q by (vm_compute; reflexivity).
      lra.
    - reflexivity.
    - lra. }
  split; [vm_compute; reflexivity|]. split; [reflexivity|].
  split; [exact Hcheck|]. split; [exact Hrule|].
  rewrite Hcheck. cbn [SNT.shouldDelay SNT.delayConfidence]. intros H.
  destruct (delayRule_functional _ _ _ _ _ _ _ _ _ _ H Hrule) as [Hd _].
  discriminate.
Qed.

(** C6: the failing input of the fallback.  With no active hour on record
    for Thursdays and Fridays, a high-urgency notice proposed for Friday
    22:00 is to be moved on Thursday at 22:30: the six hourly steps are all
    inside the quiet hours, the pattern consulted by the fallback is empty,
    and [findNextOptimalTime] returns the Invalid Date, which is neither a
    time within the cap nor a next active hour.  [predictOptimalTime]
    reaches this call on its own and recommends the Invalid Date. *)
Theorem C6_empty_pattern_gives_no_time :
  let now := 81000000 in
  let proposed := 165600000 in
  now <= proposed
  /\ (forall j, 1 <= j <= cap high ->
        ~ viable NumberDigits emptyWeekdays (hourlyStep proposed j))
  /\ SNT.patternOf (SNT.userBehavior emptyWeekdays) (getDay proposed) = []
  /\ SNT.findNextOptimalTime NumberDigits emptyWeekdays now proposed high
     = InvalidDate
  /\ SNT.recommendedTime
       (SNT.predictOptimalTime NumberDigits emptyWeekdays now high recall)
     = InvalidDate.
Proof.
  cbv zeta.
  assert (SNT.findNextOptimalTime NumberDigits emptyWeekdays 81000000
            165600000 high = InvalidDate) as Hr by (vm_compute; reflexivity).
  split; [lia|]. split; [|split; [vm_compute; reflexivity|split]].
  - destruct (findNextOptimalTime_cases NumberDigits emptyWeekdays 81000000
                165600000 high) as [(i & _ & Hi & _)|[Hnone _]].
    + rewrite Hr in Hi. discriminate.
    + exact Hnone.
  - exact Hr.
  - vm_compute. reflexivity.
Qed.

(** ** The service: critical requests, the pending set, interactions *)

Section ServiceProps.

Variable Number : string -> jsnum.

Lemma schedule_critical (st : NS.T) (now : Z) (recallId hazard : string) :
  NS.scheduleRecallNotification Number st now recallId critical hazard
  = NS.sendNotification
      (NS.setScheduled st
         (<[NS.id (criticalRecord now recallId hazard)
            := criticalRecord now recallId hazard]>
            (NS.scheduledNotifications st)))
      (criticalRecord now recallId hazard).
Proof.
  unfold NS.scheduleRecallNotification. cbn [urgency_eqb andb].
  unfold NS.calculateOptimalDeliveryTime. cbn [urgency_eqb].
  cbn [NS.decidedTime NS.decidedReasoning NS.decidedConfidence NS.notAfter
       NS.priorityOf urgency_eqb NS.id].
  replace (now <=? now) with true by lia. reflexivity.
Qed.

(** A request that passes the gate and whose computed time is not in the
    future is filed and sent within the call. *)
Lemma schedule_immediate (st : NS.T) (now : Z) (recallId : string)
    (u : urgency) (hazard : string) :
  let n := requestRecord Number st now recallId u hazard in
  droppedByPreference st u = false ->
  NS.notAfter (NS.scheduledFor n) now = true ->
  NS.scheduleRecallNotification Number st now recallId u hazard
  = NS.sendNotification
      (NS.setScheduled st (<[NS.id n := n]> (NS.scheduledNotifications st))) n.
Proof.
  cbv zeta. unfold droppedByPreference, requestRecord.
  cbn [NS.scheduledFor NS.id]. intros Hgate Hdue.
  apply orb_false_iff in Hgate as [Hh Hm].
  unfold NS.scheduleRecallNotification. rewrite Hh, Hm. cbv zeta.
  cbn [NS.id]. rewrite Hdue. reflexivity.
Qed.

Lemma sendNotification_pending (st : NS.T) (n : NS.ScheduledNotification) :
  NS.scheduledNotifications (fst (NS.sendNotification st n))
  = NS.scheduledNotifications st.
Proof.
  unfold NS.sendNotification. destruct (NS.permissionGranted st); reflexivity.
Qed.

Lemma sendNotification_timing (st : NS.T) (n : NS.ScheduledNotification) :
  NS.smartTiming (fst (NS.sendNotification st n)) = NS.smartTiming st.
Proof.
  unfold NS.sendNotification. destruct (NS.permissionGranted st); reflexivity.
Qed.

Lemma sendNotification_delivers (st : NS.T) (n : NS.ScheduledNotification) :
  NS.permissionGranted st = true ->
  NS.sendNotification st n = (NS.setDelivered st (NS.delivered st ++ [n]), true).
Proof.
  intros H. unfold NS.sendNotification. rewrite H. reflexivity.
Qed.

(** After its callback has run, a held notification is not pending. *)
Lemma timerCallback_removes (st : NS.T) (now : Z) (tm : NS.Timer) :
  NS.scheduledNotifications (NS.timerCallback Number st now tm)
    !! NS.id (NS.held tm) = None.
Proof.
  unfold NS.timerCallback. cbn [NS.scheduledNotifications NS.setScheduled].
  apply lookup_delete_eq.
Qed.

Lemma fire_removes (fired : Z) (st : NS.T) (tm : NS.Timer) (st' : NS.T) :
  NS.step Number fired st (NS.Fire tm) st' ->
  NS.scheduledNotifications st' !! NS.id (NS.held tm) = None.
Proof.
  intros Hstep. inversion Hstep; subst. apply timerCallback_removes.
Qed.

(** Once the callback of a held notification has run, cancelling it
    reports that nothing was removed. *)
Lemma cancel_after_fire (fired : Z) (st : NS.T) (tm : NS.Timer) (st' : NS.T) :
  NS.step Number fired st (NS.Fire tm) st' ->
  snd (NS.cancelNotification st' (NS.id (NS.held tm))) = false.
Proof.
  intros Hstep. unfold NS.cancelNotification. cbn [snd].
  rewrite (fire_removes _ _ _ _ Hstep). apply bool_decide_eq_false.
  intros [x Hx]. discriminate.
Qed.

Lemma recordNotificationInteraction_absent (st : NS.T) (now : Z)
    (notificationId : string) (a : SNT.action) :
  NS.scheduledNotifications st !! notificationId = None ->
  NS.recordNotificationInteraction st now notificationId a = st.
Proof.
  intros H. unfold NS.recordNotificationInteraction. rewrite H. reflexivity.
Qed.

End ServiceProps.

(** C1, counterexample: the record that [sendCriticalRecallAlert] hands to
    the browser carries no confidence at all, so its confidence is not
    1.0. *)
Lemma C1_alert_without_confidence :
  NS.sendCriticalRecallAlert (NS.initial 0 true) 0 "r1" "choking hazard"
  = (NS.setDelivered (NS.initial 0 true) [alertRecord 0 "r1" "choking hazard"],
     true)
  /\ NS.confidence (alertRecord 0 "r1" "choking hazard") = None
  /\ NS.confidence (alertRecord 0 "r1" "choking hazard") <> Some 1%Q.
Proof.
  split; [reflexivity|]. split; [reflexivity|]. discriminate.
Qed.

(** C1, as the code has it: whatever the preferences are, a request of
    critical urgency is never dropped.  [scheduleRecallNotification] with
    urgency critical files a record whose [scheduledFor] is the clock
    reading of the call (hence not after any later reading), whose
    confidence is 1.0 and whose priority is 10, and hands it to
    [sendNotification] at once; [sendCriticalRecallAlert] hands over at
    once a record with the same time and priority that carries neither a
    confidence nor a timing reason and is not filed as pending. *)
Theorem C1_critical_bypass :
  forall Number st now recallId hazard,
    let n := criticalRecord now recallId hazard in
    let a := alertRecord now recallId hazard in
    NS.scheduleRecallNotification Number st now recallId critical hazard
    = NS.sendNotification
        (NS.setScheduled st (<[NS.id n := n]> (NS.scheduledNotifications st)))
        n
    /\ NS.scheduledFor n = At now
    /\ NS.confidence n = Some 1%Q
    /\ (forall later, now <= later ->
          NS.notAfter (NS.scheduledFor n) later = true)
    /\ NS.sendCriticalRecallAlert st now recallId hazard
       = NS.sendNotification st a
    /\ NS.scheduledFor a = At now
    /\ NS.confidence a = None
    /\ (NS.permissionGranted st = true ->
        NS.delivered
          (fst (NS.scheduleRecallNotification Number st now recallId critical
                  hazard))
        = NS.delivered st ++ [n]
        /\ NS.delivered
             (fst (NS.sendCriticalRecallAlert st now recallId hazard))
           = NS.delivered st ++ [a]).
Proof.
  intros Number st now recallId hazard n a.
  split; [apply schedule_critical|].
  split; [reflexivity|]. split; [reflexivity|].
  split; [intros later Hl; cbn; lia|].
  split; [reflexivity|]. split; [reflexivity|]. split; [reflexivity|].
  intros Hp. rewrite schedule_critical.
  unfold NS.sendCriticalRecallAlert.
  rewrite !sendNotification_delivers by exact Hp. split; reflexivity.
Qed.

(** A service with every tier switched off, asked for a critical
    notification. *)
Lemma C1_critical_witness :
  NS.delivered
    (fst (NS.scheduleRecallNotification NumberDigits
            (NS.setPreferences (NS.initial 0 true) everythingOff) 0 "r1"
            critical "choking hazard"))
  = [criticalRecord 0 "r1" "choking hazard"]
  /\ NS.delivered
       (fst (NS.sendCriticalRecallAlert
               (NS.setPreferences (NS.initial 0 true) everythingOff) 0 "r1"
               "choking hazard"))
     = [alertRecord 0 "r1" "choking hazard"].
Proof.
  apply (C1_critical_bypass NumberDigits
           (NS.setPreferences (NS.initial 0 true) everythingOff) 0 "r1"
           "choking hazard").
  reflexivity.
Defined.

(** C7, the failing case: a notification that is dispatched within the
    call, because its computed time is not in the future, is sent and yet
    remains in the pending set, and [cancelNotification] with its id then
    returns true.  Only the deferred callback removes its record.  Every
    critical request takes this path. *)
Theorem C7_immediate_send_stays_pending :
  forall Number st now recallId u hazard,
    let n := requestRecord Number st now recallId u hazard in
    let st' :=
      fst (NS.scheduleRecallNotification Number st now recallId u hazard) in
    droppedByPreference st u = false ->
    NS.notAfter (NS.scheduledFor n) now = true ->
    NS.scheduledNotifications st' !! NS.id n = Some n
    /\ snd (NS.cancelNotification st' (NS.id n)) = true
    /\ (NS.permissionGranted st = true ->
        NS.delivered st' = NS.delivered st ++ [n]).
Proof.
  intros Number st now recallId u hazard n st' Hgate Hdue. subst st'.
  rewrite (schedule_immediate Number st now recallId u hazard Hgate Hdue).
  fold n.
  assert (NS.scheduledNotifications
            (fst (NS.sendNotification
                    (NS.setScheduled st
                       (<[NS.id n := n]> (NS.scheduledNotifications st))) n))
          !! NS.id n = Some n) as Hp.
  { rewrite sendNotification_pending. cbn [NS.scheduledNotifications
      NS.setScheduled]. apply lookup_insert_eq. }
  split; [exact Hp|]. split.
  - unfold NS.cancelNotification. cbn [snd]. rewrite Hp.
    apply bool_decide_eq_true. eexists; reflexivity.
  - intros Hg. rewrite sendNotification_delivers by exact Hg. reflexivity.
Qed.

(** The default service asked for a critical notification at the epoch:
    the record is sent, stays pending, and can still be cancelled. *)
Lemma C7_immediate_send_witness :
  let n := criticalRecord 0 "r1" "choking hazard" in
  let st' :=
    fst (NS.scheduleRecallNotification NumberDigits (NS.initial 0 true) 0 "r1"
           critical "choking hazard") in
  NS.scheduledNotifications st' !! NS.id n = Some n
  /\ snd (NS.cancelNotification st' (NS.id n)) = true
  /\ (NS.permissionGranted (NS.initial 0 true) = true ->
      NS.delivered st' = NS.delivered (NS.initial 0 true) ++ [n]).
Proof.
  apply (C7_immediate_send_stays_pending NumberDigits (NS.initial 0 true) 0
           "r1"%string critical "choking hazard"%string); reflexivity.
Defined.

(** C10: for an id that is not in the pending set
    [recordNotificationInteraction] returns the service unchanged, so the
    response rates, the average response times and the pending set are
    what they were; this is the case of every held notification once its
    callback has run, since the callback deletes the record. *)
Theorem C10_interaction_on_absent_id :
  (forall st now notificationId a,
     NS.scheduledNotifications st !! notificationId = None ->
     NS.recordNotificationInteraction st now notificationId a = st)
  /\ (forall Number fired st tm st',
        NS.step Number fired st (NS.Fire tm) st' ->
        NS.scheduledNotifications st' !! NS.id (NS.held tm) = None
        /\ forall now a,
             NS.recordNotificationInteraction st' now (NS.id (NS.held tm)) a
             = st').
Proof.
  split.
  - exact recordNotificationInteraction_absent.
  - intros Number fired st tm st' Hstep.
    pose proof (fire_removes Number fired st tm st' Hstep) as H.
    split; [exact H|]. intros now a.
    now apply recordNotificationInteraction_absent.
Qed.

(** The default service, which holds no notification, told that "r9" was
    opened. *)
Lemma C10_interaction_witness :
  NS.recordNotificationInteraction (NS.initial 0 true) 5 "r9" SNT.opened
  = NS.initial 0 true.
Proof.
  apply (proj1 C10_interaction_on_absent_id (NS.initial 0 true) 5
           "r9"%string SNT.opened).
  reflexivity.
Defined.

(** ** Recording app usage *)

Lemma includes_In (hours : list Z) (hour : Z) :
  SNT.includes hours hour = true <-> In hour hours.
Proof.
  unfold SNT.includes. rewrite existsb_exists. split.
  - intros (x & Hx & Heq). apply Z.eqb_eq in Heq. now subst.
  - intros H. exists hour. split; [exact H|apply Z.eqb_refl].
Qed.

Lemma insertByString_In (x y : Z) (sorted : list Z) :
  In y (SNT.insertByString x sorted) <-> y = x \/ In y sorted.
Proof.
  induction sorted as [|z rest IH]; cbn.
  - intuition congruence.
  - destruct (String.leb _ _); cbn; [intuition congruence|].
    rewrite IH. intuition congruence.
Qed.

Lemma defaultSort_In (y : Z) (hours : list Z) :
  In y (SNT.defaultSort hours) <-> In y hours.
Proof.
  induction hours as [|x rest IH]; cbn; [reflexivity|].
  rewrite insertByString_In, IH. intuition congruence.
Qed.

Lemma addHour_In (hours : list Z) (hour y : Z) :
  In y (SNT.addHour hours hour) <-> y = hour \/ In y hours.
Proof.
  unfold SNT.addHour. destruct (SNT.includes hours hour) eqn:E.
  - apply includes_In in E. intuition congruence.
  - rewrite defaultSort_In, in_app_iff. cbn. intuition congruence.
Qed.

(** What [recordAppUsage] does keep: the recorded hour is in both lists
    afterwards, nothing is removed from either, and the time of last
    activity is the recorded instant. *)
Lemma recordAppUsage_grows (st : SNT.T) (timestamp : Z) :
  let hour := getHours timestamp in
  let dayName := SNT.getDayName (getDay timestamp) in
  let before := SNT.userBehavior st in
  let after := SNT.userBehavior (SNT.recordAppUsage st timestamp) in
  (forall h, In h (SNT.appUsageHours after)
             <-> h = hour \/ In h (SNT.appUsageHours before))
  /\ (exists today,
        SNT.weeklyPattern after !! dayName = Some today
        /\ forall h, In h today
             <-> h = hour
                 \/ In h (default [] (SNT.weeklyPattern before !! dayName)))
  /\ SNT.lastActiveTime after = timestamp.
Proof.
  cbv zeta. unfold SNT.recordAppUsage.
  cbn [SNT.userBehavior SNT.appUsageHours SNT.weeklyPattern SNT.lastActiveTime].
  split; [intros h; apply addHour_In|]. split; [|reflexivity].
  eexists. split; [apply lookup_insert_eq|].
  intros h. rewrite addHour_In.
  destruct (SNT.weeklyPattern (SNT.userBehavior st)
              !! SNT.getDayName (getDay timestamp)) as [today|] eqn:E.
  - rewrite E. reflexivity.
  - rewrite lookup_insert_eq. reflexivity.
Qed.

(** C9, the failing case: on the default profile, whose active hours
    7, 8, 12, 15, 19, 21 and Thursday pattern 7, 12, 15, 19 are ascending,
    usage recorded at 10:00 of the day of the epoch (a Thursday) leaves the
    active hours as 10, 12, 15, 19, 21, 7, 8 and the Thursday pattern as
    10, 12, 15, 19, 7: the hour was added and nothing was lost, but
    [sort()] ordered the hours as strings, and neither list is in
    ascending numeric order. *)
Theorem C9_usage_hours_sorted_as_strings :
  let before := SNT.userBehavior (SNT.initial 0) in
  let after := SNT.userBehavior (SNT.recordAppUsage (SNT.initial 0) 36000000) in
  getHours 36000000 = 10
  /\ SNT.getDayName (getDay 36000000) = "thursday"%string
  /\ ascending (SNT.appUsageHours before)
  /\ SNT.weeklyPattern before !! "thursday"%string = Some [7; 12; 15; 19]
  /\ ascending [7; 12; 15; 19]
  /\ SNT.appUsageHours after = [10; 12; 15; 19; 21; 7; 8]
  /\ SNT.weeklyPattern after !! "thursday"%string = Some [10; 12; 15; 19; 7]
  /\ SNT.lastActiveTime after = 36000000
  /\ ~ ascending (SNT.appUsageHours after)
  /\ ~ ascending [10; 12; 15; 19; 7].
Proof.
  cbv zeta.
  assert (SNT.appUsageHours
            (SNT.userBehavior (SNT.recordAppUsage (SNT.initial 0) 36000000))
          = [10; 12; 15; 19; 21; 7; 8]) as Hu by (vm_compute; reflexivity).
  split; [reflexivity|]. split; [reflexivity|].
  split.
  { unfold ascending. cbn.
    repeat (apply SSorted_cons; [|repeat constructor; lia]).
    apply SSorted_nil. }
  split; [vm_compute; reflexivity|].
  split.
  { unfold ascending.
    repeat (apply SSorted_cons; [|repeat constructor; lia]).
    apply SSorted_nil. }
  split; [exact Hu|].
  split; [vm_compute; reflexivity|]. split; [reflexivity|].
  rewrite Hu. unfold ascending.
  split; intros H; apply StronglySorted_inv in H as [_ H];
    rewrite Forall_forall in H.
  - specialize (H 7 ltac:(apply list_elem_of_In; cbn; tauto)). lia.
  - specialize (H 7 ltac:(apply list_elem_of_In; cbn; tauto)). lia.
Qed.

(** ** The optimal hour *)

Section OptimalHourProps.

Variable Number : string -> jsnum.

Lemma hourScore_formula (st : SNT.T) (u : urgency) (ct : contentType)
    (hour : Z) :
  (SNT.hourScore Number st u ct hour == scoreFormula Number st u ct hour)%Q.
Proof.
  unfold SNT.hourScore, scoreFormula, isWeekend. cbv zeta.
  replace (hour >? 20) with (20 <? hour) by lia.
  set (avg := SNT.avgResponseTimeAt (SNT.userBehavior st) hour).
  assert (Math_max 0 (20 - avg) == Qmax 0 (20 - avg))%Q as Hmax.
  { destruct (Math_max_spec 0 (20 - avg)) as [[? ->]|[? ->]];
      destruct (Q.max_spec 0 (20 - avg)) as [[? ->]|[? ->]]; lra. }
  destruct (urgency_eqb u high);
    destruct (contentType_eqb ct development && ((hour <? 8) || (20 <? hour)));
    destruct ((SNT.dayOfWeek (SNT.contextualFactors st) =? 0)
              || (SNT.dayOfWeek (SNT.contextualFactors st) =? 6));
    destruct (hour <? 9); cbn [andb]; rewrite Hmax; ring.
Qed.

Lemma firstOccurrences_In (seen hours : list Z) (h : Z) :
  In h (SNT.firstOccurrences seen hours) <-> In h hours /\ ~ In h seen.
Proof.
  revert seen. induction hours as [|x rest IH]; intros seen; cbn.
  - tauto.
  - destruct (SNT.includes seen x) eqn:E.
    + apply includes_In in E. rewrite IH.
      split; [tauto|]. intros [[->|Hin] Hs]; [contradiction|tauto].
    + assert (~ In x seen) as Hx.
      { intros Hin. apply includes_In in Hin. congruence. }
      cbn. rewrite IH. cbn. split.
      * intros [->|[Hin Hs]]; [tauto|]. split; [tauto|]. tauto.
      * intros [[->|Hin] Hs]; [tauto|].
        destruct (Z.eq_dec x h) as [->|Hne]; [tauto|]. right. tauto.
Qed.

Lemma insertAscending_In (h k : Z) (sorted : list Z) :
  In k (SNT.insertAscending h sorted) <-> k = h \/ In k sorted.
Proof.
  induction sorted as [|x rest IH]; cbn.
  - intuition congruence.
  - destruct (h <=? x); cbn; [intuition congruence|].
    rewrite IH. intuition congruence.
Qed.

Lemma sortAscending_In (k : Z) (hours : list Z) :
  In k (fold_right SNT.insertAscending [] hours) <-> In k hours.
Proof.
  induction hours as [|x rest IH]; cbn; [reflexivity|].
  rewrite insertAscending_In, IH. intuition congruence.
Qed.

(** The keys of the score table are the candidate hours. *)
Lemma entryKeys_In (hours : list Z) (h : Z) :
  In h (SNT.entryKeys hours) <-> In h hours.
Proof.
  unfold SNT.entryKeys. cbv zeta.
  rewrite in_app_iff, sortAscending_In, !filter_In, firstOccurrences_In.
  cbn. destruct (SNT.isArrayIndex h); cbn; intuition congruence.
Qed.

(** The stable sort puts a key of maximal score first. *)
Lemma sortByScore_head (score : Z -> Q) (keys : list Z) :
  match SNT.sortByScore score keys with
  | [] => keys = []
  | top :: _ => In top keys /\ forall k, In k keys -> (score k <= score top)%Q
  end.
Proof.
  induction keys as [|x rest IH]; [reflexivity|].
  cbn [SNT.sortByScore fold_right]. fold (SNT.sortByScore score rest).
  destruct (SNT.sortByScore score rest) as [|y sorted].
  - subst rest. cbn. split; [tauto|]. intros k [->|[]]. lra.
  - destruct IH as [Hy Hmax]. cbn [SNT.insertByScore].
    destruct (Qle_bool (score y) (score x)) eqn:E.
    + apply Qle_bool_iff in E. split; [now left|].
      intros k [->|Hk]; [lra|]. specialize (Hmax k Hk). lra.
    + apply Qle_bool_false in E. split; [now right|].
      intros k [->|Hk]; [lra|]. exact (Hmax k Hk).
Qed.

Lemma filter_first {A : Type} (f : A -> bool) (xs : list A) (h : A)
    (rest : list A) :
  List.filter f xs = h :: rest ->
  exists before after,
    xs = before ++ h :: after /\ f h = true
    /\ Forall (fun x => f x = false) before.
Proof.
  induction xs as [|x xs' IH]; cbn; [discriminate|].
  destruct (f x) eqn:E.
  - intros [= -> <-]. exists [], xs'. split; [reflexivity|].
    split; [exact E|constructor].
  - intros H. destruct (IH H) as (before & after & -> & Hh & Hb).
    exists (x :: before), after. split; [reflexivity|].
    split; [exact Hh|]. constructor; assumption.
Qed.

(** What [calculateOptimalHour] returns.  For high urgency with the
    current hour among the candidates it is the first candidate, in the
    stored order of the list, that lies in [[current, current + 3]], which
    is the current hour itself when the list is ascending.  Otherwise the
    head of the sorted score table is a candidate of maximal score, and it
    is returned unless it is the hour 0, in which case (as for an empty
    table) the current hour is returned. *)
Lemma calculateOptimalHour_cases (st : SNT.T) (now : Z) (u : urgency)
    (ct : contentType) :
  let candidates := SNT.patternOf (SNT.userBehavior st) (getDay now) in
  let current := getHours now in
  let score := SNT.hourScore Number st u ct in
  let r := SNT.calculateOptimalHour Number st now u ct in
  (u = high /\ In current candidates ->
   (exists before after,
      candidates = before ++ r :: after
      /\ current <= r <= current + 3
      /\ Forall (fun h => ~ current <= h <= current + 3) before)
   /\ (ascending candidates -> r = current))
  /\ (~ (u = high /\ In current candidates) ->
      match SNT.sortByScore score (SNT.entryKeys candidates) with
      | [] => candidates = [] /\ r = current
      | top :: _ =>
          In top candidates
          /\ (forall h, In h candidates -> (score h <= score top)%Q)
          /\ (top <> 0 -> r = top)
          /\ (top = 0 -> r = current)
      end).
Proof.
  cbv zeta. unfold SNT.calculateOptimalHour. cbv zeta.
  set (candidates := SNT.patternOf (SNT.userBehavior st) (getDay now)).
  set (current := getHours now).
  set (inRange := fun h => (current <=? h) && (h <=? current + 3)).
  split.
  - intros [-> Hin]. cbn [urgency_eqb andb].
    apply includes_In in Hin as Hinc. rewrite Hinc.
    destruct (List.filter inRange candidates) as [|h rest] eqn:Ef.
    + exfalso. assert (In current (List.filter inRange candidates)) as Hc.
      { apply filter_In. split; [exact Hin|]. unfold inRange. lia. }
      rewrite Ef in Hc. inversion Hc.
    + apply filter_first in Ef as (before & after & Hsplit & Hh & Hb).
      assert (current <= h <= current + 3) as Hr by (unfold inRange in Hh; lia).
      split.
      * exists before, after. split; [exact Hsplit|]. split; [exact Hr|].
        eapply Forall_impl; [exact Hb|]. cbn. intros x Hx. unfold inRange in Hx.
        lia.
      * intros Hasc. unfold ascending in Hasc. rewrite Hsplit in Hin, Hasc.
        apply in_app_iff in Hin as [Hin|[->|Hin]].
        -- rewrite Forall_forall in Hb.
           specialize (Hb current ltac:(now apply list_elem_of_In)).
           unfold inRange in Hb. lia.
        -- reflexivity.
        -- apply StronglySorted_app_1_r in Hasc.
           apply StronglySorted_inv in Hasc as [_ Hle].
           rewrite Forall_forall in Hle.
           specialize (Hle current ltac:(now apply list_elem_of_In)). lia.
  - intros Hnot.
    assert (urgency_eqb u high && SNT.includes candidates current = false)
      as ->.
    { apply andb_false_iff.
      destruct (urgency_eqb u high) eqn:Eu; [|now left]. right.
      destruct (SNT.includes candidates current) eqn:Ei; [|reflexivity].
      exfalso. apply Hnot. split; [now apply urgency_eqb_eq|].
      now apply includes_In. }
    pose proof (sortByScore_head (SNT.hourScore Number st u ct)
                  (SNT.entryKeys candidates)) as Hhead.
    destruct (SNT.sortByScore _ (SNT.entryKeys candidates)) as [|top sorted].
    + split; [|reflexivity].
      destruct candidates as [|c cs]; [reflexivity|]. exfalso.
      assert (In c (SNT.entryKeys (c :: cs))) as Hc
        by (apply entryKeys_In; now left).
      rewrite Hhead in Hc. inversion Hc.
    + destruct Hhead as [Htop Hmax]. cbn [SNT.firstOr].
      split; [now apply entryKeys_In|].
      split; [intros h Hh; apply Hmax; now apply entryKeys_In|].
      split; intros Hz.
      * replace (top =? 0) with false by lia. reflexivity.
      * replace (top =? 0) with true by lia. reflexivity.
Qed.

End OptimalHourProps.

(** C3, the failing cases.  (a) A profile whose Thursday pattern is the
    hour 0 alone, asked on a Thursday at 10:00 with medium urgency: hour 0
    is the only candidate and so the highest-scoring one, yet the function
    returns 10, which is no candidate: [sortedHours[0] || currentHour]
    takes the hour 0 for a missing value.  (b) The default profile after
    usage was recorded on a Thursday at 09:30, asked at 09:40 with high
    urgency: [sort()] left the pattern as 12, 15, 19, 7, 9, the current
    hour 9 is a candidate within [[9, 12]], yet the function returns 12, the
    first candidate of that range in the stored order. *)
Theorem C3_optimal_hour_failing_cases :
  (let st := SNT.updateUserBehavior (SNT.initial 0) midnightOnly in
   SNT.patternOf (SNT.userBehavior st) (getDay 36000000) = [0]
   /\ getHours 36000000 = 10
   /\ SNT.calculateOptimalHour NumberDigits st 36000000 medium recall = 10)
  /\ (let st := SNT.recordAppUsage (SNT.initial 0) 34200000 in
      SNT.patternOf (SNT.userBehavior st) (getDay 34800000)
      = [12; 15; 19; 7; 9]
      /\ getHours 34800000 = 9
      /\ SNT.calculateOptimalHour NumberDigits st 34800000 high recall = 12).
Proof.
  cbv zeta. split; (split; [vm_compute; reflexivity|]);
    (split; [reflexivity|vm_compute; reflexivity]).
Qed.

End Props.

(** * Further properties of the two classes and of the scores *)

Module Extra.

Module SNT := SmartNotificationTiming.
Module NS := NotificationService.
Module RS := RecommendationService.
Import Spec Props.

(** ** Wall-clock arithmetic *)

Ltac clock_arith :=
  unfold atHour, getHours, getMinutes, getDay, setHours, nextDay, startOfDay,
    msPerDay, msPerHour, msPerMinute in *;
  Z.div_mod_to_equations; lia.

Lemma nextOccurrence (now h : Z) :
  0 <= h <= 23 ->
  nextAtHour now h
    (if setHours now h <=? now then nextDay (setHours now h)
     else setHours now h).
Proof.
  intros Hh. unfold nextAtHour.
  destruct (setHours now h <=? now) eqn:E.
  - apply Z.leb_le in E. split; [clock_arith|]. split; [clock_arith|].
    intros t' H1 H2. clock_arith.
  - apply Z.leb_gt in E. split; [clock_arith|]. split; [clock_arith|].
    intros t' H1 H2. clock_arith.
Qed.

Lemma nextAtHour_within_a_day (now h t : Z) :
  0 <= h <= 23 -> nextAtHour now h t -> t <= now + msPerDay.
Proof.
  intros Hh (Hlt & Hat & Hmin).
  pose proof (nextOccurrence now h Hh) as (H1 & H2 & H3).
  specialize (H3 t Hlt Hat).
  specialize (Hmin _ H1 H2).
  destruct (setHours now h <=? now) eqn:E; clock_arith.
Qed.

(** X1: for an hour of the day, [createOptimalTime] is the first instant
    after now that is on that hour: today when that is still ahead,
    tomorrow otherwise, and so at most 24 hours away. *)
Theorem createOptimalTime_next_occurrence (now hour : Z) :
  0 <= hour <= 23 ->
  nextAtHour now hour (SNT.createOptimalTime now hour)
  /\ SNT.createOptimalTime now hour <= now + msPerDay.
Proof.
  intros Hh. pose proof (nextOccurrence now hour Hh) as H.
  split; [exact H|]. exact (nextAtHour_within_a_day _ _ _ Hh H).
Qed.

(** At 22:30 of the day of the epoch the next 07:00 is tomorrow's. *)
Lemma createOptimalTime_witness :
  nextAtHour 81000000 7 (SNT.createOptimalTime 81000000 7)
  /\ SNT.createOptimalTime 81000000 7 <= 81000000 + msPerDay.
Proof.
  apply (createOptimalTime_next_occurrence 81000000 7). lia.
Defined.

(** ** Requests that are held *)

Section HeldProps.

Variable Number : string -> jsnum.

(** A request that passes the gate and whose computed time is in the
    future, or is no date, is filed and given a timer; nothing is sent. *)
Lemma schedule_held (st : NS.T) (now : Z) (recallId : string) (u : urgency)
    (hazard : string) :
  let n := requestRecord Number st now recallId u hazard in
  droppedByPreference st u = false ->
  NS.notAfter (NS.scheduledFor n) now = false ->
  NS.scheduleRecallNotification Number st now recallId u hazard
  = (NS.setTimers
       (NS.setScheduled st (<[NS.id n := n]> (NS.scheduledNotifications st)))
       (NS.timers st ++ [requestTimer Number st now recallId u hazard]),
     true).
Proof.
  cbv zeta. unfold droppedByPreference, requestTimer, requestRecord.
  cbn [NS.scheduledFor NS.id]. intros Hgate Hdue.
  apply orb_false_iff in Hgate as [Hh Hm].
  unfold NS.scheduleRecallNotification. rewrite Hh, Hm. cbv zeta.
  cbn [NS.id]. rewrite Hdue. reflexivity.
Qed.

Lemma calculateOptimalHour_member (st : SNT.T) (now : Z) (u : urgency)
    (ct : contentType) :
  In (SNT.calculateOptimalHour Number st now u ct)
    (SNT.patternOf (SNT.userBehavior st) (getDay now))
  \/ SNT.calculateOptimalHour Number st now u ct = getHours now.
Proof.
  pose proof (calculateOptimalHour_cases Number st now u ct) as [Hurgent Hbest].
  cbv zeta in Hurgent, Hbest.
  destruct (urgency_eqb u high) eqn:Eu;
    [destruct (In_dec Z.eq_dec (getHours now)
                 (SNT.patternOf (SNT.userBehavior st) (getDay now)))
       as [Hin|Hin]|].
  - apply urgency_eqb_eq in Eu.
    destruct (Hurgent (conj Eu Hin)) as [(before & after & Hsplit & _) _].
    left. rewrite Hsplit. apply in_app_iff. right. now left.
  - assert (~ (u = high /\ In (getHours now)
                 (SNT.patternOf (SNT.userBehavior st) (getDay now)))) as Hn
      by tauto.
    specialize (Hbest Hn).
    destruct (SNT.sortByScore _ _) as [|top sorted].
    + right. apply Hbest.
    + destruct Hbest as (Hin' & _ & Hnz & Hz).
      destruct (Z.eq_dec top 0) as [E|E]; [right; auto|].
      left. rewrite (Hnz E). exact Hin'.
  - assert (~ (u = high /\ In (getHours now)
                 (SNT.patternOf (SNT.userBehavior st) (getDay now)))) as Hn.
    { intros [Hu _]. apply urgency_eqb_eq in Hu. congruence. }
    specialize (Hbest Hn).
    destruct (SNT.sortByScore _ _) as [|top sorted].
    + right. apply Hbest.
    + destruct Hbest as (Hin' & _ & Hnz & Hz).
      destruct (Z.eq_dec top 0) as [E|E]; [right; auto|].
      left. rewrite (Hnz E). exact Hin'.
Qed.

Lemma patternOf_valid (ub : SNT.UserBehaviorPattern) (dayIndex : Z) :
  hoursValid ub -> Forall (fun h => 0 <= h) (SNT.patternOf ub dayIndex).
Proof.
  intros [Husage Hweekly]. unfold SNT.patternOf.
  destruct (SNT.weeklyPattern ub !! SNT.getDayName dayIndex) as [hours|] eqn:E.
  - exact (Hweekly _ _ E).
  - exact Husage.
Qed.

Lemma calculateOptimalHour_nonneg (st : SNT.T) (now : Z) (u : urgency)
    (ct : contentType) :
  hoursValid (SNT.userBehavior st) ->
  0 <= SNT.calculateOptimalHour Number st now u ct.
Proof.
  intros Hv. destruct (calculateOptimalHour_member st now u ct) as [Hin| ->].
  - pose proof (patternOf_valid _ (getDay now) Hv) as Hall.
    rewrite Forall_forall in Hall. apply Hall. now apply list_elem_of_In.
  - apply getHours_range.
Qed.

Lemma createOptimalTime_after (now hour : Z) :
  0 <= hour -> now < SNT.createOptimalTime now hour.
Proof.
  intros Hh. unfold SNT.createOptimalTime. cbv zeta.
  destruct (setHours now hour <=? now) eqn:E; clock_arith.
Qed.

Lemma fallbackSlot_after (st : SNT.T) (now t0 t : Z) :
  now <= t0 -> patternHoursValid st t0 ->
  fallbackSlot st now t0 = At t -> now < t.
Proof.
  unfold fallbackSlot, patternHoursValid. intros Hnow Hvalid.
  destruct (SNT.patternOf (SNT.userBehavior st) (getDay t0))
    as [|first rest]; [discriminate|].
  cbv zeta. set (h := default first _).
  assert (0 <= h) as Hh.
  { subst h. destruct (find _ (first :: rest)) as [x|] eqn:Ef; cbn [default].
    - apply find_some in Ef as [Hin _].
      rewrite Forall_forall in Hvalid. apply Hvalid.
      now apply list_elem_of_In.
    - now inversion Hvalid. }
  pose proof (startOfDay_bounds t0) as Hday.
  destruct (_ <? _) eqn:E; intros [= <-]; unfold msPerHour, msPerDay in *; lia.
Qed.

Lemma findNextOptimalTime_after (st : SNT.T) (now t0 t : Z) (u : urgency) :
  now <= t0 -> hoursValid (SNT.userBehavior st) ->
  SNT.findNextOptimalTime Number st now t0 u = At t -> now < t.
Proof.
  intros Hnow Hv Ht.
  destruct (findNextOptimalTime_cases Number st now t0 u)
    as [(i & Hi & Hr & _)|[_ Hr]]; rewrite Hr in Ht.
  - injection Ht as <-. unfold hourlyStep, msPerHour. lia.
  - apply (fallbackSlot_after st now t0 t Hnow); [|exact Ht].
    apply patternOf_valid, Hv.
Qed.

(** The predictor never recommends, for a request that is not critical,
    an instant that is not in the future. *)
Lemma predictOptimalTime_after (st : SNT.T) (now t : Z) (u : urgency)
    (ct : contentType) :
  hoursValid (SNT.userBehavior st) -> u <> critical ->
  SNT.recommendedTime (SNT.predictOptimalTime Number st now u ct) = At t ->
  now < t.
Proof.
  intros Hv Hu. unfold SNT.predictOptimalTime.
  replace (urgency_eqb u critical) with false by (destruct u; cbn; congruence).
  cbv zeta.
  pose proof (createOptimalTime_after now
                (SNT.calculateOptimalHour Number st now u ct)
                (calculateOptimalHour_nonneg st now u ct Hv)) as Hopt.
  destruct (SNT.shouldDelay _); cbn [SNT.recommendedTime].
  - intros Ht.
    eapply (findNextOptimalTime_after st now); [|exact Hv|exact Ht]. lia.
  - intros [= <-]. exact Hopt.
Qed.



End HeldProps.



Lemma initial_hoursValid (now : Z) :
  hoursValid (SNT.userBehavior (SNT.initial now)).
Proof.
  split.
  - cbn. repeat constructor; lia.
  - intros dayName hours H. cbn in H.
    repeat (rewrite lookup_insert in H;
            destruct (decide _); [injection H as <-; repeat constructor; lia|]).
    rewrite lookup_empty in H. discriminate.
Qed.


(** X3: under the schedule 'evening_digest' a high-urgency request is
    timed for the first 19:00 after now, with confidence 0.9, whatever the
    timing profile holds; it is held until then. *)
Theorem evening_digest_overrides (Number : string -> jsnum) (st : NS.T)
    (now : Z) (recallId hazard : string) :
  NS.schedule (NS.forHigh (NS.preferences st)) = NS.evening_digest ->
  NS.highEnabled (NS.forHigh (NS.preferences st)) = true ->
  let t := NS.getEveningDigestTime now in
  let result := NS.scheduleRecallNotification Number st now recallId high hazard in
  nextAtHour now 19 t
  /\ t <= now + msPerDay
  /\ NS.calculateOptimalDeliveryTime Number st now high
     = NS.mkDecision (At t) "User preference: evening digest delivery" 0.9
  /\ snd result = true
  /\ NS.delivered (fst result) = NS.delivered st
  /\ NS.timers (fst result)
     = NS.timers st ++ [requestTimer Number st now recallId high hazard]
  /\ NS.due (requestTimer Number st now recallId high hazard) = t.
Proof.
  intros Hs He t result.
  assert (nextAtHour now 19 t) as Hnext by (apply nextOccurrence; lia).
  assert (NS.calculateOptimalDeliveryTime Number st now high
          = NS.mkDecision (At t) "User preference: evening digest delivery" 0.9)
    as Hd.
  { unfold NS.calculateOptimalDeliveryTime. cbn [urgency_eqb]. rewrite Hs.
    reflexivity. }
  split; [exact Hnext|].
  split; [apply (nextAtHour_within_a_day now 19 t); [lia|exact Hnext]|].
  split; [exact Hd|].
  assert (droppedByPreference st high = false) as Hgate.
  { unfold droppedByPreference. cbn [urgency_eqb andb orb]. rewrite He.
    reflexivity. }
  assert (NS.scheduledFor (requestRecord Number st now recallId high hazard)
          = At t) as Hn.
  { unfold requestRecord. cbn [NS.scheduledFor]. rewrite Hd. reflexivity. }
  assert (NS.notAfter
            (NS.scheduledFor (requestRecord Number st now recallId high hazard))
            now = false) as Hdue.
  { rewrite Hn. cbn. destruct Hnext as [Hlt _]. lia. }
  subst result.
  rewrite (schedule_held Number st now recallId high hazard Hgate Hdue).
  cbn [fst snd NS.delivered NS.timers NS.setTimers NS.setScheduled].
  split; [reflexivity|]. split; [reflexivity|]. split; [reflexivity|].
  unfold requestTimer. cbn [NS.due]. rewrite Hn. reflexivity.
Qed.

(** The default service switched to the evening digest, asked at 09:00 of
    the day of the epoch. *)
Lemma evening_digest_witness :
  let st :=
    NS.updatePreferences (NS.initial 0 true)
      (highUpdate
         (NS.mkHigh true NS.evening_digest
            (NS.mkQuietHours true "22:00" "07:00"))) in
  let result :=
    NS.scheduleRecallNotification NumberDigits st 32400000 "r1" high
      "loose part" in
  nextAtHour 32400000 19 (NS.getEveningDigestTime 32400000)
  /\ NS.getEveningDigestTime 32400000 <= 32400000 + msPerDay
  /\ NS.calculateOptimalDeliveryTime NumberDigits st 32400000 high
     = NS.mkDecision (At (NS.getEveningDigestTime 32400000))
         "User preference: evening digest delivery" 0.9
  /\ snd result = true
  /\ NS.delivered (fst result) = NS.delivered st
  /\ NS.timers (fst result)
     = NS.timers st
       ++ [requestTimer NumberDigits st 32400000 "r1" high "loose part"]
  /\ NS.due (requestTimer NumberDigits st 32400000 "r1" high "loose part")
     = NS.getEveningDigestTime 32400000.
Proof.
  apply (evening_digest_overrides NumberDigits
           (NS.updatePreferences (NS.initial 0 true)
              (highUpdate
                 (NS.mkHigh true NS.evening_digest
                    (NS.mkQuietHours true "22:00" "07:00"))))
           32400000 "r1"%string "loose part"%string); reflexivity.
Defined.

Lemma step_fire_inv (Number : string -> jsnum) (now : Z) (st : NS.T)
    (tm : NS.Timer) (st' : NS.T) :
  NS.step Number now st (NS.Fire tm) st' ->
  exists before after,
    NS.timers st = before ++ tm :: after /\ NS.due tm <= now
    /\ st' = NS.timerCallback Number (NS.setTimers st (before ++ after)) now tm.
Proof.
  intros H. inversion H; subst. eauto.
Qed.

(** X4: cancelling a held notification removes its record and answers
    true, but leaves its timer registered: when the timer fires at or after
    the scheduled instant, the notification is sent all the same. *)
Theorem cancel_does_not_stop_the_timer (Number : string -> jsnum) (st : NS.T)
    (now : Z) (recallId : string) (u : urgency) (hazard : string)
    (t fired : Z) :
  let n := requestRecord Number st now recallId u hazard in
  let tm := requestTimer Number st now recallId u hazard in
  let st1 := fst (NS.scheduleRecallNotification Number st now recallId u hazard) in
  let st2 := fst (NS.cancelNotification st1 (NS.id n)) in
  droppedByPreference st u = false ->
  NS.scheduledFor n = At t -> now < t -> t <= fired ->
  NS.permissionGranted st = true ->
  snd (NS.cancelNotification st1 (NS.id n)) = true
  /\ NS.scheduledNotifications st2 !! NS.id n = None
  /\ NS.timers st2 = NS.timers st ++ [tm]
  /\ (exists st3, NS.step Number fired st2 (NS.Fire tm) st3)
  /\ (forall st3, NS.step Number fired st2 (NS.Fire tm) st3 ->
        NS.delivered st3 = NS.delivered st ++ [n]).
Proof.
  intros n tm st1 st2 Hgate Hn Hlt Hfired Hperm.
  assert (NS.notAfter (NS.scheduledFor n) now = false) as Hdue
    by (rewrite Hn; cbn; lia).
  assert (st1
          = NS.setTimers
              (NS.setScheduled st
                 (<[NS.id n := n]> (NS.scheduledNotifications st)))
              (NS.timers st ++ [tm])) as Hst1.
  { subst st1. rewrite (schedule_held Number st now recallId u hazard Hgate Hdue).
    reflexivity. }
  assert (NS.timers st2 = NS.timers st ++ [tm]) as Htimers
    by (subst st2; rewrite Hst1; reflexivity).
  assert (NS.due tm = t) as Hdue_tm
    by (subst tm; unfold requestTimer; cbn [NS.due]; fold n; rewrite Hn;
        reflexivity).
  assert (NS.heldTime tm = At t) as Hheld
    by (subst tm; unfold requestTimer; cbn [NS.heldTime]; fold n; exact Hn).
  split.
  { rewrite Hst1. unfold NS.cancelNotification.
    cbn [snd NS.scheduledNotifications NS.setTimers NS.setScheduled].
    rewrite lookup_insert_eq. apply bool_decide_eq_true. eexists; reflexivity. }
  split.
  { subst st2. unfold NS.cancelNotification.
    cbn [fst NS.scheduledNotifications NS.setScheduled]. apply lookup_delete_eq. }
  split; [exact Htimers|].
  split.
  { eexists. eapply (NS.step_fire Number fired st2 (NS.timers st) tm []).
    - exact Htimers.
    - lia. }
  intros st3 Hstep.
  apply step_fire_inv in Hstep as (before & after & Hsplit & Hd & ->).
  unfold NS.timerCallback. rewrite Hheld.
  assert (SNT.shouldDeliverNow Number
            (NS.smartTiming (NS.setTimers st2 (before ++ after))) fired (At t)
            (NS.heldUrgency tm) = true) as ->.
  { unfold SNT.shouldDeliverNow. destruct (urgency_eqb _ critical);
      [reflexivity|]. cbv zeta. replace (t - fired <=? 0) with true by lia.
    reflexivity. }
  unfold NS.sendNotification.
  assert (NS.permissionGranted (NS.setTimers st2 (before ++ after)) = true)
    as -> by (subst st2; rewrite Hst1; exact Hperm).
  cbn [fst NS.delivered NS.setScheduled NS.setDelivered NS.setTimers].
  subst st2. rewrite Hst1. reflexivity.
Qed.

(** The default service: a medium notice asked at 10:00 of the day of the
    epoch is timed for 08:00 of the next day, cancelled, and fired then. *)
Lemma cancel_does_not_stop_the_timer_witness :
  let st := NS.initial 0 true in
  let n := requestRecord NumberDigits st 36000000 "r1" medium "loose part" in
  let tm := requestTimer NumberDigits st 36000000 "r1" medium "loose part" in
  let st1 :=
    fst (NS.scheduleRecallNotification NumberDigits st 36000000 "r1" medium
           "loose part") in
  let st2 := fst (NS.cancelNotification st1 (NS.id n)) in
  snd (NS.cancelNotification st1 (NS.id n)) = true
  /\ NS.scheduledNotifications st2 !! NS.id n = None
  /\ NS.timers st2 = NS.timers st ++ [tm]
  /\ (exists st3, NS.step NumberDigits 115200000 st2 (NS.Fire tm) st3)
  /\ (forall st3, NS.step NumberDigits 115200000 st2 (NS.Fire tm) st3 ->
        NS.delivered st3 = NS.delivered st ++ [n]).
Proof.
  apply (cancel_does_not_stop_the_timer NumberDigits (NS.initial 0 true)
           36000000 "r1"%string medium "loose part"%string 115200000
           115200000).
  - reflexivity.
  - vm_compute. reflexivity.
  - lia.
  - lia.
  - reflexivity.
Defined.

(** ** Confidence *)

Lemma orDefault_nonneg (x : option Q) (d : Q) :
  (0 <= d)%Q -> (forall q, x = Some q -> (0 <= q)%Q) -> (0 <= orDefault x d)%Q.
Proof.
  intros Hd Hx. unfold orDefault. destruct x as [q|]; [|exact Hd].
  destruct (Qeq_bool q 0); [exact Hd|]. now apply Hx.
Qed.

Lemma responseRateAt_nonneg (ub : SNT.UserBehaviorPattern) (hour : Z) :
  ratesNonneg ub -> (0 <= SNT.responseRateAt ub hour)%Q.
Proof.
  intros H. unfold SNT.responseRateAt. apply orDefault_nonneg; [lra|].
  intros q Hq. exact (H _ _ Hq).
Qed.

Lemma conflict_at_most_one (Number : string -> jsnum)
    (bs : SNT.BabyScheduleData) (hour : Z) :
  (SNT.getBabyScheduleConflict Number bs hour <= 1)%Q.
Proof.
  destruct (conflict_before_cap Number bs hour) as (raw & -> & _).
  destruct (Math_min_spec raw 1) as [[? ->]|[? ->]]; lra.
Qed.

Lemma confidenceFrom_bounds (active : bool) (rate conflict : Q) (u : urgency) :
  (0 <= rate)%Q -> (conflict <= 1)%Q ->
  (0.7 <= SNT.confidenceFrom active rate conflict u <= 1)%Q
  /\ (u = high -> (0.8 <= SNT.confidenceFrom active rate conflict u)%Q).
Proof.
  intros Hr Hc. unfold SNT.confidenceFrom. cbv zeta.
  destruct active, (urgency_eqb u high) eqn:Eu;
    match goal with
    | |- context [Math_min ?a 1] =>
        destruct (Math_min_spec a 1) as [[? ->]|[? ->]]
    end;
    (split; [lra|]); intros ->; cbn in Eu; try discriminate; lra.
Qed.

Lemma confidenceFrom_monotone (active : bool) (rate rate' conflict : Q)
    (u : urgency) :
  (rate <= rate')%Q ->
  (SNT.confidenceFrom active rate conflict u
   <= SNT.confidenceFrom active rate' conflict u)%Q.
Proof.
  intros Hr. unfold SNT.confidenceFrom. cbv zeta.
  destruct active, (urgency_eqb u high);
    match goal with
    | |- (Math_min ?a 1 <= Math_min ?b 1)%Q =>
        destruct (Math_min_spec a 1) as [[? ->]|[? ->]];
        destruct (Math_min_spec b 1) as [[? ->]|[? ->]]
    end; lra.
Qed.

(** X5: with no negative stored response rate, the confidence of an hour
    lies between 0.7 and 1, and for high urgency it is at least 0.8; so the
    test of [shouldDeliverNow] that the current hour scores more than 0.2
    above the scheduled one never succeeds, and a notification that is not
    critical is delivered exactly when its scheduled time is at most five
    minutes ahead. *)
Theorem shouldDeliverNow_five_minute_rule (Number : string -> jsnum)
    (st : SNT.T) (now : Z) (scheduledTime : Date) (u : urgency) :
  ratesNonneg (SNT.userBehavior st) ->
  (forall hour, (0.7 <= SNT.calculateConfidence Number st hour u <= 1)%Q)
  /\ SNT.shouldDeliverNow Number st now scheduledTime u
     = (urgency_eqb u critical
        || match scheduledTime with
           | At t => t - now <=? 5 * msPerMinute
           | InvalidDate => false
           end).
Proof.
  intros Hr.
  assert (forall hour v,
            (0.7 <= SNT.calculateConfidence Number st hour v <= 1)%Q
            /\ (v = high ->
                (0.8 <= SNT.calculateConfidence Number st hour v)%Q)) as Hc.
  { intros hour v. apply confidenceFrom_bounds;
      [now apply responseRateAt_nonneg|apply conflict_at_most_one]. }
  split; [intros hour; apply Hc|].
  unfold SNT.shouldDeliverNow.
  destruct (urgency_eqb u critical); [reflexivity|]. cbn [orb].
  destruct scheduledTime as [|t].
  - destruct (urgency_eqb u high); [|reflexivity].
    apply Qltb_false.
    assert (0.8 <= SNT.calculateConfidenceNaN st high)%Q as Hnan.
    { apply confidenceFrom_bounds; [|lra|reflexivity].
      apply orDefault_nonneg; [lra|]. intros q Hq. exact (Hr _ _ Hq). }
    destruct (Hc (getHours now) high) as [[_ Hle] _]. lra.
  - cbv zeta. unfold msPerMinute.
    destruct (t - now <=? 0) eqn:E0.
    + symmetry. apply Z.leb_le. lia.
    + destruct (t - now <=? 5 * 60 * 1000) eqn:E5.
      * symmetry. apply Z.leb_le. lia.
      * replace (t - now <=? 5 * (60 * 1000)) with false by lia.
        destruct (urgency_eqb u high); [|reflexivity].
        apply Qltb_false.
        destruct (Hc (getHours now) high) as [[_ Hle] _].
        destruct (Hc (getHours t) high) as [_ Hge].
        specialize (Hge eq_refl). lra.
Qed.

Lemma initial_ratesInUnit (now : Z) :
  ratesInUnit (SNT.userBehavior (SNT.initial now)).
Proof.
  intros key rate H. cbn in H.
  repeat (rewrite lookup_insert in H;
          destruct (decide _); [injection H as <-; lra|]).
  rewrite lookup_empty in H. discriminate.
Qed.

Lemma ratesInUnit_nonneg (ub : SNT.UserBehaviorPattern) :
  ratesInUnit ub -> ratesNonneg ub.
Proof.
  intros H key rate Hk. apply (H key rate Hk).
Qed.

(** The default profile, a high-urgency notice scheduled two hours
    ahead. *)
Lemma shouldDeliverNow_witness :
  (forall hour,
     (0.7 <= SNT.calculateConfidence NumberDigits (SNT.initial 0) hour high
      <= 1)%Q)
  /\ SNT.shouldDeliverNow NumberDigits (SNT.initial 0) 36000000 (At 43200000)
       high
     = (urgency_eqb high critical || (43200000 - 36000000 <=? 5 * msPerMinute)).
Proof.
  apply (shouldDeliverNow_five_minute_rule NumberDigits (SNT.initial 0)
           36000000 (At 43200000) high).
  exact (ratesInUnit_nonneg _ (initial_ratesInUnit 0)).
Defined.

(** X6: whatever the urgency, the confidence that [predictOptimalTime]
    reports lies between 0.7 and 1 when no stored response rate is
    negative. *)
Theorem predictOptimalTime_confidence_range (Number : string -> jsnum)
    (st : SNT.T) (now : Z) (u : urgency) (ct : contentType) :
  ratesNonneg (SNT.userBehavior st) ->
  (0.7 <= SNT.confidence (SNT.predictOptimalTime Number st now u ct) <= 1)%Q.
Proof.
  intros Hr. unfold SNT.predictOptimalTime.
  destruct (urgency_eqb u critical); [cbn; lra|]. cbv zeta.
  set (t := SNT.createOptimalTime now _).
  pose proof (shouldDelayNotification_rules Number st now t u) as Hrule.
  cbv zeta in Hrule.
  destruct (SNT.shouldDelay (SNT.shouldDelayNotification Number st now t u))
    eqn:Ed; cbn [SNT.confidence].
  - inversion Hrule as [h1 Eb Ec|h1 h2 Eb Ec|h1 h2 h3 Eb Ec
                        |h1 h2 h3 h4 h5 Eb Ec|h1 h2 h3 h4 Eb Ec];
      try congruence.
    + lra.
    + pose proof (conflict_at_most_one Number (SNT.babySchedule st)
                    (getHours t)). unfold conflictAtProposed in *. lra.
    + pose proof (responseRateAt_nonneg (SNT.userBehavior st) (getHours t) Hr).
      unfold rateReadAtProposed in *. lra.
  - apply confidenceFrom_bounds;
      [now apply responseRateAt_nonneg|apply conflict_at_most_one].
Qed.

(** The default profile asked at 10:00 of the day of the epoch. *)
Lemma predictOptimalTime_confidence_witness :
  (0.7 <= SNT.confidence
            (SNT.predictOptimalTime NumberDigits (SNT.initial 0) 36000000
               medium recall) <= 1)%Q.
Proof.
  apply (predictOptimalTime_confidence_range NumberDigits (SNT.initial 0)
           36000000 medium recall).
  exact (ratesInUnit_nonneg _ (initial_ratesInUnit 0)).
Defined.

Lemma responseRateAt_withRate (st : SNT.T) (hour : Z) (rate : Q) :
  SNT.responseRateAt (SNT.userBehavior (withRate st hour rate)) hour
  = if Qeq_bool rate 0 then 0.5%Q else rate.
Proof.
  unfold SNT.responseRateAt, withRate.
  cbn [SNT.userBehavior SNT.responseRates]. rewrite lookup_insert_eq.
  reflexivity.
Qed.

Lemma calculateConfidence_withRate (Number : string -> jsnum) (st : SNT.T)
    (hour : Z) (rate : Q) (u : urgency) :
  SNT.calculateConfidence Number (withRate st hour rate) hour u
  = SNT.confidenceFrom
      (SNT.includes (SNT.appUsageHours (SNT.userBehavior st)) hour)
      (if Qeq_bool rate 0 then 0.5%Q else rate)
      (SNT.getBabyScheduleConflict Number (SNT.babySchedule st) hour) u.
Proof.
  unfold SNT.calculateConfidence. rewrite responseRateAt_withRate.
  reflexivity.
Qed.

(** X7: raising the stored response rate of an hour from one positive value
    to a larger one never lowers the confidence of that hour.  A stored
    rate of 0 is read as the default 0.5: it gives the confidence of a
    stored 0.5, which is not below that of any stored rate between 0 and
    0.5. *)
Theorem confidence_monotone_above_zero (Number : string -> jsnum)
    (st : SNT.T) (hour : Z) (u : urgency) (rate rate' : Q) :
  (0 < rate)%Q -> (rate <= rate')%Q ->
  (SNT.calculateConfidence Number (withRate st hour rate) hour u
   <= SNT.calculateConfidence Number (withRate st hour rate') hour u)%Q
  /\ SNT.calculateConfidence Number (withRate st hour 0) hour u
     = SNT.calculateConfidence Number (withRate st hour 0.5) hour u
  /\ ((rate <= 0.5)%Q ->
      (SNT.calculateConfidence Number (withRate st hour rate) hour u
       <= SNT.calculateConfidence Number (withRate st hour 0) hour u)%Q).
Proof.
  intros Hpos Hle. rewrite !calculateConfidence_withRate.
  assert (Qeq_bool rate 0 = false) as ->.
  { destruct (Qeq_bool rate 0) eqn:E; [|reflexivity].
    apply Qeq_bool_iff in E. lra. }
  assert (Qeq_bool rate' 0 = false) as ->.
  { destruct (Qeq_bool rate' 0) eqn:E; [|reflexivity].
    apply Qeq_bool_iff in E. lra. }
  split; [now apply confidenceFrom_monotone|].
  split; [reflexivity|].
  intros Hhalf. change (Qeq_bool 0 0) with true. cbv iota.
  now apply confidenceFrom_monotone.
Qed.

(** The default profile at 12 h, the stored rate going from 0.1 to 0.3. *)
Lemma confidence_monotone_witness :
  (SNT.calculateConfidence NumberDigits (withRate (SNT.initial 0) 12 0.1) 12
     medium
   <= SNT.calculateConfidence NumberDigits (withRate (SNT.initial 0) 12 0.3)
        12 medium)%Q
  /\ SNT.calculateConfidence NumberDigits (withRate (SNT.initial 0) 12 0) 12
       medium
     = SNT.calculateConfidence NumberDigits (withRate (SNT.initial 0) 12 0.5)
         12 medium
  /\ ((0.1 <= 0.5)%Q ->
      (SNT.calculateConfidence NumberDigits (withRate (SNT.initial 0) 12 0.1)
         12 medium
       <= SNT.calculateConfidence NumberDigits (withRate (SNT.initial 0) 12 0)
            12 medium)%Q).
Proof.
  apply (confidence_monotone_above_zero NumberDigits (SNT.initial 0) 12 medium
           0.1 0.3); lra.
Defined.

(** ** Learning *)

(** X8: what one recorded response does to the profile.  The rate stored
    for the hour of delivery becomes 0.8 times the rate read before (the
    stored one, or 0.5) plus 0.2 times the value of the action, so the rate
    read afterwards has moved a fifth of the way to that value; every other
    rate, the active hours, the weekly pattern and the quiet periods are
    untouched.  If all stored rates lay in [0, 1] they still do, and the
    new rate is at least 0.04, so it is never again read as missing. *)
Theorem recordNotificationResponse_learns (st : SNT.T) (deliveredAt : Z)
    (respondedAt : Z) (a : SNT.action) :
  ratesInUnit (SNT.userBehavior st) ->
  let hour := getHours deliveredAt in
  let before := SNT.userBehavior st in
  let after :=
    SNT.userBehavior
      (SNT.recordNotificationResponse st (At deliveredAt) respondedAt a) in
  (SNT.responseRateAt after hour - SNT.responseValue a
   == 0.8 * (SNT.responseRateAt before hour - SNT.responseValue a))%Q
  /\ (0.04 <= SNT.responseRateAt after hour <= 1)%Q
  /\ SNT.responseRates after !! toString hour
     = Some (SNT.responseRateAt after hour)
  /\ ratesInUnit after
  /\ (forall key, key <> toString hour ->
        SNT.responseRates after !! key = SNT.responseRates before !! key
        /\ SNT.averageResponseTime after !! key
           = SNT.averageResponseTime before !! key)
  /\ SNT.appUsageHours after = SNT.appUsageHours before
  /\ SNT.weeklyPattern after = SNT.weeklyPattern before
  /\ SNT.quietPeriods after = SNT.quietPeriods before.
Proof.
  intros Hunit hour before after.
  set (current := SNT.responseRateAt before hour).
  set (new := (current * 0.8 + SNT.responseValue a * 0.2)%Q).
  assert (0 <= current <= 1)%Q as Hcur.
  { subst current. unfold SNT.responseRateAt, orDefault.
    destruct (SNT.responseRates before !! toString hour) as [q|] eqn:E;
      [|lra].
    destruct (Qeq_bool q 0); [lra|]. exact (Hunit _ _ E). }
  assert (0.2 <= SNT.responseValue a <= 1)%Q as Hval
    by (destruct a; cbn; lra).
  assert (SNT.responseRates after !! toString hour = Some new) as Hstored.
  { subst after. unfold SNT.recordNotificationResponse.
    cbn [SNT.userBehavior SNT.responseRates]. apply lookup_insert_eq. }
  assert (0.04 <= new <= 1)%Q as Hnew by (subst new; lra).
  assert (SNT.responseRateAt after hour = new) as Hread.
  { unfold SNT.responseRateAt. rewrite Hstored. unfold orDefault.
    destruct (Qeq_bool new 0) eqn:E; [|reflexivity].
    apply Qeq_bool_iff in E. lra. }
  rewrite Hread.
  split; [subst new; ring|]. split; [exact Hnew|]. split; [exact Hstored|].
  split.
  { intros key rate Hk.
    destruct (decide (key = toString hour)) as [->|Hne].
    - rewrite Hstored in Hk. injection Hk as <-. lra.
    - subst after. unfold SNT.recordNotificationResponse in Hk.
      cbn [SNT.userBehavior SNT.responseRates] in Hk.
      rewrite lookup_insert_ne in Hk
        by (intros Heq; apply Hne; symmetry; exact Heq).
      exact (Hunit _ _ Hk). }
  split.
  { intros key Hne. subst after. unfold SNT.recordNotificationResponse.
    cbn [SNT.userBehavior SNT.responseRates SNT.averageResponseTime].
    rewrite !lookup_insert_ne
      by (intros Heq; apply Hne; symmetry; exact Heq).
    split; reflexivity. }
  repeat split.
Qed.

(** The default profile: a notice delivered at 12:00 of the day of the
    epoch is opened five minutes later. *)
Lemma recordNotificationResponse_witness :
  let before := SNT.userBehavior (SNT.initial 0) in
  let after :=
    SNT.userBehavior
      (SNT.recordNotificationResponse (SNT.initial 0) (At 43200000) 43500000
         SNT.opened) in
  (SNT.responseRateAt after (getHours 43200000) - SNT.responseValue SNT.opened
   == 0.8 * (SNT.responseRateAt before (getHours 43200000)
             - SNT.responseValue SNT.opened))%Q
  /\ (0.04 <= SNT.responseRateAt after (getHours 43200000) <= 1)%Q
  /\ SNT.responseRates after !! toString (getHours 43200000)
     = Some (SNT.responseRateAt after (getHours 43200000))
  /\ ratesInUnit after
  /\ (forall key, key <> toString (getHours 43200000) ->
        SNT.responseRates after !! key = SNT.responseRates before !! key
        /\ SNT.averageResponseTime after !! key
           = SNT.averageResponseTime before !! key)
  /\ SNT.appUsageHours after = SNT.appUsageHours before
  /\ SNT.weeklyPattern after = SNT.weeklyPattern before
  /\ SNT.quietPeriods after = SNT.quietPeriods before.
Proof.
  apply (recordNotificationResponse_learns (SNT.initial 0) 43200000 43500000
           SNT.opened).
  exact (initial_ratesInUnit 0).
Defined.

Lemma insertByString_Permutation (x : Z) (sorted : list Z) :
  SNT.insertByString x sorted ≡ₚ x :: sorted.
Proof.
  induction sorted as [|y rest IH]; cbn; [reflexivity|].
  destruct (String.leb _ _); [reflexivity|].
  rewrite IH. apply Permutation_swap.
Qed.

Lemma defaultSort_Permutation (hours : list Z) :
  SNT.defaultSort hours ≡ₚ hours.
Proof.
  induction hours as [|x rest IH]; cbn; [reflexivity|].
  rewrite insertByString_Permutation. now constructor.
Qed.

Lemma addHour_Permutation (hours : list Z) (hour : Z) :
  SNT.addHour hours hour
  ≡ₚ (if SNT.includes hours hour then hours else hour :: hours).
Proof.
  unfold SNT.addHour. destruct (SNT.includes hours hour); [reflexivity|].
  rewrite defaultSort_Permutation. symmetry. apply Permutation_cons_append.
Qed.

Lemma addHour_NoDup (hours : list Z) (hour : Z) :
  NoDup hours -> NoDup (SNT.addHour hours hour).
Proof.
  intros Hnd. rewrite addHour_Permutation.
  destruct (SNT.includes hours hour) eqn:E; [exact Hnd|].
  constructor; [|exact Hnd]. intros Hin. apply list_elem_of_In in Hin.
  apply includes_In in Hin. congruence.
Qed.

Lemma addHour_again (hours : list Z) (hour : Z) :
  SNT.addHour (SNT.addHour hours hour) hour = SNT.addHour hours hour.
Proof.
  unfold SNT.addHour at 1.
  assert (SNT.includes (SNT.addHour hours hour) hour = true) as ->;
    [|reflexivity].
  apply includes_In, addHour_In. now left.
Qed.

(** X9: [recordAppUsage] treats both hour lists as sets.  Each list
    afterwards is a rearrangement of the list before, with the hour added
    when it was missing; a list without repetitions stays without
    repetitions; and recording again at an instant of the same weekday and
    hour changes nothing but the time of last activity. *)
Theorem recordAppUsage_keeps_sets (st : SNT.T) (timestamp : Z) :
  let hour := getHours timestamp in
  let dayName := SNT.getDayName (getDay timestamp) in
  let before := SNT.userBehavior st in
  let today := default [] (SNT.weeklyPattern before !! dayName) in
  let after := SNT.userBehavior (SNT.recordAppUsage st timestamp) in
  SNT.appUsageHours after
  ≡ₚ (if SNT.includes (SNT.appUsageHours before) hour
      then SNT.appUsageHours before else hour :: SNT.appUsageHours before)
  /\ (exists today',
        SNT.weeklyPattern after !! dayName = Some today'
        /\ today' ≡ₚ (if SNT.includes today hour then today else hour :: today)
        /\ (NoDup today -> NoDup today'))
  /\ (NoDup (SNT.appUsageHours before) -> NoDup (SNT.appUsageHours after))
  /\ (forall otherDay, otherDay <> dayName ->
        SNT.weeklyPattern after !! otherDay
        = SNT.weeklyPattern before !! otherDay)
  /\ (forall again,
        getHours again = hour -> getDay again = getDay timestamp ->
        let twice :=
          SNT.userBehavior
            (SNT.recordAppUsage (SNT.recordAppUsage st timestamp) again) in
        SNT.appUsageHours twice = SNT.appUsageHours after
        /\ SNT.weeklyPattern twice = SNT.weeklyPattern after
        /\ SNT.lastActiveTime twice = again).
Proof.
  cbv zeta. unfold SNT.recordAppUsage.
  cbn [SNT.userBehavior SNT.appUsageHours SNT.weeklyPattern SNT.lastActiveTime].
  set (hour := getHours timestamp).
  set (dayName := SNT.getDayName (getDay timestamp)).
  set (weekly := SNT.weeklyPattern (SNT.userBehavior st)).
  assert (default [] ((match weekly !! dayName with
                       | Some _ => weekly
                       | None => <[dayName := []]> weekly
                       end) !! dayName)
          = default [] (weekly !! dayName)) as Htoday.
  { destruct (weekly !! dayName) as [l|] eqn:E; [rewrite E; reflexivity|].
    rewrite lookup_insert_eq. reflexivity. }
  rewrite Htoday.
  split; [apply addHour_Permutation|]. split.
  { eexists. split; [apply lookup_insert_eq|].
    split; [apply addHour_Permutation|apply addHour_NoDup]. }
  split; [apply addHour_NoDup|]. split.
  { intros otherDay Hne. rewrite lookup_insert_ne by congruence.
    destruct (weekly !! dayName); [reflexivity|].
    rewrite lookup_insert_ne by congruence. reflexivity. }
  intros again Hh Hd. rewrite Hh, Hd. fold dayName.
  split; [apply addHour_again|]. split; [|reflexivity].
  rewrite !lookup_insert_eq. cbn [default]. unfold id.
  rewrite addHour_again. apply insert_insert_eq.
Qed.

(** The default profile, after a recording on the first Thursday at
    10:00. *)
Lemma recordAppUsage_keeps_sets_witness :
  NoDup (SNT.appUsageHours
           (SNT.userBehavior (SNT.recordAppUsage (SNT.initial 0) 36000000))).
Proof.
  apply (proj1 (proj2 (proj2
           (recordAppUsage_keeps_sets (SNT.initial 0) 36000000)))).
  refine (bool_decide_unpack _ _). vm_compute. exact I.
Defined.

(** ** Alternative times, batches and the optimal hour *)

(** A rate read by the code is above a bound below 0.5 exactly when the
    stored rate is above it, is 0, or is missing. *)
Lemma responseRateAt_above (ub : SNT.UserBehaviorPattern) (hour : Z)
    (bound : Q) :
  (bound < 0.5)%Q ->
  (bound < SNT.responseRateAt ub hour)%Q <-> storedRateAbove ub hour bound.
Proof.
  intros Hb. unfold SNT.responseRateAt, storedRateAbove, orDefault.
  destruct (SNT.responseRates ub !! toString hour) as [rate|]; [|tauto].
  destruct (Qeq_bool rate 0) eqn:E.
  - apply Qeq_bool_iff in E. tauto.
  - apply Qeq_bool_neq in E. tauto.
Qed.

Lemma alternativesLoop_spec (st : SNT.T) (baseTime : Z) (offsets : list Z)
    (alternatives : list Z) :
  (length alternatives < 3)%nat ->
  let result := SNT.alternativesLoop st baseTime offsets alternatives in
  (length result <= 3)%nat
  /\ forall alt, In alt result ->
       In alt alternatives \/ goodAlternative st baseTime offsets alt.
Proof.
  revert alternatives.
  induction offsets as [|offset rest IH]; intros alternatives Hlen; cbn zeta.
  - cbn. split; [lia|]. intros alt H. now left.
  - cbn [SNT.alternativesLoop]. cbv zeta.
    set (altTime := baseTime + offset * 60 * 60 * 1000).
    assert (altTime = baseTime + offset * msPerHour) as Halt
      by (subst altTime; unfold msPerHour; lia).
    set (kept :=
           if SNT.includes (SNT.appUsageHours (SNT.userBehavior st))
                (getHours altTime)
           then
             if Qltb 0.4
                  (SNT.responseRateAt (SNT.userBehavior st) (getHours altTime))
             then alternatives ++ [altTime] else alternatives
           else alternatives).
    assert ((length kept <= S (length alternatives))%nat
            /\ forall alt, In alt kept ->
                 In alt alternatives
                 \/ goodAlternative st baseTime (offset :: rest) alt)
      as [Hklen Hkept].
    { subst kept.
      destruct (SNT.includes _ _) eqn:Ei; [|split; [lia|tauto]].
      destruct (Qltb 0.4 _) eqn:Er; [|split; [lia|tauto]].
      split; [rewrite length_app; cbn; lia|].
      intros alt Hin. apply in_app_iff in Hin as [Hin|[<-|[]]]; [now left|].
      right. split; [exists offset; split; [now left|exact Halt]|].
      split; [now apply includes_In|].
      apply responseRateAt_above; [lra|now apply Qltb_true]. }
    destruct (3 <=? Z.of_nat (length kept)) eqn:E3.
    + split; [lia|exact Hkept].
    + destruct (IH kept ltac:(lia)) as [Hrlen Hr]. split; [exact Hrlen|].
      intros alt Hin. destruct (Hr alt Hin) as [Hk|Hg].
      * exact (Hkept alt Hk).
      * right. destruct Hg as ((o & Ho & Heq) & Hrest).
        split; [exists o; split; [now right|exact Heq]|exact Hrest].
Qed.

(** X10: [generateAlternatives] offers at most three times; each lies one
    or two whole hours before or after the primary time, never on it, at an
    active hour whose stored response rate is above 0.4, or is 0 or missing
    (the code reads both as 0.5); around the Invalid Date it offers
    none. *)
Theorem generateAlternatives_spec (st : SNT.T) (primaryTime : Z) :
  (length (SNT.generateAlternatives st (At primaryTime)) <= 3)%nat
  /\ (forall alt, In alt (SNT.generateAlternatives st (At primaryTime)) ->
        goodAlternative st primaryTime [-2; -1; 1; 2] alt
        /\ alt <> primaryTime
        /\ primaryTime - 2 * msPerHour <= alt <= primaryTime + 2 * msPerHour)
  /\ SNT.generateAlternatives st InvalidDate = [].
Proof.
  pose proof (alternativesLoop_spec st primaryTime [-2; -1; 1; 2] []
                ltac:(cbn; lia)) as [Hlen Hall].
  split; [exact Hlen|]. split; [|reflexivity].
  intros alt Hin. destruct (Hall alt Hin) as [[]|Hg].
  split; [exact Hg|].
  destruct Hg as ((o & Ho & ->) & _). unfold msPerHour.
  cbn in Ho. split; lia.
Qed.

(** The default profile around 08:00: the one alternative is 07:00. *)
Lemma generateAlternatives_witness :
  goodAlternative (SNT.initial 0) 28800000 [-2; -1; 1; 2] 25200000
  /\ 25200000 <> 28800000
  /\ 28800000 - 2 * msPerHour <= 25200000 <= 28800000 + 2 * msPerHour.
Proof.
  apply (proj1 (proj2 (generateAlternatives_spec (SNT.initial 0) 28800000))).
  vm_compute. left. reflexivity.
Defined.

(** X11: with hours that are not negative in the profile, the time that
    [batchNonUrgentNotifications] returns is after now; it is at least two
    hours after the last recorded activity, unless it is the fallback slot
    computed from two hours after that activity. *)
Theorem batchNonUrgentNotifications_after_now (Number : string -> jsnum)
    (st : SNT.T) (now t : Z) :
  hoursValid (SNT.userBehavior st) ->
  SNT.batchNonUrgentNotifications Number st now = At t ->
  let lastActive := SNT.lastActiveTime (SNT.userBehavior st) in
  now < t
  /\ (2 * msPerHour <= t - lastActive
      \/ At t = fallbackSlot st now (lastActive + 2 * msPerHour)).
Proof.
  intros Hv. unfold SNT.batchNonUrgentNotifications. cbv zeta.
  destruct (SNT.recommendedTime
              (SNT.predictOptimalTime Number st now medium general))
    as [|rec] eqn:Er; [discriminate|].
  pose proof (predictOptimalTime_after Number st now rec medium general Hv
                ltac:(discriminate) Er) as Hrec.
  destruct (_ <? _) eqn:E.
  - intros Ht. apply Z.ltb_lt in E.
    replace (2 * 60 * 60 * 1000) with (2 * msPerHour) in *
      by (unfold msPerHour; lia).
    split.
    + eapply (findNextOptimalTime_after Number st now); [|exact Hv|exact Ht].
      lia.
    + destruct (findNextOptimalTime_cases Number st now
                  (SNT.lastActiveTime (SNT.userBehavior st) + 2 * msPerHour)
                  medium) as [(i & Hi & Hr & _)|[_ Hr]];
        cbv zeta in Hr; rewrite Hr in Ht.
      * left. injection Ht as <-. unfold hourlyStep, msPerHour. lia.
      * right. congruence.
  - intros [= <-]. apply Z.ltb_ge in E. unfold msPerHour.
    split; [exact Hrec|]. left. lia.
Qed.

(** The default profile, last active at the epoch, asked at 10:00 of that
    day. *)
Lemma batchNonUrgentNotifications_witness :
  let lastActive := SNT.lastActiveTime (SNT.userBehavior (SNT.initial 0)) in
  36000000 < 115200000
  /\ (2 * msPerHour <= 115200000 - lastActive
      \/ At 115200000
         = fallbackSlot (SNT.initial 0) 36000000 (lastActive + 2 * msPerHour)).
Proof.
  apply (batchNonUrgentNotifications_after_now NumberDigits (SNT.initial 0)
           36000000 115200000).
  - exact (initial_hoursValid 0).
  - vm_compute. reflexivity.
Defined.

(** X12: [getNextBatchTime] never names an instant before now.  For the
    daily digest it is the first 20:00 after now; for the weekly digest it
    is 18:00 on the first Sunday after today, so that on a Sunday it is a
    week ahead even before 18:00; for immediate delivery it is now, and
    otherwise 24 hours from now. *)
Theorem getNextBatchTime_spec (st : NS.T) (now : Z) :
  let t := NS.getNextBatchTime st now in
  now <= t
  /\ match NS.frequency (NS.forMedium (NS.preferences st)) with
     | NS.frequency_immediate => t = now
     | NS.daily_digest => nextAtHour now 20 t
     | NS.weekly =>
         getDay t = 0 /\ atHour t 18
         /\ startOfDay now + msPerDay <= startOfDay t
            <= startOfDay now + 7 * msPerDay
         /\ (getDay now = 0 -> startOfDay t = startOfDay now + 7 * msPerDay)
     | NS.disabled => t = now + msPerDay
     end.
Proof.
  cbv zeta. unfold NS.getNextBatchTime.
  destruct (NS.frequency (NS.forMedium (NS.preferences st))); cbv zeta.
  - split; [lia|reflexivity].
  - pose proof (nextOccurrence now 20 ltac:(lia)) as H.
    split; [|exact H]. destruct H as [Hlt _]. lia.
  - destruct ((7 - getDay now) mod 7 =? 0) eqn:E;
      (split; [clock_arith|]); (split; [clock_arith|]);
      (split; [clock_arith|]); (split; [clock_arith|]); clock_arith.
  - unfold msPerDay. split; lia.
Qed.

(** Weekly digests asked for on the first Sunday (4 January 1970) at
    10:00: the batch is set for the Sunday after. *)
Lemma getNextBatchTime_witness :
  startOfDay
    (NS.getNextBatchTime
       (NS.updatePreferences (NS.initial 0 true)
          (NS.mkPartialPreferences None None
             (Some (NS.mkMedium true NS.weekly NS.weekly_summary)) None))
       295200000)
  = startOfDay 295200000 + 7 * msPerDay.
Proof.
  apply (proj2 (proj2 (proj2 (proj2
           (getNextBatchTime_spec
              (NS.updatePreferences (NS.initial 0 true)
                 (NS.mkPartialPreferences None None
                    (Some (NS.mkMedium true NS.weekly NS.weekly_summary))
                    None))
              295200000))))).
  reflexivity.
Defined.

(** X13: [calculateOptimalHour] returns one of the candidate hours of the
    day, or the current hour; so it is an hour of the day whenever the
    candidates are. *)
Theorem calculateOptimalHour_range (Number : string -> jsnum) (st : SNT.T)
    (now : Z) (u : urgency) (ct : contentType) :
  let candidates := SNT.patternOf (SNT.userBehavior st) (getDay now) in
  let r := SNT.calculateOptimalHour Number st now u ct in
  (In r candidates \/ r = getHours now)
  /\ (Forall (fun h => 0 <= h <= 23) candidates -> 0 <= r <= 23).
Proof.
  cbv zeta.
  pose proof (calculateOptimalHour_member Number st now u ct) as H.
  split; [exact H|]. intros Hall. destruct H as [Hin| ->].
  - rewrite Forall_forall in Hall. apply Hall. now apply list_elem_of_In.
  - pose proof (getHours_range now). lia.
Qed.

(** The default profile on the first Thursday at 10:00. *)
Lemma calculateOptimalHour_witness :
  0 <= SNT.calculateOptimalHour NumberDigits (SNT.initial 0) 36000000
         medium recall <= 23.
Proof.
  apply (proj2 (calculateOptimalHour_range NumberDigits (SNT.initial 0)
                  36000000 medium recall)).
  refine (bool_decide_unpack _ _). vm_compute. exact I.
Defined.

(** ** The pending set *)

Lemma keysAreIds_insert (st : NS.T) (n : NS.ScheduledNotification) :
  keysAreIds st ->
  keysAreIds
    (NS.setScheduled st (<[NS.id n := n]> (NS.scheduledNotifications st))).
Proof.
  intros H key m. cbn [NS.scheduledNotifications NS.setScheduled].
  rewrite lookup_insert. destruct (decide (NS.id n = key)) as [<-|Hne].
  - intros [= <-]. reflexivity.
  - apply H.
Qed.

Lemma keysAreIds_delete (st : NS.T) (key : string) :
  keysAreIds st ->
  keysAreIds (NS.setScheduled st (delete key (NS.scheduledNotifications st))).
Proof.
  intros H k m. cbn [NS.scheduledNotifications NS.setScheduled].
  rewrite lookup_delete. destruct (decide (key = k)); [discriminate|apply H].
Qed.

Lemma keysAreIds_same (st st' : NS.T) :
  NS.scheduledNotifications st' = NS.scheduledNotifications st ->
  keysAreIds st -> keysAreIds st'.
Proof.
  intros Heq H key n. rewrite Heq. apply H.
Qed.

Lemma schedule_keeps_keys (Number : string -> jsnum) (st : NS.T) (now : Z)
    (recallId : string) (u : urgency) (hazard : string) :
  keysAreIds st ->
  keysAreIds (fst (NS.scheduleRecallNotification Number st now recallId u hazard)).
Proof.
  intros H. destruct (droppedByPreference st u) eqn:Eg.
  - unfold droppedByPreference in Eg. unfold NS.scheduleRecallNotification.
    destruct (urgency_eqb u high && _); [exact H|].
    cbn [orb] in Eg. rewrite Eg. exact H.
  - destruct (NS.notAfter
                (NS.scheduledFor (requestRecord Number st now recallId u hazard))
                now) eqn:Ed.
    + rewrite (schedule_immediate Number st now recallId u hazard Eg Ed).
      eapply keysAreIds_same; [apply sendNotification_pending|].
      now apply keysAreIds_insert.
    + rewrite (schedule_held Number st now recallId u hazard Eg Ed).
      cbn [fst]. eapply keysAreIds_same; [|apply keysAreIds_insert, H].
      reflexivity.
Qed.

Lemma timerCallback_keeps_keys (Number : string -> jsnum) (st : NS.T)
    (now : Z) (tm : NS.Timer) :
  keysAreIds st -> keysAreIds (NS.timerCallback Number st now tm).
Proof.
  intros H. unfold NS.timerCallback.
  apply keysAreIds_delete.
  destruct (SNT.shouldDeliverNow _ _ _ _ _); [|exact H].
  eapply keysAreIds_same; [apply sendNotification_pending|exact H].
Qed.

Lemma fold_delete_lookup (l : list NS.ScheduledNotification)
    (m : gmap string NS.ScheduledNotification) (key : string)
    (n : NS.ScheduledNotification) :
  fold_left (fun pending x => delete (NS.id x) pending) l m !! key = Some n
  <-> m !! key = Some n /\ forall x, In x l -> NS.id x <> key.
Proof.
  revert m. induction l as [|y rest IH]; intros m; cbn [fold_left].
  - split; [intros H; split; [exact H|intros x []]|tauto].
  - rewrite IH, lookup_delete. destruct (decide (NS.id y = key)) as [E|E].
    + split; [intros [H _]; discriminate|].
      intros [_ H]. exfalso. apply (H y); [now left|exact E].
    + split.
      * intros [Hm Hr]. split; [exact Hm|].
        intros x [<-|Hx]; [exact E|now apply Hr].
      * intros [Hm Hr]. split; [exact Hm|]. intros x Hx. apply Hr. now right.
Qed.

Lemma mediumNotifications_In (st : NS.T) (n : NS.ScheduledNotification) :
  In n (NS.mediumNotifications st)
  <-> NS.type n = medium
      /\ exists key, NS.scheduledNotifications st !! key = Some n.
Proof.
  unfold NS.mediumNotifications. rewrite filter_In, in_map_iff, urgency_eqb_eq.
  split.
  - intros [([key m] & Hsnd & Hin) Ht]. cbn in Hsnd. subst m.
    split; [exact Ht|]. exists key.
    apply elem_of_map_to_list. now apply list_elem_of_In.
  - intros [Ht [key Hk]]. split; [|exact Ht]. exists (key, n).
    split; [reflexivity|]. apply list_elem_of_In.
    now apply elem_of_map_to_list.
Qed.

(** X14: the pending set stays filed by id: if every pending record sits
    under its own id, the same holds after any call of the service, after
    the run of any timer callback and after a batch. *)
Theorem pending_set_filed_by_id (Number : string -> jsnum) (now : Z)
    (st : NS.T) (ev : NS.event) (st' : NS.T) :
  keysAreIds st -> NS.step Number now st ev st' ->
  keysAreIds st'
  /\ forall babyName,
       keysAreIds (fst (NS.batchMediumPriorityNotifications st' now babyName)).
Proof.
  intros H Hstep.
  assert (keysAreIds st') as H'.
  { inversion Hstep; subst.
    - now apply schedule_keeps_keys.
    - eapply keysAreIds_same; [apply sendNotification_pending|exact H].
    - now apply keysAreIds_delete.
    - unfold NS.recordNotificationInteraction.
      destruct (NS.scheduledNotifications st !! notificationId); exact H.
    - exact H.
    - apply timerCallback_keeps_keys. exact H. }
  split; [exact H'|]. intros babyName.
  unfold NS.batchMediumPriorityNotifications. cbv zeta.
  destruct (length (NS.mediumNotifications st') =? 0)%nat; [exact H'|].
  destruct (NS.sendNotification _ _) as [st2 sent] eqn:Es.
  cbn [fst].
  assert (st2 = fst (NS.sendNotification
                       (NS.setScheduled st'
                          (fold_left (fun pending n => delete (NS.id n) pending)
                             (NS.mediumNotifications st')
                             (NS.scheduledNotifications st')))
                       (NS.mkNotification ("batch-" ++ toString now)%string
                          "batch" medium
                          (toString (Z.of_nat (length (NS.mediumNotifications st')))
                           ++ " recalls to review for " ++ babyName
                           ++ "'s safety")%string (At now) 4 None None)))
    as -> by (rewrite Es; reflexivity).
  eapply keysAreIds_same; [apply sendNotification_pending|].
  intros key n. cbn [NS.scheduledNotifications NS.setScheduled].
  rewrite fold_delete_lookup. intros [Hk _]. exact (H' _ _ Hk).
Qed.

Lemma initial_keysAreIds (now : Z) (permission : bool) :
  keysAreIds (NS.initial now permission).
Proof.
  intros key n H. cbn in H. rewrite lookup_empty in H. discriminate.
Qed.

(** The default service after one medium request at 10:00 of the day of
    the epoch. *)
Lemma pending_set_filed_by_id_witness :
  keysAreIds
    (fst (NS.scheduleRecallNotification NumberDigits (NS.initial 0 true)
            36000000 "r1" medium "loose part"))
  /\ forall babyName,
       keysAreIds
         (fst (NS.batchMediumPriorityNotifications
                 (fst (NS.scheduleRecallNotification NumberDigits
                         (NS.initial 0 true) 36000000 "r1" medium "loose part"))
                 36000000 babyName)).
Proof.
  apply (pending_set_filed_by_id NumberDigits 36000000 (NS.initial 0 true)
           (NS.Schedule "r1" medium "loose part")).
  - exact (initial_keysAreIds 0 true).
  - apply NS.step_schedule.
Defined.

(** X15: a batch of a pending set that is filed by id.  With no medium
    record pending nothing happens and the result is empty.  Otherwise
    exactly the medium records leave the pending set, one summary record
    naming their number is handed to the browser, the result holds the one
    send result, and the timers are left as they were, so that the timer
    of a batched notification is still registered. *)
Theorem batchMediumPriorityNotifications_spec (st : NS.T) (now : Z)
    (babyName : string) :
  keysAreIds st ->
  let result := NS.batchMediumPriorityNotifications st now babyName in
  let count := length (NS.mediumNotifications st) in
  (count = 0%nat -> result = (st, []))
  /\ (count <> 0%nat ->
      (forall key n,
         NS.scheduledNotifications (fst result) !! key = Some n
         <-> NS.scheduledNotifications st !! key = Some n
             /\ NS.type n <> medium)
      /\ NS.timers (fst result) = NS.timers st
      /\ snd result = [NS.permissionGranted st]
      /\ NS.delivered (fst result)
         = NS.delivered st
           ++ (if NS.permissionGranted st
               then [batchRecord now babyName count] else [])).
Proof.
  intros Hkeys result count. subst result.
  unfold NS.batchMediumPriorityNotifications. cbv zeta. fold count.
  split.
  - intros ->. reflexivity.
  - intros Hne. replace (count =? 0)%nat with false
      by (symmetry; apply Nat.eqb_neq; exact Hne).
    fold (batchRecord now babyName count).
    unfold NS.sendNotification.
    cbn [NS.permissionGranted NS.setScheduled].
    destruct (NS.permissionGranted st) eqn:Ep;
      cbn [fst snd NS.scheduledNotifications NS.setScheduled NS.setDelivered
           NS.timers NS.delivered];
      (split; [|rewrite ?app_nil_r; repeat split; reflexivity]);
      intros key n; rewrite fold_delete_lookup;
      (split; intros [Hk Hrest]; (split; [exact Hk|]));
      [ intros Ht; apply (Hrest n);
        [apply mediumNotifications_In; split; [exact Ht|now exists key]
        |exact (Hkeys _ _ Hk)]
      | intros x Hx Hid; apply mediumNotifications_In in Hx as [Hxt [k Hxk]];
        pose proof (Hkeys _ _ Hxk) as Hxid;
        assert (k = key) as -> by congruence;
        assert (x = n) as -> by congruence; contradiction
      | intros Ht; apply (Hrest n);
        [apply mediumNotifications_In; split; [exact Ht|now exists key]
        |exact (Hkeys _ _ Hk)]
      | intros x Hx Hid; apply mediumNotifications_In in Hx as [Hxt [k Hxk]];
        pose proof (Hkeys _ _ Hxk) as Hxid;
        assert (k = key) as -> by congruence;
        assert (x = n) as -> by congruence; contradiction ].
Qed.

(** The default service holding one medium request, batched at 11:00 of
    the day of the epoch. *)
Lemma batchMediumPriorityNotifications_witness :
  let st :=
    fst (NS.scheduleRecallNotification NumberDigits (NS.initial 0 true)
           36000000 "r1" medium "loose part") in
  let result := NS.batchMediumPriorityNotifications st 39600000 "Emma" in
  let count := length (NS.mediumNotifications st) in
  (count = 0%nat -> result = (st, []))
  /\ (count <> 0%nat ->
      (forall key n,
         NS.scheduledNotifications (fst result) !! key = Some n
         <-> NS.scheduledNotifications st !! key = Some n
             /\ NS.type n <> medium)
      /\ NS.timers (fst result) = NS.timers st
      /\ snd result = [NS.permissionGranted st]
      /\ NS.delivered (fst result)
         = NS.delivered st
           ++ (if NS.permissionGranted st
               then [batchRecord 39600000 "Emma" count] else [])).
Proof.
  apply (batchMediumPriorityNotifications_spec
           (fst (NS.scheduleRecallNotification NumberDigits (NS.initial 0 true)
                   36000000 "r1" medium "loose part"))
           39600000 "Emma"%string).
  apply schedule_keeps_keys. exact (initial_keysAreIds 0 true).
Defined.

(** ** Time strings that are not clock strings *)

Lemma splitFrom_noColon (s : string) :
  noColon s = true -> splitFrom ":" s = (s, []).
Proof.
  induction s as [|c rest IH]; cbn; [reflexivity|].
  intros H. apply andb_true_iff in H as [Hc Hrest].
  rewrite (IH Hrest). apply negb_true_iff in Hc. rewrite Hc. reflexivity.
Qed.

Lemma add_NaN_r (x : jsnum) : add x NaN = NaN.
Proof. destruct x; reflexivity. Qed.

Lemma parseTime_noColon (Number : string -> jsnum) (s : string) :
  noColon s = true ->
  SNT.parseTime Number s = NaN /\ NS.parseTime Number s = NaN.
Proof.
  intros H. unfold SNT.parseTime, NS.parseTime, split.
  rewrite (splitFrom_noColon s H). cbn [map elemNum nth divLit].
  split; apply add_NaN_r.
Qed.

(** X16: a time string without a colon is not rejected: both [parseTime]
    functions return NaN for it, whatever the conversion of its digits.
    The service then never counts an instant as quiet when either bound of
    its quiet hours is such a string.  The timing class treats a quiet
    period with such a start as lasting from midnight to its end, one with
    such an end as lasting from its start to midnight, and one with both as
    empty. *)
Theorem time_string_without_colon :
  (forall Number s, noColon s = true ->
     SNT.parseTime Number s = NaN /\ NS.parseTime Number s = NaN)
  /\ (forall Number st now,
        let quiet := NS.quietHours (NS.forHigh (NS.preferences st)) in
        noColon (NS.quietStart quiet) = true
        \/ noColon (NS.quietEnd quiet) = true ->
        NS.isInQuietHours Number st now = false)
  /\ (forall Number t quiet,
        noColon (SNT.quietStart quiet) = true ->
        SNT.isTimeInQuietPeriod Number t quiet
        = le (timeHour t) (SNT.parseTime Number (SNT.quietEnd quiet)))
  /\ (forall Number t quiet,
        noColon (SNT.quietEnd quiet) = true ->
        SNT.isTimeInQuietPeriod Number t quiet
        = ge (timeHour t) (SNT.parseTime Number (SNT.quietStart quiet)))
  /\ (forall Number t quiet,
        noColon (SNT.quietStart quiet) = true ->
        noColon (SNT.quietEnd quiet) = true ->
        SNT.isTimeInQuietPeriod Number t quiet = false).
Proof.
  split; [exact parseTime_noColon|]. split; [|split; [|split]].
  - intros Number st now quiet H. unfold NS.isInQuietHours. fold quiet.
    destruct (NS.quietEnabled quiet); [|reflexivity]. cbn [negb].
    destruct H as [H|H];
      destruct (parseTime_noColon Number _ H) as [_ ->].
    + reflexivity.
    + destruct (NS.parseTime Number (NS.quietStart quiet)); cbn;
        rewrite ?andb_false_r; reflexivity.
  - intros Number t quiet H. unfold SNT.isTimeInQuietPeriod. fold (timeHour t).
    destruct (parseTime_noColon Number _ H) as [-> _]. reflexivity.
  - intros Number t quiet H. unfold SNT.isTimeInQuietPeriod. fold (timeHour t).
    destruct (parseTime_noColon Number _ H) as [-> _].
    unfold SNT.isHourInRange.
    destruct (SNT.parseTime Number (SNT.quietStart quiet)); cbn;
      rewrite ?orb_false_r; reflexivity.
  - intros Number t quiet Hs He. unfold SNT.isTimeInQuietPeriod.
    destruct (parseTime_noColon Number _ Hs) as [-> _].
    destruct (parseTime_noColon Number _ He) as [-> _]. reflexivity.
Qed.

(** The string "2200", which lacks its colon. *)
Lemma time_string_without_colon_witness :
  SNT.parseTime NumberDigits "2200" = NaN
  /\ NS.parseTime NumberDigits "2200" = NaN.
Proof.
  apply (proj1 time_string_without_colon NumberDigits "2200"%string).
  reflexivity.
Defined.

(** ** The safety score *)

Lemma count_cons (f : RS.SmartRecommendation -> bool)
    (r : RS.SmartRecommendation) (recs : list RS.SmartRecommendation) :
  (length (List.filter f recs) <= length (List.filter f (r :: recs)))%nat.
Proof.
  cbn. destruct (f r); cbn; lia.
Qed.

Lemma calculateSafetyScore_formula (recs : list RS.SmartRecommendation) :
  (RS.calculateSafetyScore recs
   == Qmax 0
        (100 - inject_Z (criticalCount recs) * 25
         - inject_Z (highCount recs) * 10))%Q
  /\ (0 <= inject_Z (criticalCount recs))%Q
  /\ (0 <= inject_Z (highCount recs))%Q.
Proof.
  unfold RS.calculateSafetyScore, criticalCount, highCount. cbv zeta.
  set (c := inject_Z (Z.of_nat (length (List.filter RS.isCritical recs)))).
  set (h := inject_Z (Z.of_nat (length (List.filter RS.isHigh recs)))).
  assert (0 <= c)%Q as Hc
    by (subst c; rewrite <- (Zle_Qle 0); lia).
  assert (0 <= h)%Q as Hh
    by (subst h; rewrite <- (Zle_Qle 0); lia).
  split; [|split; assumption].
  destruct (Math_min_spec 100 (100 - c * 25 - h * 10)) as [[? ->]|[? ->]];
    match goal with
    | |- (Math_max 0 ?a == Qmax 0 ?b)%Q =>
        destruct (Math_max_spec 0 a) as [[? ->]|[? ->]];
        destruct (Q.max_spec 0 b) as [[? ->]|[? ->]]
    end; lra.
Qed.

(** X17: the safety score is 100 less 25 for each critical and 10 for each
    high-priority recommendation, and never below 0: it lies in
    [0, 100], it is 100 exactly when there is no critical and no
    high-priority recommendation, it is 0 once there are four critical
    ones, and a further recommendation never raises it. *)
Theorem calculateSafetyScore_spec (recs : list RS.SmartRecommendation) :
  (RS.calculateSafetyScore recs
   == Qmax 0
        (100 - inject_Z (criticalCount recs) * 25
         - inject_Z (highCount recs) * 10))%Q
  /\ (0 <= RS.calculateSafetyScore recs <= 100)%Q
  /\ ((RS.calculateSafetyScore recs == 100)%Q
      <-> criticalCount recs = 0 /\ highCount recs = 0)
  /\ (4 <= criticalCount recs -> (RS.calculateSafetyScore recs == 0)%Q)
  /\ (forall r,
        (RS.calculateSafetyScore (r :: recs) <= RS.calculateSafetyScore recs)%Q).
Proof.
  destruct (calculateSafetyScore_formula recs) as (Heq & Hc & Hh).
  split; [exact Heq|].
  assert (forall n : Z, 0 <= n -> (inject_Z n == 0)%Q -> n = 0) as Hzero.
  { intros n Hn H. unfold Qeq in H. cbn in H. lia. }
  assert (forall n : Z, 1 <= n -> (1 <= inject_Z n)%Q) as Hone.
  { intros n Hn. rewrite <- (Zle_Qle 1). exact Hn. }
  assert (0 <= criticalCount recs /\ 0 <= highCount recs) as [Hcz Hhz]
    by (unfold criticalCount, highCount; lia).
  split; [|split; [|split]].
  - rewrite Heq.
    destruct (Q.max_spec 0 (100 - inject_Z (criticalCount recs) * 25
                            - inject_Z (highCount recs) * 10))
      as [[? ->]|[? ->]]; lra.
  - rewrite Heq. split.
    + intros H.
      destruct (Q.max_spec 0 (100 - inject_Z (criticalCount recs) * 25
                              - inject_Z (highCount recs) * 10))
        as [[? E]|[? E]]; rewrite E in H; [|lra].
      split; apply Hzero; try assumption; lra.
    + intros [-> ->].
      assert (inject_Z 0 == 0)%Q as Hz by reflexivity.
      destruct (Q.max_spec 0 (100 - inject_Z 0 * 25 - inject_Z 0 * 10))
        as [[? ->]|[? ->]]; rewrite Hz in *; lra.
  - intros H4. rewrite Heq.
    assert (4 <= inject_Z (criticalCount recs))%Q
      by (rewrite <- (Zle_Qle 4); exact H4).
    destruct (Q.max_spec 0 (100 - inject_Z (criticalCount recs) * 25
                            - inject_Z (highCount recs) * 10))
      as [[? ->]|[? ->]]; lra.
  - intros r.
    destruct (calculateSafetyScore_formula (r :: recs)) as (Heq' & _ & _).
    rewrite Heq, Heq'.
    assert (inject_Z (criticalCount recs)
            <= inject_Z (criticalCount (r :: recs)))%Q as Hcm.
    { rewrite <- Zle_Qle. unfold criticalCount.
      pose proof (count_cons RS.isCritical r recs). lia. }
    assert (inject_Z (highCount recs) <= inject_Z (highCount (r :: recs)))%Q
      as Hhm.
    { rewrite <- Zle_Qle. unfold highCount.
      pose proof (count_cons RS.isHigh r recs). lia. }
    destruct (Q.max_spec 0 (100 - inject_Z (criticalCount recs) * 25
                            - inject_Z (highCount recs) * 10))
      as [[? ->]|[? ->]];
      destruct (Q.max_spec 0 (100 - inject_Z (criticalCount (r :: recs)) * 25
                              - inject_Z (highCount (r :: recs)) * 10))
        as [[? ->]|[? ->]]; lra.
Qed.

(** Four critical recommendations. *)
Lemma calculateSafetyScore_witness :
  (RS.calculateSafetyScore
     [RS.mkRecommendation RS.priority_critical 1;
      RS.mkRecommendation RS.priority_critical 1;
      RS.mkRecommendation RS.priority_critical 1;
      RS.mkRecommendation RS.priority_critical 1] == 0)%Q.
Proof.
  apply (proj1 (proj2 (proj2 (proj2 (calculateSafetyScore_spec _))))).
  unfold criticalCount. cbn. lia.
Defined.

End Extra.
